(** * A/B test of reorder-point policies: the simulation-and-comparison core

    A shallow embedding of [src/rop_calculations.py],
    [src/simulation_engine.py] and [src/statistical_analysis.py], with the
    table preparation of [src/data_download.py].

    Numbers.  The Python code computes on NumPy [float64] scalars.  They are
    modelled by the type [f64]: a real number, one of the two infinities, or
    NaN.  Arithmetic on finite values is exact (rounding, overflow and the
    sign of zero are not modelled); the special values follow IEEE 754 as
    NumPy applies it: a division by zero returns an infinity or NaN and does
    not raise, NaN propagates through arithmetic, and every ordered
    comparison with NaN is false.

    Randomness.  NumPy's global generator is modelled by an explicit state
    [rng]: an infinite tape of raw variates and a read position.

    Tables.  A pandas column is a [list f64]; a table keyed by SKU is a
    [gmap string _]; the YAML configuration is a two-level dictionary. *)

From Stdlib Require Import Reals Lra Lia ZArith String List.
From stdpp Require Import base gmap strings list fin_maps pretty.

Local Open Scope R_scope.

(** * Part I: the embedding *)

(** ** Decisions on real numbers, as booleans *)

Definition Rltb (x y : R) : bool := if Rlt_dec x y then true else false.
Definition Rleb (x y : R) : bool := if Rle_dec x y then true else false.
Definition Reqb (x y : R) : bool := if Req_dec_T x y then true else false.

(** ** float64 values *)

Inductive f64 : Type :=
  | Num (x : R)
  | PosInf
  | NegInf
  | NaN.

Module F.

Definition is_nan (a : f64) : bool :=
  match a with NaN => true | _ => false end.

(** The infinity that a nonzero finite factor [x] turns [+inf] into;
    [0 * inf] is NaN. *)
Definition scaled_inf (x : R) : f64 :=
  if Rltb 0 x then PosInf else if Rltb x 0 then NegInf else NaN.

Definition neg (a : f64) : f64 :=
  match a with
  | Num x => Num (- x)
  | PosInf => NegInf
  | NegInf => PosInf
  | NaN => NaN
  end.

Definition add (a b : f64) : f64 :=
  match a, b with
  | NaN, _ | _, NaN => NaN
  | Num x, Num y => Num (x + y)
  | PosInf, NegInf | NegInf, PosInf => NaN
  | PosInf, _ | _, PosInf => PosInf
  | NegInf, _ | _, NegInf => NegInf
  end.

Definition sub (a b : f64) : f64 :=
  match a, b with
  | NaN, _ | _, NaN => NaN
  | Num x, Num y => Num (x - y)
  | PosInf, PosInf | NegInf, NegInf => NaN
  | PosInf, _ | _, NegInf => PosInf
  | NegInf, _ | _, PosInf => NegInf
  end.

Definition mul (a b : f64) : f64 :=
  match a, b with
  | NaN, _ | _, NaN => NaN
  | Num x, Num y => Num (x * y)
  | Num x, PosInf | PosInf, Num x => scaled_inf x
  | Num x, NegInf | NegInf, Num x => neg (scaled_inf x)
  | PosInf, PosInf | NegInf, NegInf => PosInf
  | PosInf, NegInf | NegInf, PosInf => NegInf
  end.

(** NumPy's true division: [x / 0] is [+inf], [-inf] or NaN by the sign
    of [x], with a warning and no exception. *)
Definition div (a b : f64) : f64 :=
  match a, b with
  | NaN, _ | _, NaN => NaN
  | Num x, Num y => if Reqb y 0 then scaled_inf x else Num (x / y)
  | Num _, PosInf | Num _, NegInf => Num 0
  | PosInf, Num y => if Rltb y 0 then NegInf else PosInf
  | NegInf, Num y => if Rltb y 0 then PosInf else NegInf
  | _, _ => NaN
  end.

Definition sqrt (a : f64) : f64 :=
  match a with
  | Num x => if Rltb x 0 then NaN else Num (R_sqrt.sqrt x)
  | PosInf => PosInf
  | NegInf | NaN => NaN
  end.

(** [a ** 2] *)
Definition square (a : f64) : f64 := mul a a.

Definition ltb (a b : f64) : bool :=
  match a, b with
  | NaN, _ | _, NaN => false
  | Num x, Num y => Rltb x y
  | PosInf, _ | _, NegInf => false
  | NegInf, _ | _, PosInf => true
  end.

Definition leb (a b : f64) : bool :=
  match a, b with
  | NaN, _ | _, NaN => false
  | Num x, Num y => Rleb x y
  | NegInf, _ | _, PosInf => true
  | PosInf, _ | _, NegInf => false
  end.

Definition gtb (a b : f64) : bool := ltb b a.
Definition geb (a b : f64) : bool := leb b a.

Definition eqb (a b : f64) : bool :=
  match a, b with
  | Num x, Num y => Reqb x y
  | PosInf, PosInf | NegInf, NegInf => true
  | _, _ => false
  end.

(** [a] is a real number that is not negative. *)
Definition nonneg (a : f64) : Prop := exists x, a = Num x /\ 0 <= x.

(** [a] is a real number that is positive. *)
Definition positive (a : f64) : Prop := exists x, a = Num x /\ 0 < x.

End F.

(** ** NumPy reductions over an array ([ndarray] methods) *)

Module Np.

(** [sum] *)
Definition sum (arr : list f64) : f64 := foldr F.add (Num 0) arr.

(** [arr.mean()]: NaN on an empty array (0/0). *)
Definition mean (arr : list f64) : f64 :=
  F.div (sum arr) (Num (INR (length arr))).

(** [arr.var()], [ddof = 0]: the mean of the squared deviations. *)
Definition var (arr : list f64) : f64 :=
  mean ((fun x => F.square (F.sub x (mean arr))) <$> arr).

(** [arr.std()], [ddof = 0]. *)
Definition std (arr : list f64) : f64 := F.sqrt (var arr).

(** The slice [arr[-k:]] for a positive [k]: the last [k] elements, or the
    whole array when it is shorter. *)
Definition last_n {A} (k : nat) (arr : list A) : list A :=
  drop (length arr - k) arr.

End Np.

(** ** pandas reductions over a column ([Series] methods, [skipna=True]) *)

Module Pd.

Definition dropna (col : list f64) : list f64 :=
  filter (fun x => F.is_nan x = false) col.

(** [col.sum()] *)
Definition sum (col : list f64) : f64 := Np.sum (dropna col).

(** [col.mean()] *)
Definition mean (col : list f64) : f64 := Np.mean (dropna col).

(** [col.var()], [ddof = 1]: NaN unless at least two values are present. *)
Definition var (col : list f64) : f64 :=
  let v := dropna col in
  if (length v <=? 1)%nat then NaN
  else F.div (Np.sum ((fun x => F.square (F.sub x (Np.mean v))) <$> v))
             (Num (INR (length v - 1))).

(** [col.std()], [ddof = 1]. *)
Definition std (col : list f64) : f64 := F.sqrt (var col).

(** [col.fillna(d)], on one value. *)
Definition fillna (d : f64) (x : f64) : f64 := if F.is_nan x then d else x.

(** [groupby(key)[value]]: the values of each key, in row order. *)
Definition group_by {A} (rows : list (string * A)) : gmap string (list A) :=
  foldr (fun kv m => partial_alter (fun o => Some (kv.2 :: default [] o)) kv.1 m)
        ∅ rows.

End Pd.

(** ** NumPy's global random generator *)

(** One raw variate of the generator.  [np.random.choice] reads it as an
    integer and reduces it to an index; [np.random.random] reads it as a
    float of the unit interval. *)
Record raw : Type := mkRaw { as_index : nat; as_unit : R }.

Record rng : Type := mkRng { tape : nat -> raw; pos : nat }.

Definition rng_advance (g : rng) : rng :=
  {| tape := tape g; pos := S (pos g) |}.

Definition rng_peek (g : rng) : raw := tape g (pos g).

(** [np.random.choice(arr)] on a non-empty array. *)
Definition np_random_choice (g : rng) (arr : list f64) : f64 * rng :=
  (nth (as_index (rng_peek g) mod length arr) arr (Num 0), rng_advance g).

(** [np.random.random()] *)
Definition np_random_random (g : rng) : f64 * rng :=
  (Num (as_unit (rng_peek g)), rng_advance g).

(** ** The YAML configuration ([self.config]) *)

Inductive scalar : Type :=
  | SInt (z : Z)
  | SFloat (x : R)
  | SStr (s : string).

(** [config[section][key]]; [None] stands for the [KeyError]. *)
Definition cfg_get (config : gmap string (gmap string scalar))
    (section key : string) : option scalar :=
  config !! section ≫= fun m => m !! key.

(** A scalar used in float arithmetic; a string raises [TypeError]. *)
Definition scalar_num (v : scalar) : option f64 :=
  match v with
  | SInt z => Some (Num (IZR z))
  | SFloat x => Some (Num x)
  | SStr _ => None
  end.

(** A scalar accepted by [np.random.seed]: an integer of [0, 2^32). *)
Definition scalar_seed (v : scalar) : option Z :=
  match v with
  | SInt z => if decide (0 <= z < 2 ^ 32)%Z then Some z else None
  | _ => None
  end.

(** ** rop_calculations.py *)

Inductive rop_method : Type := fixed | dynamic.

(** The dictionary a policy returns; the two diagnostics are keys of the
    dynamic policy's result only. *)
Record RopResult : Type := mkRopResult {
  rop : f64;
  safety_stock : f64;
  wma_demand : option f64;
  forecasted_lt : option f64;
  method : rop_method
}.

(** The [weights] argument, keys ['30d'], ['60d'] and ['90d']. *)
Record Weights : Type := mkWeights { w30d : f64; w60d : f64; w90d : f64 }.

Definition default_weights : Weights :=
  {| w30d := Num 0.5; w60d := Num 0.3; w90d := Num 0.2 |}.

Section RopCalculations.

(** [scipy.stats.norm.ppf], the quantile function of the standard normal
    distribution. *)
Variable norm_ppf : f64 -> f64.

Definition calculate_fixed_rop
    (avg_daily_demand avg_lead_time demand_std service_level : f64) : RopResult :=
  let z_score := norm_ppf service_level in
  let safety_stock := F.mul (F.mul z_score demand_std) (F.sqrt avg_lead_time) in
  let reorder_point := F.add (F.mul avg_daily_demand avg_lead_time) safety_stock in
  {| rop := reorder_point;
     safety_stock := safety_stock;
     wma_demand := None;
     forecasted_lt := None;
     method := fixed |}.

Definition calculate_dynamic_rop
    (recent_demand recent_lead_times : list f64) (service_level : f64)
    (weights : Weights) : RopResult :=
  let wma_demand :=
    if (90 <=? length recent_demand)%nat then
      let demand_30d := Np.mean (Np.last_n 30 recent_demand) in
      let demand_60d := Np.mean (Np.last_n 60 recent_demand) in
      let demand_90d := Np.mean (Np.last_n 90 recent_demand) in
      F.add (F.add (F.mul (w30d weights) demand_30d)
                   (F.mul (w60d weights) demand_60d))
            (F.mul (w90d weights) demand_90d)
    else Np.mean recent_demand in
  let forecasted_lt :=
    if (0 <? length recent_lead_times)%nat
    then Np.mean (Np.last_n 10 recent_lead_times)
    else Num 14 in
  let recent_std :=
    if (30 <=? length recent_demand)%nat
    then Np.std (Np.last_n 30 recent_demand)
    else Np.std recent_demand in
  let z_score := norm_ppf service_level in
  let safety_stock := F.mul (F.mul z_score recent_std) (F.sqrt forecasted_lt) in
  let reorder_point := F.add (F.mul wma_demand forecasted_lt) safety_stock in
  {| rop := reorder_point;
     safety_stock := safety_stock;
     wma_demand := Some wma_demand;
     forecasted_lt := Some forecasted_lt;
     method := dynamic |}.

End RopCalculations.

Definition calculate_eoq (annual_demand order_cost holding_cost_rate unit_cost : f64) : f64 :=
  let holding_cost := F.mul unit_cost holding_cost_rate in
  F.sqrt (F.div (F.mul (F.mul (Num 2) annual_demand) order_cost) holding_cost).

(** ** simulation_engine.py *)

(** A row of the SKU master table (the columns the engine reads). *)
Record SkuRow : Type := mkSkuRow { sm_sku_id : string; sm_abc_class : string }.

(** A row of the daily demand table. *)
Record DemandRow : Type := mkDemandRow {
  dd_date : nat;
  dd_sku_id : string;
  dd_quantity : f64
}.

(** A row of the purchase order table (the columns the engine reads). *)
Record PoRow : Type := mkPoRow { po_sku_id : string; po_lead_time_days : f64 }.

(** *** assign_treatment_groups *)

Section Assignment.

(** [np.random.seed(s)]: the generator state that the seed [s] determines. *)
Variable np_random_seed : Z -> rng.

(** [np.random.shuffle(arr)]: the shuffled array and the generator after it. *)
Variable np_random_shuffle : rng -> list string -> list string * rng.

(** [sku_master[sku_master['abc_class'] == abc_class]['sku_id'].values] *)
Definition class_skus (sku_master : list SkuRow) (abc_class : string) : list string :=
  sm_sku_id <$> filter (fun r => sm_abc_class r = abc_class) sku_master.

(** One pass of the loop over the classes: the stratum's SKUs that go to
    control and to treatment. *)
Definition split_class (g : rng) (sku_master : list SkuRow) (abc_class : string)
    : (list string * list string) * rng :=
  let n := length (class_skus sku_master abc_class) in
  let '(shuffled, g') := np_random_shuffle g (class_skus sku_master abc_class) in
  let split := (n / 2)%nat in
  ((take split shuffled, drop split shuffled), g').

Fixpoint assign_classes (g : rng) (sku_master : list SkuRow) (classes : list string)
    (control_skus treatment_skus : list string)
    : (list string * list string) * rng :=
  match classes with
  | [] => ((control_skus, treatment_skus), g)
  | abc_class :: rest =>
      let '((c, t), g') := split_class g sku_master abc_class in
      assign_classes g' sku_master rest (control_skus ++ c) (treatment_skus ++ t)
  end.

(** The generator [g] the call finds is replaced by the seeded one. *)
Definition assign_treatment_groups (config : gmap string (gmap string scalar))
    (g : rng) (sku_master : list SkuRow)
    : option ((list string * list string) * rng) :=
  seed ← cfg_get config "ab_test" "random_seed" ≫= scalar_seed;
  Some (assign_classes (np_random_seed seed) sku_master ["A"; "B"; "C"]%string [] []).

End Assignment.

(** *** calculate_sku_statistics *)

Module Stats.

Record row : Type := mkRow {
  avg_daily_demand : f64;
  demand_std : f64;
  total_demand : f64;
  avg_lead_time : f64;
  lead_time_std : f64
}.

End Stats.

(** The statistics table, keyed by [sku_id].  The left merge leaves NaN in
    the lead time columns of a SKU without purchase orders; [fillna] then
    replaces the NaN of these two columns. *)
Definition calculate_sku_statistics
    (daily_demand : list DemandRow) (purchase_orders : list PoRow)
    : gmap string Stats.row :=
  let stats := Pd.group_by ((fun r => (dd_sku_id r, dd_quantity r)) <$> daily_demand) in
  let po_stats :=
    Pd.group_by ((fun r => (po_sku_id r, po_lead_time_days r)) <$> purchase_orders) in
  map_imap (fun sku quantity =>
    let lead_time_days := po_stats !! sku in
    Some {| Stats.avg_daily_demand := Pd.mean quantity;
            Stats.demand_std := Pd.std quantity;
            Stats.total_demand := Pd.sum quantity;
            Stats.avg_lead_time :=
              Pd.fillna (Num 14) (from_option Pd.mean NaN lead_time_days);
            Stats.lead_time_std :=
              Pd.fillna (Num 3) (from_option Pd.std NaN lead_time_days) |}) stats.

(** *** simulate_sku_inventory *)

(** The local variables of the day loop, with the generator. *)
Module Loop.

Record state : Type := mkState {
  inventory : f64;
  on_order : f64;
  stockouts : nat;
  total_demand : f64;
  demand_met : f64;
  inventory_levels : list f64;
  gen : rng
}.

End Loop.

(** The dictionary [simulate_sku_inventory] returns. *)
Module Sim.

Record metrics : Type := mkMetrics {
  fill_rate : f64;
  avg_inventory : f64;
  stockout_count : nat;
  total_demand : f64;
  demand_met : f64
}.

End Sim.

(** Daily demand (sample from historical). *)
Definition draw_demand (demand_data : list f64) (g : rng) : f64 * rng :=
  if (0 <? length demand_data)%nat
  then np_random_choice g demand_data
  else (Num 0, g).

(** Fulfill demand. *)
Definition fulfil (daily_demand : f64) (s : Loop.state) : Loop.state :=
  if F.geb (Loop.inventory s) daily_demand then
    {| Loop.inventory := F.sub (Loop.inventory s) daily_demand;
       Loop.on_order := Loop.on_order s;
       Loop.stockouts := Loop.stockouts s;
       Loop.total_demand := Loop.total_demand s;
       Loop.demand_met := F.add (Loop.demand_met s) daily_demand;
       Loop.inventory_levels := Loop.inventory_levels s;
       Loop.gen := Loop.gen s |}
  else
    {| Loop.inventory := Num 0;
       Loop.on_order := Loop.on_order s;
       Loop.stockouts := Loop.stockouts s + 1;
       Loop.total_demand := Loop.total_demand s;
       Loop.demand_met := F.add (Loop.demand_met s) (Loop.inventory s);
       Loop.inventory_levels := Loop.inventory_levels s;
       Loop.gen := Loop.gen s |}.

(** Check if need to reorder. *)
Definition reorder (rop order_qty : f64) (s : Loop.state) : Loop.state :=
  if F.leb (Loop.inventory s) rop && F.eqb (Loop.on_order s) (Num 0) then
    {| Loop.inventory := Loop.inventory s;
       Loop.on_order := order_qty;
       Loop.stockouts := Loop.stockouts s;
       Loop.total_demand := Loop.total_demand s;
       Loop.demand_met := Loop.demand_met s;
       Loop.inventory_levels := Loop.inventory_levels s;
       Loop.gen := Loop.gen s |}
  else s.

(** Whether the outstanding order arrives today.  The generator is read
    only when an order is outstanding ([and] does not evaluate its second
    operand otherwise). *)
Definition arrival (lead_time : f64) (s : Loop.state) : bool * rng :=
  if F.gtb (Loop.on_order s) (Num 0) then
    let '(u, g') := np_random_random (Loop.gen s) in
    (F.ltb u (F.div (Num 1) lead_time), g')
  else (false, Loop.gen s).

(** Receive orders (after lead time). *)
Definition receive (lead_time : f64) (s : Loop.state) : Loop.state :=
  let '(arrived, g') := arrival lead_time s in
  if arrived then
    {| Loop.inventory := F.add (Loop.inventory s) (Loop.on_order s);
       Loop.on_order := Num 0;
       Loop.stockouts := Loop.stockouts s;
       Loop.total_demand := Loop.total_demand s;
       Loop.demand_met := Loop.demand_met s;
       Loop.inventory_levels := Loop.inventory_levels s;
       Loop.gen := g' |}
  else
    {| Loop.inventory := Loop.inventory s;
       Loop.on_order := Loop.on_order s;
       Loop.stockouts := Loop.stockouts s;
       Loop.total_demand := Loop.total_demand s;
       Loop.demand_met := Loop.demand_met s;
       Loop.inventory_levels := Loop.inventory_levels s;
       Loop.gen := g' |}.

(** [inventory_levels.append(inventory)] *)
Definition record_level (s : Loop.state) : Loop.state :=
  {| Loop.inventory := Loop.inventory s;
     Loop.on_order := Loop.on_order s;
     Loop.stockouts := Loop.stockouts s;
     Loop.total_demand := Loop.total_demand s;
     Loop.demand_met := Loop.demand_met s;
     Loop.inventory_levels := Loop.inventory_levels s ++ [Loop.inventory s];
     Loop.gen := Loop.gen s |}.

(** [total_demand += daily_demand], with the generator after the draw. *)
Definition observe (daily_demand : f64) (g' : rng) (s : Loop.state) : Loop.state :=
  {| Loop.inventory := Loop.inventory s;
     Loop.on_order := Loop.on_order s;
     Loop.stockouts := Loop.stockouts s;
     Loop.total_demand := F.add (Loop.total_demand s) daily_demand;
     Loop.demand_met := Loop.demand_met s;
     Loop.inventory_levels := Loop.inventory_levels s;
     Loop.gen := g' |}.

(** The body of [for day in range(self.test_days)]. *)
Definition simulate_day (demand_data : list f64) (rop order_qty lead_time : f64)
    (s : Loop.state) : Loop.state :=
  let '(daily_demand, g') := draw_demand demand_data (Loop.gen s) in
  record_level
    (receive lead_time
       (reorder rop order_qty
          (fulfil daily_demand
             (observe daily_demand g' s)))).

(** The state after the first [days] passes of the loop. *)
Fixpoint run_days (days : nat) (demand_data : list f64) (rop order_qty lead_time : f64)
    (s : Loop.state) : Loop.state :=
  match days with
  | O => s
  | S d => run_days d demand_data rop order_qty lead_time
             (simulate_day demand_data rop order_qty lead_time s)
  end.

Definition initial_state (rop : f64) (g : rng) : Loop.state :=
  {| Loop.inventory := F.mul rop (Num 2);
     Loop.on_order := Num 0;
     Loop.stockouts := 0;
     Loop.total_demand := Num 0;
     Loop.demand_met := Num 0;
     Loop.inventory_levels := [];
     Loop.gen := g |}.

(** [demand_data] is the SKU's ['quantity'] column; [test_days] is
    [self.test_days]. *)
Definition simulate_sku_inventory (test_days : nat) (g : rng)
    (sku : string) (demand_data : list f64) (rop lead_time : f64)
    : Sim.metrics * rng :=
  let order_qty := F.mul rop (Num 1.5) in
  let s := run_days test_days demand_data rop order_qty lead_time (initial_state rop g) in
  let fill_rate :=
    if F.gtb (Loop.total_demand s) (Num 0)
    then F.mul (F.div (Loop.demand_met s) (Loop.total_demand s)) (Num 100)
    else Num 100 in
  let avg_inventory := Np.mean (Loop.inventory_levels s) in
  ({| Sim.fill_rate := fill_rate;
      Sim.avg_inventory := avg_inventory;
      Sim.stockout_count := Loop.stockouts s;
      Sim.total_demand := Loop.total_demand s;
      Sim.demand_met := Loop.demand_met s |}, Loop.gen s).

(** *** simulate_group *)

(** A row of the results table: the metrics of the simulation, updated with
    the SKU, the method and the policy's reorder point and safety stock. *)
Module Out.

Record row : Type := mkRow {
  sku_id : string;
  method : rop_method;
  rop : f64;
  safety_stock : f64;
  fill_rate : f64;
  avg_inventory : f64;
  stockout_count : nat;
  total_demand : f64;
  demand_met : f64
}.

End Out.

Section SimulateGroup.

Variable norm_ppf : f64 -> f64.

(** [self.service_level] and [self.test_days] *)
Variables (service_level : f64) (test_days : nat).

(** [daily_demand[daily_demand['sku_id'] == sku]['quantity'].values] *)
Definition sku_quantities (daily_demand : list DemandRow) (sku : string) : list f64 :=
  dd_quantity <$> filter (fun r => dd_sku_id r = sku) daily_demand.

(** One pass of the loop over the SKUs; [None] stands for the [IndexError]
    of [.iloc[0]] on a SKU that has no row of statistics. *)
Definition simulate_one (g : rng) (sku : string) (daily_demand : list DemandRow)
    (sku_stats : gmap string Stats.row) (m : rop_method) : option (Out.row * rng) :=
  sku_data ← sku_stats !! sku;
  let sku_demand := sku_quantities daily_demand sku in
  let rop_result :=
    match m with
    | fixed =>
        calculate_fixed_rop norm_ppf
          (Stats.avg_daily_demand sku_data) (Stats.avg_lead_time sku_data)
          (Stats.demand_std sku_data) service_level
    | dynamic =>
        let recent_demand := sku_demand in
        let recent_lt := replicate 10 (Stats.avg_lead_time sku_data) in
        calculate_dynamic_rop norm_ppf recent_demand recent_lt service_level
          default_weights
    end in
  let '(sim_result, g') :=
    simulate_sku_inventory test_days g sku sku_demand (rop rop_result)
      (Stats.avg_lead_time sku_data) in
  Some ({| Out.sku_id := sku;
           Out.method := m;
           Out.rop := rop rop_result;
           Out.safety_stock := safety_stock rop_result;
           Out.fill_rate := Sim.fill_rate sim_result;
           Out.avg_inventory := Sim.avg_inventory sim_result;
           Out.stockout_count := Sim.stockout_count sim_result;
           Out.total_demand := Sim.total_demand sim_result;
           Out.demand_met := Sim.demand_met sim_result |}, g').

Fixpoint simulate_group (g : rng) (sku_list : list string) (daily_demand : list DemandRow)
    (sku_stats : gmap string Stats.row) (m : rop_method)
    : option (list Out.row * rng) :=
  match sku_list with
  | [] => Some ([], g)
  | sku :: rest =>
      '(sim_result, g') ← simulate_one g sku daily_demand sku_stats m;
      '(results, g'') ← simulate_group g' rest daily_demand sku_stats m;
      Some (sim_result :: results, g'')
  end.

End SimulateGroup.

(** ** statistical_analysis.py *)

(** The dictionary [compare_means] returns. *)
Record ComparisonMetric : Type := mkComparisonMetric {
  metric : string;
  control_mean : f64;
  treatment_mean : f64;
  difference : f64;
  pct_change : f64;
  p_value : f64;
  is_significant : bool;
  cohens_d : f64;
  ci_lower : f64;
  ci_upper : f64
}.

(** The dictionary [calculate_roi] returns. *)
Record RoiReport : Type := mkRoiReport {
  inventory_savings : f64;
  annual_carrying_savings : f64;
  stockout_savings : f64;
  total_annual_benefit : f64;
  payback_months : f64;
  npv_3year : f64;
  roi_year1 : f64
}.

(** [np.sqrt((control.std()**2 + treatment.std()**2) / 2)] *)
Definition pooled_std (control treatment : list f64) : f64 :=
  F.sqrt (F.div (F.add (F.square (Pd.std control)) (F.square (Pd.std treatment)))
                (Num 2)).

Section CompareMeans.

(** [scipy.stats.ttest_ind]: the t statistic and the two-sided p-value. *)
Variable ttest_ind : list f64 -> list f64 -> f64 * f64.

(** [self.alpha] *)
Variable alpha : f64.

Definition compare_means (control treatment : list f64) (metric_name : string)
    : ComparisonMetric :=
  let '(t_stat, p_value) := ttest_ind treatment control in
  let control_mean := Pd.mean control in
  let treatment_mean := Pd.mean treatment in
  let difference := F.sub treatment_mean control_mean in
  let pct_change := F.mul (F.div difference control_mean) (Num 100) in
  let pooled_std := pooled_std control treatment in
  let cohens_d :=
    if F.gtb pooled_std (Num 0) then F.div difference pooled_std else Num 0 in
  let se :=
    F.sqrt (F.add (F.div (Pd.var control) (Num (INR (length control))))
                  (F.div (Pd.var treatment) (Num (INR (length treatment))))) in
  let ci_lower := F.sub difference (F.mul (Num 1.96) se) in
  let ci_upper := F.add difference (F.mul (Num 1.96) se) in
  let is_significant := F.ltb p_value alpha in
  {| metric := metric_name;
     control_mean := control_mean;
     treatment_mean := treatment_mean;
     difference := difference;
     pct_change := pct_change;
     p_value := p_value;
     is_significant := is_significant;
     cohens_d := cohens_d;
     ci_lower := ci_lower;
     ci_upper := ci_upper |}.

End CompareMeans.

(** The columns of a results table that [calculate_roi] reads. *)
Definition col_avg_inventory (t : list Out.row) : list f64 := Out.avg_inventory <$> t.
Definition col_stockout_count (t : list Out.row) : list f64 :=
  (fun r => Num (INR (Out.stockout_count r))) <$> t.

(** [npv += total_annual_benefit / (1.10 ** year)] for the given years. *)
Definition npv_years (total_annual_benefit : f64) (years : list nat) (npv : f64) : f64 :=
  foldl (fun acc year => F.add acc (F.div total_annual_benefit (Num (1.10 ^ year))))
        npv years.

(** [None] stands for the [KeyError] of a configuration without
    [simulation.carrying_cost_rate] (or the [TypeError] of one that is not a
    number). *)
Definition calculate_roi (config : gmap string (gmap string scalar))
    (control treatment : list Out.row) : option RoiReport :=
  let avg_unit_cost := Num 25 in
  let control_inv_value := F.mul (Pd.sum (col_avg_inventory control)) avg_unit_cost in
  let treatment_inv_value := F.mul (Pd.sum (col_avg_inventory treatment)) avg_unit_cost in
  let inventory_savings := F.sub control_inv_value treatment_inv_value in
  carrying_rate ← cfg_get config "simulation" "carrying_cost_rate" ≫= scalar_num;
  let annual_carrying_savings := F.mul inventory_savings carrying_rate in
  let stockout_cost_per_incident := Num 150 in
  let control_stockouts := Pd.sum (col_stockout_count control) in
  let treatment_stockouts := Pd.sum (col_stockout_count treatment) in
  let stockout_savings :=
    F.mul (F.sub control_stockouts treatment_stockouts) stockout_cost_per_incident in
  let implementation_cost := Num 50000 in
  let annual_maintenance := Num 15000 in
  let total_annual_benefit :=
    F.sub (F.add annual_carrying_savings stockout_savings) annual_maintenance in
  let payback_months :=
    if F.gtb total_annual_benefit (Num 0)
    then F.div implementation_cost (F.div total_annual_benefit (Num 12))
    else PosInf in
  let npv := npv_years total_annual_benefit [1; 2; 3]%nat (F.neg implementation_cost) in
  let roi_year1 :=
    F.mul (F.div (F.sub total_annual_benefit implementation_cost) implementation_cost)
          (Num 100) in
  Some {| inventory_savings := inventory_savings;
          annual_carrying_savings := annual_carrying_savings;
          stockout_savings := stockout_savings;
          total_annual_benefit := total_annual_benefit;
          payback_months := payback_months;
          npv_3year := npv;
          roi_year1 := roi_year1 |}.

(** ** Vocabulary of the properties *)

Definition Rsum (xs : list R) : R := foldr Rplus 0 xs.

(** The arithmetic mean of a non-empty list. *)
Definition Rmean (xs : list R) : R := Rsum xs / INR (length xs).

(** The population variance ([ddof = 0]) of a non-empty list. *)
Definition Rvar (xs : list R) : R :=
  Rmean ((fun x => (x - Rmean xs) * (x - Rmean xs)) <$> xs).

(** The sample variance ([ddof = 1]) of a list of at least two numbers. *)
Definition Rsvar (xs : list R) : R :=
  Rsum ((fun x => (x - Rmean xs) * (x - Rmean xs)) <$> xs) / INR (length xs - 1).

(** What the policies use of [scipy.stats.norm.ppf]: at a probability
    strictly between 0 and 1 it is a real number, negative below one half,
    zero at one half and positive above. *)
Definition normal_quantile (ppf : f64 -> f64) : Prop :=
  forall p, 0 < p < 1 ->
    exists z, ppf (Num p) = Num z
              /\ (p < 1 / 2 -> z < 0) /\ (p = 1 / 2 -> z = 0) /\ (1 / 2 < p -> 0 < z).

(** The quantile function of the standard logistic distribution, which has
    the sign and the limits of the normal one. *)
Definition logistic_ppf (p : f64) : f64 :=
  match p with
  | Num x =>
      if Rltb 0 x && Rltb x 1 then Num (ln (x / (1 - x)))
      else if Reqb x 0 then NegInf
      else if Reqb x 1 then PosInf
      else NaN
  | _ => NaN
  end.

(** What one stratum contributes: a shuffle of its SKUs cut at the floor of
    half its size, the first part to control and the rest to treatment, so
    that the two counts differ by at most one. *)
Definition stratum_split (sku_master : list SkuRow) (abc_class : string)
    (control treatment : list string) : Prop :=
  exists shuffled,
    shuffled ≡ₚ class_skus sku_master abc_class
    /\ control = take (length shuffled / 2) shuffled
    /\ treatment = drop (length shuffled / 2) shuffled
    /\ (length control <= length treatment <= length control + 1)%nat.

(** The outstanding quantity is nothing or the order quantity. *)
Definition one_order (order_qty : f64) (s : Loop.state) : Prop :=
  Loop.on_order s = Num 0 \/ Loop.on_order s = order_qty.

(** The loop variables are numbers, stock and orders are not negative, and
    the demand met is between 0 and the total demand. *)
Definition books_balance (s : Loop.state) : Prop :=
  exists i o t m,
    Loop.inventory s = Num i /\ Loop.on_order s = Num o
    /\ Loop.total_demand s = Num t /\ Loop.demand_met s = Num m
    /\ 0 <= i /\ 0 <= o /\ 0 <= m <= t.

(** The fill rate is a percentage, the demand met does not exceed the total
    demand, and a zero total demand gives a fill rate of 100. *)
Definition metrics_valid (m : Sim.metrics) : Prop :=
  exists f t d,
    Sim.fill_rate m = Num f /\ Sim.total_demand m = Num t /\ Sim.demand_met m = Num d
    /\ 0 <= f <= 100 /\ d <= t /\ (t = 0 -> f = 100).

(** The demand met is NaN and the total demand is a positive number. *)
Definition met_is_nan (s : Loop.state) : Prop :=
  Loop.demand_met s = NaN
  /\ exists t, Loop.total_demand s = Num t /\ 0 < t.

(** ** Example inputs *)

(** The generator whose every raw variate is zero: [choice] draws the first
    element and [random] draws 0.0. *)
Definition zero_tape : rng :=
  {| tape := fun _ => {| as_index := 0; as_unit := 0 |}; pos := 0 |}.

(** A generator for each seed: the raw variates of seed [s] are those of
    a linear congruential sequence started at [s]. *)
Definition lcg_seed (s : Z) : rng :=
  {| tape := fun k =>
       {| as_index := Z.to_nat ((1103515245 * (s + Z.of_nat k) + 12345) mod 2 ^ 31);
          as_unit := 0 |};
     pos := 0 |}.

(** [x[i], x[j] = x[j], x[i]] *)
Definition swap_items (x : list string) (i j : nat) : list string :=
  match x !! i, x !! j with
  | Some a, Some b => <[j:=a]> (<[i:=b]> x)
  | _, _ => x
  end.

(** The Fisher-Yates pass of the shuffle, from position [i] down to 1: the
    item at [i] is exchanged with the item at a random position of [0, i]. *)
Fixpoint fisher_yates (i : nat) (g : rng) (x : list string) : list string * rng :=
  match i with
  | O => (x, g)
  | S k =>
      let j := (as_index (rng_peek g) mod (i + 1))%nat in
      fisher_yates k (rng_advance g) (swap_items x i j)
  end.

(** A shuffle as [np.random.shuffle] performs it. *)
Definition tape_shuffle (g : rng) (x : list string) : list string * rng :=
  fisher_yates (length x - 1) g x.

Definition example_config : gmap string (gmap string scalar) :=
  {[ "ab_test" := {[ "random_seed" := SInt 42; "alpha" := SFloat 0.05 ]};
     "simulation" := {[ "carrying_cost_rate" := SFloat 0.25;
                        "service_level" := SFloat 0.95;
                        "test_duration_days" := SInt 90 ]} ]}%string.

Definition example_sku_master : list SkuRow :=
  [ mkSkuRow "SKU1" "A"; mkSkuRow "SKU2" "B"; mkSkuRow "SKU3" "A";
    mkSkuRow "SKU4" "C"; mkSkuRow "SKU5" "A"; mkSkuRow "SKU6" "B" ]%string.

(** One demand observation for SKU1, and no purchase order. *)
Definition single_observation : list DemandRow :=
  [ mkDemandRow 0 "SKU1" (Num 5) ].

(** A stand-in for the t-test, where its result does not matter: the
    statistic 0 and the p-value 1. *)
Definition null_ttest (a b : list f64) : f64 * f64 := (Num 0, Num 1).

(** A result row with the given average inventory and stockout count. *)
Definition result_row (sku : string) (m : rop_method) (avg_inv : R) (stockout : nat)
    : Out.row :=
  {| Out.sku_id := sku; Out.method := m; Out.rop := Num 50; Out.safety_stock := Num 10;
     Out.fill_rate := Num 95; Out.avg_inventory := Num avg_inv;
     Out.stockout_count := stockout; Out.total_demand := Num 900;
     Out.demand_met := Num 855 |}.

Definition example_control : list Out.row := [ result_row "SKU1" fixed 100 2 ].
Definition example_treatment : list Out.row := [ result_row "SKU2" dynamic 90 1 ].

(** The example configuration with a section of monetary constants, none of
    which has the value that [calculate_roi] uses. *)
Definition costly_config : gmap string (gmap string scalar) :=
  <[ "roi" := {[ "unit_cost" := SFloat 40;
                 "stockout_cost" := SFloat 500;
                 "implementation_cost" := SFloat 1000;
                 "annual_maintenance" := SFloat 0;
                 "discount_rate" := SFloat 0.5 ]} ]> example_config.

(** ** Vocabulary of the further properties *)


(** The demand met is the total demand as long as no day was a stockout,
    and less than it afterwards. *)
Definition shortfall_counted (s : Loop.state) : Prop :=
  exists t m,
    Loop.total_demand s = Num t /\ Loop.demand_met s = Num m
    /\ (Loop.stockouts s = O -> m = t) /\ (Loop.stockouts s <> O -> m < t).

(** Nothing was demanded, ordered or drawn: the stock is twice the reorder
    point [r], as is every recorded level, and the generator is [g]. *)
Definition idle (r : R) (g : rng) (s : Loop.state) : Prop :=
  exists t m o,
    Loop.inventory s = Num (r * 2) /\ Loop.on_order s = Num o /\ o = 0
    /\ Loop.total_demand s = Num t /\ t = 0
    /\ Loop.demand_met s = Num m /\ m = 0
    /\ Loop.stockouts s = O /\ Loop.gen s = g
    /\ exists levels, Loop.inventory_levels s = Num <$> levels
                      /\ Forall (fun x => x = r * 2) levels.

(** [purchase_orders[purchase_orders['sku_id'] == sku]['lead_time_days']] *)
Definition sku_lead_times (purchase_orders : list PoRow) (sku : string) : list f64 :=
  po_lead_time_days <$> filter (fun r => po_sku_id r = sku) purchase_orders.

(** Two demand observations and one purchase order for SKU1. *)
Definition example_demand : list DemandRow :=
  [ mkDemandRow 0 "SKU1" (Num 3); mkDemandRow 1 "SKU1" (Num 5) ].

Definition example_orders : list PoRow := [ mkPoRow "SKU1" (Num 14) ].

(** The SKUs of the rows whose class is A, B or C, in the order of the
    table. *)
Definition abc_skus (sku_master : list SkuRow) : list string :=
  sm_sku_id <$> filter (fun r => sm_abc_class r ∈ ["A"; "B"; "C"]%string) sku_master.

(** ** statistical_analysis.py: the metrics and the recommendation *)

Section PrimaryMetrics.

Variable ttest_ind : list f64 -> list f64 -> f64 * f64.
Variable alpha : f64.

(** The dictionary of the three comparisons, by its keys. *)
Definition analyze_primary_metrics (control treatment : list Out.row)
    : gmap string ComparisonMetric :=
  let fill_rate_result :=
    compare_means ttest_ind alpha (Out.fill_rate <$> control)
      (Out.fill_rate <$> treatment) "Fill Rate (%)" in
  let inv_result :=
    compare_means ttest_ind alpha (col_avg_inventory control)
      (col_avg_inventory treatment) "Average Inventory (units)" in
  let stockout_result :=
    compare_means ttest_ind alpha (col_stockout_count control)
      (col_stockout_count treatment) "Stockout Count" in
  <["stockouts" := stockout_result]>
    (<["avg_inventory" := inv_result]>
       (<["fill_rate" := fill_rate_result]> ∅)).

End PrimaryMetrics.

(** A line of the RECOMMENDATION block of the summary report, with the
    percent change that it prints. *)
Inductive report_line : Type :=
  | ImplementDynamic
  | ImprovementsIn
  | FillRateUp (pct : f64)
  | InventoryDown (pct : f64)
  | StockoutsDown (pct : f64)
  | Inconclusive.

(** The RECOMMENDATION block of [generate_summary_report]: the lines it
    appends to the report; [None] stands for the [KeyError] of a missing
    metric. *)
Definition recommendation (metrics : gmap string ComparisonMetric)
    : option (list report_line) :=
  fill ← metrics !! "fill_rate";
  if is_significant fill && F.gtb (pct_change fill) (Num 0) then
    inv ← metrics !! "avg_inventory";
    stockouts ← metrics !! "stockouts";
    Some ([ImplementDynamic; ImprovementsIn]
          ++ (if F.gtb (pct_change fill) (Num 0)
              then [FillRateUp (pct_change fill)] else [])
          ++ (if F.ltb (pct_change inv) (Num 0)
              then [InventoryDown (pct_change inv)] else [])
          ++ (if F.ltb (pct_change stockouts) (Num 0)
              then [StockoutsDown (pct_change stockouts)] else []))
  else Some [Inconclusive].

(** Result tables in which the treatment arm holds 8000 units less. *)
Definition lean_control : list Out.row := [ result_row "SKU1" fixed 10000 2 ].
Definition lean_treatment : list Out.row := [ result_row "SKU2" dynamic 2000 1 ].

(** ** simulation_engine.py: run_simulation *)

Section RunSimulation.

Variable norm_ppf : f64 -> f64.
Variable np_random_seed : Z -> rng.
Variable np_random_shuffle : rng -> list string -> list string * rng.

(** [self.service_level] and [self.test_days] *)
Variables (service_level : f64) (test_days : nat).

(** The two result tables and the generator after the run.  The groups are
    simulated one after the other on the generator that the assignment
    leaves; [None] stands for the exception of a step. *)
Definition run_simulation (config : gmap string (gmap string scalar)) (g : rng)
    (daily_demand : list DemandRow) (sku_master : list SkuRow)
    (purchase_orders : list PoRow) : option ((list Out.row * list Out.row) * rng) :=
  '((control_skus, treatment_skus), g1) ←
    assign_treatment_groups np_random_seed np_random_shuffle config g sku_master;
  let sku_stats := calculate_sku_statistics daily_demand purchase_orders in
  '(control_results, g2) ←
    simulate_group norm_ppf service_level test_days g1 control_skus daily_demand
      sku_stats fixed;
  '(treatment_results, g3) ←
    simulate_group norm_ppf service_level test_days g2 treatment_skus daily_demand
      sku_stats dynamic;
  Some ((control_results, treatment_results), g3).

End RunSimulation.

(** ** data_download.py *)

(** *** clean_data *)

Section FirstOccurrences.

Context {B : Type} `{EqDecision B}.

(** The entries that [duplicated()] does not mark: an entry is marked when
    an equal entry stands before it ([keep='first']). *)
Fixpoint unmarked (seen rows : list B) : list B :=
  match rows with
  | [] => []
  | r :: rest =>
      if decide (r ∈ seen) then unmarked seen rest
      else r :: unmarked (r :: seen) rest
  end.

End FirstOccurrences.

(** [Series.unique()]: the values in the order of their first occurrence. *)
Definition unique (col : list string) : list string := unmarked [] col.

Section CleanData.

(** The type of a cell; [None] is a missing value (NaN, None, NaT), and a
    row is the list of its cells.  Two missing values count as equal. *)
Context {A : Type} `{EqDecision A}.

(** [df.drop_duplicates()] *)
Definition drop_duplicates (df : list (list (option A))) : list (list (option A)) :=
  unmarked [] df.

(** [df.dropna()]: the rows without a missing value. *)
Definition dropna_rows (df : list (list (option A))) : list (list (option A)) :=
  filter (fun r => None ∉ r) df.

Definition clean_data (df : list (list (option A))) : list (list (option A)) :=
  let df := drop_duplicates df in
  let df := dropna_rows df in
  df.

End CleanData.

(** *** create_abc_classification *)

(** A row of the sales table (the columns [sku_col], [qty_col] and
    [cost_col] that the classification reads). *)
Record SaleRow : Type := mkSaleRow { sale_sku : string; sale_qty : f64; sale_cost : f64 }.

(** [Series.cumsum()]: a NaN stays NaN and is left out of the running sum. *)
Fixpoint cumsum_from (acc : f64) (col : list f64) : list f64 :=
  match col with
  | [] => []
  | x :: rest =>
      if F.is_nan x then NaN :: cumsum_from acc rest
      else F.add acc x :: cumsum_from (F.add acc x) rest
  end.

Definition cumsum (col : list f64) : list f64 := cumsum_from (Num 0) col.

(** The class of a row by its cumulative share: ['C'], overwritten by ['A']
    and by ['B'] where their masks hold. *)
Definition abc_class_of (cum_pct : f64) : string :=
  let abc_class := "C"%string in
  let abc_class := if F.leb cum_pct (Num 0.80) then "A"%string else abc_class in
  let abc_class :=
    if F.gtb cum_pct (Num 0.80) && F.leb cum_pct (Num 0.95) then "B"%string
    else abc_class in
  abc_class.

(** The column [abc_class] of the ranked revenue table, from its column
    [total_revenue]. *)
Definition abc_classes (total_revenue : list f64) : list string :=
  let total := Pd.sum total_revenue in
  (fun c => abc_class_of (F.div c total)) <$> cumsum total_revenue.

(** The grouped table: one row per SKU with its total revenue, the sum of
    the quantities times the mean of the costs. *)
Definition revenue_table (df : list SaleRow) : list (string * f64) :=
  (fun g => (g.1, F.mul (Pd.sum (fst <$> g.2)) (Pd.mean (snd <$> g.2))))
    <$> map_to_list
          (Pd.group_by ((fun r => (sale_sku r, (sale_qty r, sale_cost r))) <$> df)).

Section AbcClassification.

(** [revenue.sort_values('total_revenue', ascending=False)] *)
Variable sort_values : list (string * f64) -> list (string * f64).

(** The sales table with the column [abc_class] of the left merge; [None]
    is the missing value of a row whose SKU the revenue table lacks. *)
Definition create_abc_classification (df : list SaleRow)
    : list (SaleRow * option string) :=
  let revenue := sort_values (revenue_table df) in
  let abc_class : gmap string string :=
    list_to_map (zip (fst <$> revenue) (abc_classes (snd <$> revenue))) in
  (fun r => (r, abc_class !! sale_sku r)) <$> df.

End AbcClassification.

(** The running sums of a list of numbers, from [acc]. *)
Fixpoint Rcumsum (acc : R) (xs : list R) : list R :=
  match xs with
  | [] => []
  | x :: rest => (acc + x) :: Rcumsum (acc + x) rest
  end.

(** A ranking of the revenue table, largest revenue first. *)
Fixpoint insert_ranked (x : string * f64) (t : list (string * f64))
    : list (string * f64) :=
  match t with
  | [] => [x]
  | y :: rest => if F.geb x.2 y.2 then x :: y :: rest else y :: insert_ranked x rest
  end.

Definition rank_by_revenue (t : list (string * f64)) : list (string * f64) :=
  foldr insert_ranked [] t.

(** Three sales of two products. *)
Definition example_sales : list SaleRow :=
  [ mkSaleRow "P1" (Num 2) (Num 10); mkSaleRow "P2" (Num 1) (Num 5);
    mkSaleRow "P1" (Num 3) (Num 10) ]%string.

(** *** generate_purchase_orders *)

(** A row of the generated purchase order table.  Dates are instants in
    nanoseconds, as a [Timestamp] holds them. *)
Record GeneratedPo : Type := mkGeneratedPo {
  gp_po_id : string;
  gp_sku_id : string;
  gp_order_date : Z;
  gp_receipt_date : Z;
  gp_lead_time_days : Z;
  gp_quantity : Z
}.

(** [pd.Timedelta(days=d)] *)
Definition timedelta_days (d : Z) : Z := (d * 86400000000000)%Z.

(** [int(x)] on a float: the fraction is cut off, towards zero. *)
Definition py_int (x : R) : Z :=
  if Rleb 0 x then Int_part x else (- Int_part (- x))%Z.

(** [np.random.randint(low, high)], [high] excluded. *)
Definition np_random_randint (low high : nat) (g : rng) : nat * rng :=
  ((low + as_index (rng_peek g) mod (high - low))%nat, rng_advance g).

Fixpoint zeros (n : nat) : string :=
  match n with
  | O => EmptyString
  | S n => "0" +:+ zeros n
  end.

(** [f'{i:04d}'] *)
Definition format_04d (i : nat) : string :=
  zeros (4 - String.length (pretty i)) +:+ pretty i.

Section GeneratePurchaseOrders.

Variable np_random_seed : Z -> rng.

(** [np.random.normal(loc, scale)]: the variate and the generator after it. *)
Variable np_random_normal : R -> R -> rng -> R * rng.

(** [pd.Timestamp.now()] at the [k]-th reading of the clock. *)
Variable now : nat -> Z.

(** One pass of the inner loop, at the [k]-th reading of the clock. *)
Definition generate_order (sku : string) (i k : nat) (g : rng) : GeneratedPo * rng :=
  let '(days, g) := np_random_randint 0 365 g in
  let order_date := (now k - timedelta_days (Z.of_nat days))%Z in
  let '(x, g) := np_random_normal 14 3 g in
  let lead_time := Z.max 5 (py_int x) in
  let receipt_date := (order_date + timedelta_days lead_time)%Z in
  ({| gp_po_id := "PO_" +:+ sku +:+ "_" +:+ format_04d i;
      gp_sku_id := sku;
      gp_order_date := order_date;
      gp_receipt_date := receipt_date;
      gp_lead_time_days := lead_time;
      gp_quantity := 100 |}, g).

(** The inner loop over [range(20)]. *)
Fixpoint generate_sku_orders (sku : string) (range : list nat) (k : nat) (g : rng)
    : list GeneratedPo * rng :=
  match range with
  | [] => ([], g)
  | i :: rest =>
      let '(po, g) := generate_order sku i k g in
      let '(pos, g) := generate_sku_orders sku rest (S k) g in
      (po :: pos, g)
  end.

(** The outer loop over the SKUs. *)
Fixpoint generate_orders (skus : list string) (k : nat) (g : rng)
    : list GeneratedPo * rng :=
  match skus with
  | [] => ([], g)
  | sku :: rest =>
      let '(pos, g) := generate_sku_orders sku (seq 0 20) k g in
      let '(pos', g) := generate_orders rest (k + 20) g in
      (pos ++ pos', g)
  end.

(** The generator [g] the call finds is replaced by the one seeded with
    42; [sku_column] is the column [df[sku_col]]. *)
Definition generate_purchase_orders (g : rng) (sku_column : list string)
    : list GeneratedPo * rng :=
  let g := np_random_seed 42 in
  let skus := unique sku_column in
  generate_orders skus 0 g.

End GeneratePurchaseOrders.

(** The purchase order table as the engine reads it back from the file:
    the SKU and the lead time, a number. *)
Definition read_purchase_orders (pos : list GeneratedPo) : list PoRow :=
  (fun po => mkPoRow (gp_sku_id po) (Num (IZR (gp_lead_time_days po)))) <$> pos.

(** A stand-in for the normal variate: [loc] shifted by the unit variate of
    the tape, scaled. *)
Definition tape_normal (loc scale : R) (g : rng) : R * rng :=
  (loc + scale * (as_unit (rng_peek g) - / 2), rng_advance g).

(** A generated order that is well formed at the clock reading [t]: a lead
    time of at least 5 days that separates the two dates, an order date
    within the 364 days before [t], and a quantity of 100. *)
Definition order_ok (t : Z) (po : GeneratedPo) : Prop :=
  (5 <= gp_lead_time_days po)%Z
  /\ gp_receipt_date po = (gp_order_date po + timedelta_days (gp_lead_time_days po))%Z
  /\ (t - timedelta_days 364 <= gp_order_date po <= t)%Z
  /\ gp_quantity po = 100%Z.

(** *** create_output_tables *)

(** A row of the classified sales table: the date, SKU, quantity and cost
    columns that the function detects, and the class. *)
Record ClassifiedRow : Type := mkClassifiedRow {
  cr_date : nat;
  cr_sku : string;
  cr_qty : f64;
  cr_cost : f64;
  cr_abc_class : string
}.

Section SortedGroups.

Context {K : Type} `{Countable K} {A : Type}.

(** [groupby(key)] on the rows (key, value): the values of each key, in the
    order of the rows. *)
Definition group_by_key (rows : list (K * A)) : gmap K (list A) :=
  foldr (fun kv m => partial_alter (fun o => Some (kv.2 :: default [] o)) kv.1 m)
        ∅ rows.

(** The order of the keys. *)
Variable key_leb : K -> K -> bool.

Fixpoint insert_by_key (x : K * list A) (t : list (K * list A)) : list (K * list A) :=
  match t with
  | [] => [x]
  | y :: rest => if key_leb x.1 y.1 then x :: y :: rest else y :: insert_by_key x rest
  end.

(** The groups in the order of their keys ([sort=True]). *)
Definition sorted_groups (rows : list (K * A)) : list (K * list A) :=
  foldr insert_by_key [] (map_to_list (group_by_key rows)).

End SortedGroups.

(** The order of the keys (date, SKU). *)
Definition date_sku_leb (a b : nat * string) : bool :=
  (a.1 <? b.1)%nat || ((a.1 =? b.1)%nat && String.leb a.2 b.2).

(** The aggregation ['first'] on the class column of a group. *)
Definition first_value (values : list string) : string := default EmptyString (head values).

Section CreateOutputTables.

Variable np_random_seed : Z -> rng.
Variable np_random_normal : R -> R -> rng -> R * rng.
Variable now : nat -> Z.

(** The three tables (of the SKU master, the columns that the engine
    reads) and the generator after the call. *)
Definition create_output_tables (g : rng) (df : list ClassifiedRow)
    : (list DemandRow * list SkuRow * list GeneratedPo) * rng :=
  let daily_demand :=
    (fun kv => mkDemandRow kv.1.1 kv.1.2 (Pd.sum kv.2))
      <$> sorted_groups date_sku_leb
            ((fun r => ((cr_date r, cr_sku r), cr_qty r)) <$> df) in
  let sku_master :=
    (fun kv => mkSkuRow kv.1 (first_value kv.2))
      <$> sorted_groups String.leb ((fun r => (cr_sku r, cr_abc_class r)) <$> df) in
  let '(po, g) :=
    generate_purchase_orders np_random_seed np_random_normal now g (cr_sku <$> df) in
  ((daily_demand, sku_master, po), g).

End CreateOutputTables.

(** Three classified sales of two products on two days. *)
Definition example_classified : list ClassifiedRow :=
  [ mkClassifiedRow 0 "P1" (Num 2) (Num 10) "A";
    mkClassifiedRow 0 "P2" (Num 1) (Num 5) "C";
    mkClassifiedRow 1 "P1" (Num 3) (Num 10) "A" ]%string.

(** *** The detection of the columns *)

(** [sub in s] on strings *)
Fixpoint contains (sub s : string) : bool :=
  String.prefix sub s
  || match s with
     | EmptyString => false
     | String _ rest => contains sub rest
     end.

Section ColumnDetection.

(** [str.lower()] *)
Variable lower : string -> string.

(** [[c for c in df.columns if any(x in c.lower() for x in keys)]] *)
Definition columns_with (keys columns : list string) : list string :=
  filter (fun c => Is_true (existsb (fun x => contains x (lower c)) keys)) columns.

(** The columns that [main] hands to the classification; [None] stands
    for the [IndexError] of [[0]] on an empty list. *)
Definition main_columns (columns : list string) : option (string * string * string) :=
  sku_col ← head (columns_with ["product"; "sku"] columns);
  qty_col ← head (columns_with ["quantity"; "sales"] columns);
  cost_col ← head (columns_with ["price"; "cost"] columns);
  Some (sku_col, qty_col, cost_col).

(** The columns that [create_output_tables] groups by and aggregates: the
    first match, or else the column at the position; [None] stands for the
    [IndexError] of a position that the table lacks. *)
Definition detect_columns (columns : list string)
    : option (string * string * string * string) :=
  let date_cols := columns_with ["date"] columns in
  let sku_cols := columns_with ["product"; "sku"; "item"] columns in
  let qty_cols := columns_with ["quantity"; "sales"; "demand"] columns in
  let cost_cols := columns_with ["price"; "cost"] columns in
  date_col ← from_option Some (columns !! 0%nat) (head date_cols);
  sku_col ← from_option Some (columns !! 1%nat) (head sku_cols);
  qty_col ← from_option Some (columns !! 2%nat) (head qty_cols);
  cost_col ← from_option Some (columns !! 3%nat) (head cost_cols);
  Some (date_col, sku_col, qty_col, cost_col).

End ColumnDetection.

(** Lower case of the letters A to Z. *)
Definition ascii_lower (s : string) : string :=
  string_of_list_ascii
    ((fun c => let n := Ascii.nat_of_ascii c in
               if (65 <=? n)%nat && (n <=? 90)%nat then Ascii.ascii_of_nat (n + 32) else c)
       <$> list_ascii_of_string s).

(** * Part II: properties *)

(** ** Reflection of the boolean decisions *)

Lemma Rltb_true x y : x < y -> Rltb x y = true.
Proof. intros H. unfold Rltb. destruct (Rlt_dec x y); [reflexivity | contradiction]. Qed.

Lemma Rltb_false x y : y <= x -> Rltb x y = false.
Proof. intros H. unfold Rltb. destruct (Rlt_dec x y); [lra | reflexivity]. Qed.

Lemma Rleb_true x y : x <= y -> Rleb x y = true.
Proof. intros H. unfold Rleb. destruct (Rle_dec x y); [reflexivity | contradiction]. Qed.

Lemma Rleb_false x y : y < x -> Rleb x y = false.
Proof. intros H. unfold Rleb. destruct (Rle_dec x y); [lra | reflexivity]. Qed.

Lemma Reqb_true x y : x = y -> Reqb x y = true.
Proof. intros H. unfold Reqb. destruct (Req_dec_T x y); [reflexivity | contradiction]. Qed.

Lemma Reqb_false x y : x <> y -> Reqb x y = false.
Proof. intros H. unfold Reqb. destruct (Req_dec_T x y); [contradiction | reflexivity]. Qed.

Lemma Rltb_spec x y : Rltb x y = true <-> x < y.
Proof.
  unfold Rltb. destruct (Rlt_dec x y); split; intros;
    [assumption | reflexivity | discriminate | contradiction].
Qed.

Lemma Rleb_spec x y : Rleb x y = true <-> x <= y.
Proof.
  unfold Rleb. destruct (Rle_dec x y); split; intros;
    [assumption | reflexivity | discriminate | contradiction].
Qed.

Lemma Reqb_spec x y : Reqb x y = true <-> x = y.
Proof.
  unfold Reqb. destruct (Req_dec_T x y); split; intros;
    [assumption | reflexivity | discriminate | contradiction].
Qed.

(** Decides the comparisons of the goal whose operands [lra] can order. *)
Ltac Rdecide :=
  repeat match goal with
  | |- context [Rltb ?a ?b] =>
      first [rewrite (Rltb_true a b) by lra | rewrite (Rltb_false a b) by lra]
  | |- context [Rleb ?a ?b] =>
      first [rewrite (Rleb_true a b) by lra | rewrite (Rleb_false a b) by lra]
  | |- context [Reqb ?a ?b] =>
      first [rewrite (Reqb_true a b) by lra | rewrite (Reqb_false a b) by lra]
  end.

(** ** NaN and the arithmetic *)

Lemma mul_nan_r a : F.mul a NaN = NaN.
Proof. destruct a; reflexivity. Qed.

Lemma add_nan_r a : F.add a NaN = NaN.
Proof. destruct a; reflexivity. Qed.

Lemma add_nan_l a : F.add NaN a = NaN.
Proof. reflexivity. Qed.

Lemma div_nan_l a : F.div NaN a = NaN.
Proof. reflexivity. Qed.

Lemma div_Num x y : y <> 0 -> F.div (Num x) (Num y) = Num (x / y).
Proof. intros H. simpl. rewrite Reqb_false by exact H. reflexivity. Qed.

(** ** The day loop of [simulate_sku_inventory] *)

Section DayLoop.

Variables (demand_data : list f64) (rop order_qty lead_time : f64).

(** A property of the loop variables that every pass preserves holds after
    any number of passes. *)
Lemma run_days_invariant (P : Loop.state -> Prop) :
  (forall s, P s -> P (simulate_day demand_data rop order_qty lead_time s)) ->
  forall days s, P s -> P (run_days days demand_data rop order_qty lead_time s).
Proof.
  intros Hstep days. induction days as [|d IH]; intros s Hs; simpl.
  - exact Hs.
  - apply IH, Hstep, Hs.
Qed.

Lemma on_order_observe d g s : Loop.on_order (observe d g s) = Loop.on_order s.
Proof. reflexivity. Qed.

Lemma on_order_fulfil d s : Loop.on_order (fulfil d s) = Loop.on_order s.
Proof. unfold fulfil. destruct (F.geb (Loop.inventory s) d); reflexivity. Qed.

Lemma on_order_record_level s : Loop.on_order (record_level s) = Loop.on_order s.
Proof. reflexivity. Qed.

Lemma on_order_reorder s :
  Loop.on_order (reorder rop order_qty s) =
  if F.eqb (Loop.on_order s) (Num 0) then
    (if F.leb (Loop.inventory s) rop then order_qty else Loop.on_order s)
  else Loop.on_order s.
Proof.
  unfold reorder.
  destruct (F.leb (Loop.inventory s) rop), (F.eqb (Loop.on_order s) (Num 0));
    reflexivity.
Qed.

Lemma on_order_receive s :
  Loop.on_order (receive lead_time s) =
  if fst (arrival lead_time s) then Num 0 else Loop.on_order s.
Proof.
  unfold receive. destruct (arrival lead_time s) as [[|] g']; reflexivity.
Qed.

Lemma inventory_receive s :
  Loop.inventory (receive lead_time s) =
  if fst (arrival lead_time s)
  then F.add (Loop.inventory s) (Loop.on_order s)
  else Loop.inventory s.
Proof.
  unfold receive. destruct (arrival lead_time s) as [[|] g']; reflexivity.
Qed.

(** An order arrives only when one is outstanding. *)
Lemma arrival_outstanding s :
  fst (arrival lead_time s) = true -> F.gtb (Loop.on_order s) (Num 0) = true.
Proof.
  unfold arrival. destruct (F.gtb (Loop.on_order s) (Num 0)).
  - reflexivity.
  - simpl. discriminate.
Qed.

Lemma one_order_reorder s :
  one_order order_qty s -> one_order order_qty (reorder rop order_qty s).
Proof.
  unfold one_order. rewrite on_order_reorder.
  destruct (F.eqb (Loop.on_order s) (Num 0)), (F.leb (Loop.inventory s) rop); tauto.
Qed.

Lemma one_order_receive s :
  one_order order_qty s -> one_order order_qty (receive lead_time s).
Proof.
  unfold one_order. rewrite on_order_receive.
  destruct (fst (arrival lead_time s)); tauto.
Qed.

Lemma one_order_simulate_day s :
  one_order order_qty s ->
  one_order order_qty (simulate_day demand_data rop order_qty lead_time s).
Proof.
  intros H. unfold simulate_day.
  destruct (draw_demand demand_data (Loop.gen s)) as [d g'].
  unfold one_order. rewrite on_order_record_level.
  apply one_order_receive, one_order_reorder.
  unfold one_order. rewrite on_order_fulfil, on_order_observe. exact H.
Qed.

End DayLoop.

(** C6.  After any number of simulated days the outstanding-order quantity
    is either 0 or the fixed order quantity [1.5 * rop]; on the following
    day, a reorder check that finds an order outstanding changes nothing,
    and an arrival adds exactly the order quantity to the inventory and
    clears the outstanding order. *)
Theorem outstanding_order_invariant
    (days : nat) (g : rng) (demand_data : list f64) (rop lead_time : f64) :
  let order_qty := F.mul rop (Num 1.5) in
  let s := run_days days demand_data rop order_qty lead_time (initial_state rop g) in
  let daily_demand := fst (draw_demand demand_data (Loop.gen s)) in
  let g' := snd (draw_demand demand_data (Loop.gen s)) in
  let fulfilled := fulfil daily_demand (observe daily_demand g' s) in
  let reordered := reorder rop order_qty fulfilled in
  let received := receive lead_time reordered in
  (Loop.on_order s = Num 0 \/ Loop.on_order s = order_qty)
  /\ (F.eqb (Loop.on_order fulfilled) (Num 0) = false -> reordered = fulfilled)
  /\ (fst (arrival lead_time reordered) = true ->
      Loop.inventory received = F.add (Loop.inventory reordered) order_qty
      /\ Loop.on_order received = Num 0).
Proof.
  intros order_qty s daily_demand g' fulfilled reordered received.
  assert (Hs : one_order order_qty s).
  { apply run_days_invariant.
    - apply one_order_simulate_day.
    - left. reflexivity. }
  split; [exact Hs|]. split.
  - intros Hout. unfold reordered, reorder. rewrite Hout.
    rewrite andb_false_r. reflexivity.
  - intros Harr.
    assert (Hr : one_order order_qty reordered).
    { apply one_order_reorder. unfold one_order, fulfilled.
      rewrite on_order_fulfil, on_order_observe. exact Hs. }
    pose proof (arrival_outstanding _ _ Harr) as Hpos.
    unfold received. rewrite inventory_receive, on_order_receive, Harr.
    split; [|reflexivity].
    destruct Hr as [Hr | Hr]; rewrite Hr in *.
    + simpl in Hpos. rewrite Rltb_false in Hpos by lra. discriminate.
    + reflexivity.
Qed.

(** ** The metrics of [simulate_sku_inventory] *)

Lemma draw_demand_nonneg demand_data g :
  Forall F.nonneg demand_data -> F.nonneg (fst (draw_demand demand_data g)).
Proof.
  intros Hall. unfold draw_demand.
  destruct (0 <? length demand_data)%nat eqn:Hlen.
  - apply Nat.ltb_lt in Hlen. simpl.
    apply (proj1 (List.Forall_nth F.nonneg demand_data) Hall).
    apply Nat.mod_upper_bound. lia.
  - simpl. exists 0. split; [reflexivity | lra].
Qed.

Section Books.

Variables (demand_data : list f64) (r q : R) (lead_time : f64).
Hypothesis demand_nonneg : Forall F.nonneg demand_data.
Hypothesis q_nonneg : 0 <= q.

Lemma books_balance_fulfil x g' s :
  0 <= x -> books_balance s -> books_balance (fulfil (Num x) (observe (Num x) g' s)).
Proof.
  intros Hx (i & o & t & m & Hi & Ho & Ht & Hm & Hi0 & Ho0 & Hmt).
  unfold fulfil, observe. simpl. rewrite Hi, Ho, Ht, Hm. simpl.
  destruct (Rleb x i) eqn:E.
  - apply Rleb_spec in E. simpl.
    exists (i - x), o, (t + x), (m + x). repeat split; try reflexivity; lra.
  - apply not_true_iff_false in E. rewrite Rleb_spec in E. simpl.
    exists 0, o, (t + x), (m + i). repeat split; try reflexivity; lra.
Qed.

Lemma books_balance_reorder s :
  books_balance s -> books_balance (reorder (Num r) (Num q) s).
Proof using q_nonneg.
  intros (i & o & t & m & Hi & Ho & Ht & Hm & Hi0 & Ho0 & Hmt).
  unfold reorder.
  destruct (F.leb (Loop.inventory s) (Num r) && F.eqb (Loop.on_order s) (Num 0)).
  - exists i, q, t, m. simpl. repeat split; try assumption; lra.
  - exists i, o, t, m. repeat split; try assumption; lra.
Qed.

Lemma books_balance_receive s :
  books_balance s -> books_balance (receive lead_time s).
Proof.
  intros (i & o & t & m & Hi & Ho & Ht & Hm & Hi0 & Ho0 & Hmt).
  unfold receive. destruct (arrival lead_time s) as [[|] g'].
  - exists (i + o), 0, t, m. simpl. rewrite Hi, Ho. simpl.
    repeat split; try assumption; lra.
  - exists i, o, t, m. simpl. repeat split; try assumption; lra.
Qed.

Lemma books_balance_simulate_day s :
  books_balance s ->
  books_balance (simulate_day demand_data (Num r) (Num q) lead_time s).
Proof using demand_nonneg q_nonneg.
  intros Hs. unfold simulate_day.
  pose proof (draw_demand_nonneg demand_data (Loop.gen s) demand_nonneg) as Hd.
  destruct (draw_demand demand_data (Loop.gen s)) as [d g'].
  simpl in Hd. destruct Hd as (x & -> & Hx).
  assert (H3 : books_balance
                 (receive lead_time
                    (reorder (Num r) (Num q) (fulfil (Num x) (observe (Num x) g' s))))).
  { apply books_balance_receive, books_balance_reorder, books_balance_fulfil; assumption. }
  destruct H3 as (i & o & t & m & Hi & Ho & Ht & Hm & Hrest).
  exists i, o, t, m. simpl. repeat split; try assumption; apply Hrest.
Qed.

End Books.

Lemma percentage_bounds m t : 0 <= m <= t -> 0 < t -> 0 <= m / t * 100 <= 100.
Proof.
  intros [Hm Hmt] Ht.
  assert (Hinv : 0 < / t) by (apply Rinv_0_lt_compat; exact Ht).
  assert (Hone : t * / t = 1) by (apply Rinv_r; lra).
  unfold Rdiv. split; nra.
Qed.

(** C1 (amended).  For every horizon, demand history without negative
    quantities, lead time and reorder point that is not negative,
    [simulate_sku_inventory] returns a fill rate in [0, 100] and a demand
    met that does not exceed the total demand; when the total demand is
    zero the fill rate is exactly 100. *)
Theorem simulate_sku_inventory_valid
    (test_days : nat) (g : rng) (sku : string) (demand_data : list f64)
    (r : R) (lead_time : f64) :
  0 <= r ->
  Forall F.nonneg demand_data ->
  metrics_valid (fst (simulate_sku_inventory test_days g sku demand_data (Num r) lead_time)).
Proof.
  intros Hr Hdemand. unfold simulate_sku_inventory. simpl.
  assert (Hs : books_balance
                 (run_days test_days demand_data (Num r) (Num (r * 1.5)) lead_time
                    (initial_state (Num r) g))).
  { apply run_days_invariant.
    - intros s. apply books_balance_simulate_day; [assumption | lra].
    - exists (r * 2), 0, 0, 0. simpl. repeat split; try reflexivity; lra. }
  destruct Hs as (i & o & t & m & Hi & Ho & Ht & Hm & Hi0 & Ho0 & Hm0 & Hmt).
  rewrite Ht, Hm. simpl.
  destruct (Rltb 0 t) eqn:E.
  - apply Rltb_spec in E. rewrite Reqb_false by lra. simpl.
    pose proof (percentage_bounds m t (conj Hm0 Hmt) E) as Hpct.
    exists (m / t * 100), t, m. repeat split; lra.
  - apply not_true_iff_false in E. rewrite Rltb_spec in E.
    exists 100, t, m. repeat split; lra.
Qed.

(** One simulated day with reorder point -1, a history of one unit of
    demand and a lead time of one day. *)
Lemma negative_rop_day :
  Sim.fill_rate
    (fst (simulate_sku_inventory 1 zero_tape "SKU1" [Num 1] (Num (-1)) (Num 1)))
  = Num (-200).
Proof.
  unfold simulate_sku_inventory, run_days, simulate_day, draw_demand. cbn.
  unfold fulfil, observe. cbn. Rdecide. cbn.
  unfold reorder. cbn. Rdecide. cbn.
  unfold receive, arrival. cbn. Rdecide. cbn. Rdecide. cbn.
  f_equal. field.
Qed.

(** C1, as stated, fails for a negative reorder point: with reorder point
    -1, a history of one unit of demand, lead time 1 and a horizon of one
    day, the opening stock is -2, the day is a stockout that adds -2 to the
    demand met, and the fill rate is -200. *)
Lemma negative_rop_fill_rate :
  Forall F.nonneg [Num 1]
  /\ F.positive (Num 1)
  /\ ~ metrics_valid
        (fst (simulate_sku_inventory 1 zero_tape "SKU1" [Num 1] (Num (-1)) (Num 1))).
Proof.
  split; [|split].
  - repeat constructor. exists 1. split; [reflexivity | lra].
  - exists 1. split; [reflexivity | lra].
  - intros (f & t & d & Hf & _ & _ & Hrange & _).
    rewrite negative_rop_day in Hf. injection Hf as <-. lra.
Qed.

(** Two days with reorder point 2 and a history of three units of demand. *)
Lemma simulate_sku_inventory_valid_witness :
  metrics_valid (fst (simulate_sku_inventory 2 zero_tape "SKU1" [Num 3] (Num 2) (Num 1))).
Proof.
  apply simulate_sku_inventory_valid.
  - lra.
  - repeat constructor. exists 3. split; [reflexivity | lra].
Defined.

(** ** The stratified assignment *)

Lemma swap_items_perm x i j : swap_items x i j ≡ₚ x.
Proof.
  unfold swap_items.
  destruct (x !! i) as [a|] eqn:Hi; [|reflexivity].
  destruct (x !! j) as [b|] eqn:Hj; [|reflexivity].
  apply Permutation_insert_swap; assumption.
Qed.

Lemma fisher_yates_perm i g x : fst (fisher_yates i g x) ≡ₚ x.
Proof.
  revert g x. induction i as [|k IH]; intros g x; simpl.
  - reflexivity.
  - rewrite IH. apply swap_items_perm.
Qed.

Lemma tape_shuffle_perm g x : fst (tape_shuffle g x) ≡ₚ x.
Proof. unfold tape_shuffle. apply fisher_yates_perm. Qed.

Section AssignmentProperties.

Variable np_random_seed : Z -> rng.
Variable np_random_shuffle : rng -> list string -> list string * rng.

(** The shuffle rearranges the array it is given. *)
Hypothesis shuffle_perm : forall g x, fst (np_random_shuffle g x) ≡ₚ x.

Lemma split_class_stratum g sku_master abc_class :
  stratum_split sku_master abc_class
    (fst (fst (split_class np_random_shuffle g sku_master abc_class)))
    (snd (fst (split_class np_random_shuffle g sku_master abc_class))).
Proof using shuffle_perm.
  unfold split_class.
  pose proof (shuffle_perm g (class_skus sku_master abc_class)) as Hperm.
  destruct (np_random_shuffle g (class_skus sku_master abc_class)) as [shuffled g'].
  cbn [fst snd] in *. exists shuffled.
  rewrite <- (Permutation_length Hperm).
  split; [exact Hperm|]. split; [reflexivity|]. split; [reflexivity|].
  rewrite length_take, length_drop.
  pose proof (Nat.div_mod_eq (length shuffled) 2) as Hdiv.
  pose proof (Nat.mod_upper_bound (length shuffled) 2) as Hmod.
  lia.
Qed.

(** C4.  With a seed that the configuration supplies, the assignment
    shuffles each of the strata A, B and C, cuts the shuffled stratum at the
    floor of half its size and sends the first part to control and the rest
    to treatment, so that within each stratum the two counts differ by at
    most one; and the partition is the same for every run, whatever state
    the generator was in before the call. *)
Theorem stratified_assignment_balanced
    (config : gmap string (gmap string scalar)) (sku_master : list SkuRow) (seed : Z) :
  cfg_get config "ab_test" "random_seed" = Some (SInt seed) ->
  (0 <= seed < 2 ^ 32)%Z ->
  exists cA tA cB tB cC tC g',
    (forall g,
       assign_treatment_groups np_random_seed np_random_shuffle config g sku_master
       = Some ((cA ++ cB ++ cC, tA ++ tB ++ tC), g'))
    /\ stratum_split sku_master "A" cA tA
    /\ stratum_split sku_master "B" cB tB
    /\ stratum_split sku_master "C" cC tC.
Proof using shuffle_perm.
  intros Hseed Hrange.
  pose (g0 := np_random_seed seed).
  pose proof (split_class_stratum g0 sku_master "A") as HA.
  destruct (split_class np_random_shuffle g0 sku_master "A") as [[cA tA] gA] eqn:EA.
  pose proof (split_class_stratum gA sku_master "B") as HB.
  destruct (split_class np_random_shuffle gA sku_master "B") as [[cB tB] gB] eqn:EB.
  pose proof (split_class_stratum gB sku_master "C") as HC.
  destruct (split_class np_random_shuffle gB sku_master "C") as [[cC tC] gC] eqn:EC.
  exists cA, tA, cB, tB, cC, tC, gC.
  split; [|auto].
  intros g. unfold assign_treatment_groups. rewrite Hseed.
  cbn [mbind option_bind scalar_seed]. case_decide; [|contradiction].
  cbn [mbind option_bind assign_classes]. fold g0. rewrite EA, EB, EC.
  rewrite <- !app_assoc. reflexivity.
Qed.

End AssignmentProperties.

(** The assumption on the shuffle holds of the Fisher-Yates pass, and the
    example configuration supplies the seed 42. *)
Lemma stratified_assignment_balanced_witness :
  exists cA tA cB tB cC tC g',
    (forall g,
       assign_treatment_groups lcg_seed tape_shuffle example_config g example_sku_master
       = Some ((cA ++ cB ++ cC, tA ++ tB ++ tC), g'))
    /\ stratum_split example_sku_master "A" cA tA
    /\ stratum_split example_sku_master "B" cB tB
    /\ stratum_split example_sku_master "C" cC tC.
Proof.
  apply (stratified_assignment_balanced lcg_seed tape_shuffle tape_shuffle_perm
           example_config example_sku_master 42).
  - reflexivity.
  - lia.
Defined.

(** ** Reductions over arrays of real numbers *)

Lemma nonneg_finite (l : list f64) :
  Forall F.nonneg l -> exists xs, l = Num <$> xs /\ Forall (Rle 0) xs.
Proof.
  induction 1 as [|a l (x & -> & Hx) _ (xs & -> & Hxs)].
  - exists []. split; [reflexivity | constructor].
  - exists (x :: xs). split; [reflexivity | constructor; assumption].
Qed.

Lemma positive_finite (l : list f64) :
  Forall F.positive l -> exists xs, l = Num <$> xs /\ Forall (Rlt 0) xs.
Proof.
  induction 1 as [|a l (x & -> & Hx) _ (xs & -> & Hxs)].
  - exists []. split; [reflexivity | constructor].
  - exists (x :: xs). split; [reflexivity | constructor; assumption].
Qed.

Lemma sum_nums (xs : list R) : Np.sum (Num <$> xs) = Num (Rsum xs).
Proof.
  induction xs as [|x xs IH].
  - reflexivity.
  - change (Np.sum (Num <$> x :: xs)) with (F.add (Num x) (Np.sum (Num <$> xs))).
    rewrite IH. reflexivity.
Qed.

Lemma INR_length_pos {A} (l : list A) : l <> [] -> 0 < INR (length l).
Proof.
  intros Hne. destruct l as [|a l]; [contradiction|].
  apply lt_0_INR. simpl. lia.
Qed.

Lemma mean_nums (xs : list R) : xs <> [] -> Np.mean (Num <$> xs) = Num (Rmean xs).
Proof.
  intros Hne. unfold Np.mean. rewrite sum_nums, length_fmap.
  apply div_Num. pose proof (INR_length_pos xs Hne). lra.
Qed.

Lemma deviations_nums (mu : R) (xs : list R) :
  (fun x => F.square (F.sub x (Num mu))) <$> (Num <$> xs)
  = Num <$> ((fun x => (x - mu) * (x - mu)) <$> xs).
Proof.
  induction xs as [|x xs IH]; [reflexivity|].
  rewrite !fmap_cons, IH. reflexivity.
Qed.

Lemma var_nums (xs : list R) : xs <> [] -> Np.var (Num <$> xs) = Num (Rvar xs).
Proof.
  intros Hne. unfold Np.var. rewrite (mean_nums xs Hne), deviations_nums.
  apply mean_nums. destruct xs; [contradiction | discriminate].
Qed.

Lemma Rsum_nonneg xs : Forall (Rle 0) xs -> 0 <= Rsum xs.
Proof.
  induction 1 as [|x xs Hx _ IH].
  - simpl. lra.
  - change (Rsum (x :: xs)) with (x + Rsum xs). lra.
Qed.

Lemma Rsum_pos xs : xs <> [] -> Forall (Rlt 0) xs -> 0 < Rsum xs.
Proof.
  intros Hne Hall. destruct Hall as [|x xs Hx Hxs]; [contradiction|].
  change (Rsum (x :: xs)) with (x + Rsum xs).
  assert (0 <= Rsum xs); [|lra].
  apply Rsum_nonneg. eapply Forall_impl; [exact Hxs|]. intros y Hy. simpl. lra.
Qed.

Lemma Rmean_nonneg xs : xs <> [] -> Forall (Rle 0) xs -> 0 <= Rmean xs.
Proof.
  intros Hne Hall. unfold Rmean.
  pose proof (Rsum_nonneg xs Hall). pose proof (INR_length_pos xs Hne) as Hn.
  apply Rinv_0_lt_compat in Hn. unfold Rdiv. nra.
Qed.

Lemma Rmean_pos xs : xs <> [] -> Forall (Rlt 0) xs -> 0 < Rmean xs.
Proof.
  intros Hne Hall. unfold Rmean.
  pose proof (Rsum_pos xs Hne Hall). pose proof (INR_length_pos xs Hne) as Hn.
  apply Rinv_0_lt_compat in Hn. unfold Rdiv. nra.
Qed.

Lemma Rvar_nonneg xs : xs <> [] -> 0 <= Rvar xs.
Proof.
  intros Hne. unfold Rvar. apply Rmean_nonneg.
  - destruct xs; [contradiction | discriminate].
  - apply Forall_fmap, Forall_true. intros x. unfold compose. cbv beta.
    apply Rle_0_sqr.
Qed.

Lemma std_nums (xs : list R) : xs <> [] -> Np.std (Num <$> xs) = Num (sqrt (Rvar xs)).
Proof.
  intros Hne. unfold Np.std. rewrite (var_nums xs Hne). simpl.
  rewrite Rltb_false by (apply Rvar_nonneg; exact Hne). reflexivity.
Qed.

(** The slice [arr[-k:]] is the suffix of the [k] most recent elements. *)
Lemma last_n_suffix {A} (k : nat) (arr : list A) :
  take (length arr - k) arr ++ Np.last_n k arr = arr
  /\ length (Np.last_n k arr) = (k `min` length arr)%nat.
Proof.
  unfold Np.last_n. split.
  - apply take_drop.
  - rewrite length_drop. lia.
Qed.

Lemma last_n_nonempty {A} (k : nat) (arr : list A) :
  (0 < k)%nat -> arr <> [] -> Np.last_n k arr <> [].
Proof.
  intros Hk Hne Hnil. apply (f_equal length) in Hnil.
  rewrite (proj2 (last_n_suffix k arr)) in Hnil.
  destruct arr; [contradiction|]. simpl in Hnil. lia.
Qed.

Lemma last_n_fmap {A B} (f : A -> B) (k : nat) (arr : list A) :
  Np.last_n k (f <$> arr) = f <$> Np.last_n k arr.
Proof. unfold Np.last_n. rewrite length_fmap, fmap_drop. reflexivity. Qed.

Lemma last_n_Forall {A} (P : A -> Prop) (k : nat) (arr : list A) :
  Forall P arr -> Forall P (Np.last_n k arr).
Proof. unfold Np.last_n. apply Forall_drop. Qed.

(** ** The reorder-point policies *)

Lemma logistic_ppf_quantile : normal_quantile logistic_ppf.
Proof.
  intros p [Hp0 Hp1]. exists (ln (p / (1 - p))). simpl.
  rewrite !Rltb_true by lra. split; [reflexivity|].
  assert (Hinv : 0 < / (1 - p)) by (apply Rinv_0_lt_compat; lra).
  assert (Hone : (1 - p) * / (1 - p) = 1) by (apply Rinv_r; lra).
  assert (Hpos : 0 < p / (1 - p)) by (unfold Rdiv; nra).
  rewrite <- ln_1. repeat split; intros H.
  - apply ln_increasing; [exact Hpos|]. unfold Rdiv. nra.
  - f_equal. unfold Rdiv. nra.
  - apply ln_increasing; [lra|]. unfold Rdiv. nra.
Qed.

Section PolicyProperties.

Variable norm_ppf : f64 -> f64.

Lemma weighted_average_nonneg (w1 w2 w3 m1 m2 m3 : f64) :
  F.nonneg w1 -> F.nonneg w2 -> F.nonneg w3 ->
  F.nonneg m1 -> F.nonneg m2 -> F.nonneg m3 ->
  F.nonneg (F.add (F.add (F.mul w1 m1) (F.mul w2 m2)) (F.mul w3 m3)).
Proof.
  intros (a1 & -> & H1) (a2 & -> & H2) (a3 & -> & H3)
         (b1 & -> & G1) (b2 & -> & G2) (b3 & -> & G3).
  simpl. eexists. split; [reflexivity|]. nra.
Qed.

Lemma mean_last_n_nonneg (k : nat) (arr : list f64) :
  (0 < k)%nat -> arr <> [] -> Forall F.nonneg arr ->
  F.nonneg (Np.mean (Np.last_n k arr)).
Proof.
  intros Hk Hne Hall.
  destruct (nonneg_finite _ (last_n_Forall _ k _ Hall)) as (xs & Hxs & Hpos).
  pose proof (last_n_nonempty k arr Hk Hne) as Hne'.
  rewrite Hxs in *. rewrite mean_nums by (intros ->; apply Hne'; reflexivity).
  eexists. split; [reflexivity|].
  apply Rmean_nonneg; [|exact Hpos]. intros ->. apply Hne'. reflexivity.
Qed.

Lemma mean_nonneg (arr : list f64) :
  arr <> [] -> Forall F.nonneg arr -> F.nonneg (Np.mean arr).
Proof.
  intros Hne Hall.
  destruct (nonneg_finite _ Hall) as (xs & -> & Hpos).
  assert (Hxs : xs <> []) by (intros ->; apply Hne; reflexivity).
  rewrite mean_nums by exact Hxs.
  eexists. split; [reflexivity|]. apply Rmean_nonneg; assumption.
Qed.

Lemma std_nonneg (arr : list f64) :
  arr <> [] -> Forall F.nonneg arr -> F.nonneg (Np.std arr).
Proof.
  intros Hne Hall.
  destruct (nonneg_finite _ Hall) as (xs & -> & Hpos).
  assert (Hxs : xs <> []) by (intros ->; apply Hne; reflexivity).
  rewrite std_nums by exact Hxs.
  eexists. split; [reflexivity|]. apply sqrt_pos.
Qed.

Lemma forecast_positive (recent_lead_times : list f64) :
  Forall F.positive recent_lead_times ->
  F.positive (if (0 <? length recent_lead_times)%nat
              then Np.mean (Np.last_n 10 recent_lead_times)
              else Num 14).
Proof.
  intros Hall. destruct (0 <? length recent_lead_times)%nat eqn:Hlen.
  - apply Nat.ltb_lt in Hlen.
    assert (Hne : recent_lead_times <> []) by (intros ->; simpl in Hlen; lia).
    destruct (positive_finite _ (last_n_Forall _ 10 _ Hall)) as (xs & Hxs & Hpos).
    pose proof (last_n_nonempty 10 recent_lead_times ltac:(lia) Hne) as Hne'.
    rewrite Hxs in *.
    assert (Hx : xs <> []) by (intros ->; apply Hne'; reflexivity).
    rewrite mean_nums by exact Hx.
    eexists. split; [reflexivity|]. apply Rmean_pos; assumption.
  - exists 14. split; [reflexivity | lra].
Qed.

(** The safety stock and the reorder point of both policies, from a
    z-score, a dispersion and a demand rate that are not negative and a
    positive lead time. *)
Lemma stock_nonneg (z_score dispersion demand lead : f64) :
  F.nonneg z_score -> F.nonneg dispersion -> F.nonneg demand -> F.positive lead ->
  F.nonneg (F.add (F.mul demand lead)
                  (F.mul (F.mul z_score dispersion) (F.sqrt lead)))
  /\ F.nonneg (F.mul (F.mul z_score dispersion) (F.sqrt lead)).
Proof.
  intros (z & -> & Hz) (s & -> & Hs) (a & -> & Ha) (L & -> & HL).
  simpl. rewrite Rltb_false by lra. simpl.
  pose proof (sqrt_pos L) as Hsqrt.
  assert (Hzs : 0 <= z * s) by (apply Rmult_le_pos; assumption).
  assert (Hss : 0 <= z * s * sqrt L) by (apply Rmult_le_pos; assumption).
  assert (HaL : 0 <= a * L) by (apply Rmult_le_pos; lra).
  split; eexists; (split; [reflexivity|]); lra.
Qed.

Hypothesis ppf_quantile : normal_quantile norm_ppf.

Lemma z_score_nonneg (p : R) : 1 / 2 <= p < 1 -> F.nonneg (norm_ppf (Num p)).
Proof using ppf_quantile.
  intros Hp. destruct (ppf_quantile p ltac:(lra)) as (z & Hz & _ & Hhalf & Hup).
  exists z. split; [exact Hz|].
  destruct (Req_dec_T p (1 / 2)) as [Heq | Hne].
  - rewrite (Hhalf Heq). lra.
  - apply Rlt_le, Hup. lra.
Qed.

(** C2 (amended).  For a service level of at least one half (and below 1),
    both policies return a reorder point and a safety stock that are not
    negative: the fixed policy on an average demand and a demand standard
    deviation that are numbers and not negative and a positive average lead
    time; the dynamic policy on a non-empty demand series without negative
    quantities, positive lead times and weights that are not negative. *)
Theorem reorder_point_nonneg
    (p avg_daily_demand avg_lead_time demand_std : R)
    (recent_demand recent_lead_times : list f64) (weights : Weights) :
  1 / 2 <= p < 1 ->
  0 <= avg_daily_demand -> 0 < avg_lead_time -> 0 <= demand_std ->
  recent_demand <> [] -> Forall F.nonneg recent_demand ->
  Forall F.positive recent_lead_times ->
  F.nonneg (w30d weights) -> F.nonneg (w60d weights) -> F.nonneg (w90d weights) ->
  let fixed_result :=
    calculate_fixed_rop norm_ppf (Num avg_daily_demand) (Num avg_lead_time)
      (Num demand_std) (Num p) in
  let dynamic_result :=
    calculate_dynamic_rop norm_ppf recent_demand recent_lead_times (Num p) weights in
  (F.nonneg (rop fixed_result) /\ F.nonneg (safety_stock fixed_result))
  /\ (F.nonneg (rop dynamic_result) /\ F.nonneg (safety_stock dynamic_result)).
Proof using ppf_quantile.
  intros Hp Ha HL Hs Hne Hdemand Hlead H30 H60 H90 fixed_result dynamic_result.
  pose proof (z_score_nonneg p Hp) as Hz.
  split.
  - apply stock_nonneg.
    + exact Hz.
    + exists demand_std. split; [reflexivity | exact Hs].
    + exists avg_daily_demand. split; [reflexivity | exact Ha].
    + exists avg_lead_time. split; [reflexivity | exact HL].
  - unfold dynamic_result, calculate_dynamic_rop. cbn [rop safety_stock].
    apply stock_nonneg.
    + exact Hz.
    + destruct (30 <=? length recent_demand)%nat.
      * apply std_nonneg; [|apply last_n_Forall; exact Hdemand].
        apply last_n_nonempty; [lia | exact Hne].
      * apply std_nonneg; assumption.
    + destruct (90 <=? length recent_demand)%nat.
      * apply weighted_average_nonneg; try assumption;
          apply mean_last_n_nonneg; try assumption; lia.
      * apply mean_nonneg; assumption.
    + apply forecast_positive. exact Hlead.
Qed.

End PolicyProperties.

(** C2, as stated, fails for a service level below one half, which is a
    probability too: the z-score is then negative, and at service level
    0.4, with average demand 10, lead time 4 and demand standard deviation
    2, the fixed policy returns a negative safety stock, whatever the
    quantile function. *)
Lemma low_service_level_negative_stock :
  normal_quantile logistic_ppf
  /\ forall norm_ppf, normal_quantile norm_ppf ->
       exists ss,
         safety_stock (calculate_fixed_rop norm_ppf (Num 10) (Num 4) (Num 2) (Num 0.4))
         = Num ss /\ ss < 0.
Proof.
  split; [exact logistic_ppf_quantile|].
  intros norm_ppf Hq.
  destruct (Hq 0.4 ltac:(lra)) as (z & Hz & Hneg & _).
  specialize (Hneg ltac:(lra)).
  unfold calculate_fixed_rop. cbn [safety_stock]. rewrite Hz. simpl.
  rewrite Rltb_false by lra. simpl.
  eexists. split; [reflexivity|].
  pose proof (sqrt_lt_R0 4 ltac:(lra)) as Hsqrt. nra.
Qed.

(** Service level 0.95, with the logistic quantile function for the z-score. *)
Lemma reorder_point_nonneg_witness :
  let fixed_result :=
    calculate_fixed_rop logistic_ppf (Num 10) (Num 4) (Num 2) (Num 0.95) in
  let dynamic_result :=
    calculate_dynamic_rop logistic_ppf [Num 3; Num 5] [Num 4] (Num 0.95)
      default_weights in
  (F.nonneg (rop fixed_result) /\ F.nonneg (safety_stock fixed_result))
  /\ (F.nonneg (rop dynamic_result) /\ F.nonneg (safety_stock dynamic_result)).
Proof.
  apply (reorder_point_nonneg logistic_ppf logistic_ppf_quantile
           0.95 10 4 2 [Num 3; Num 5] [Num 4] default_weights).
  - lra.
  - lra.
  - lra.
  - lra.
  - discriminate.
  - repeat constructor; eexists; (split; [reflexivity | lra]).
  - repeat constructor; eexists; (split; [reflexivity | lra]).
  - exists 0.5. split; [reflexivity | lra].
  - exists 0.3. split; [reflexivity | lra].
  - exists 0.2. split; [reflexivity | lra].
Defined.

(** C5.  On fewer than 90 demand observations the dynamic policy takes the
    plain mean of all of them as its weighted-moving-average demand, its
    forecasted lead time is the mean of the 10 most recent lead times (14
    when there is none), and its reorder point is the mean demand times
    the forecasted lead time plus the safety stock. *)
Theorem dynamic_rop_plain_mean
    (norm_ppf : f64 -> f64) (recent_demand recent_lead_times : list f64)
    (service_level : f64) (weights : Weights) :
  (length recent_demand < 90)%nat ->
  let result :=
    calculate_dynamic_rop norm_ppf recent_demand recent_lead_times service_level weights in
  let lead :=
    match recent_lead_times with
    | [] => Num 14
    | _ => Np.mean (Np.last_n 10 recent_lead_times)
    end in
  wma_demand result = Some (Np.mean recent_demand)
  /\ forecasted_lt result = Some lead
  /\ rop result = F.add (F.mul (Np.mean recent_demand) lead) (safety_stock result)
  /\ take (length recent_lead_times - 10) recent_lead_times
       ++ Np.last_n 10 recent_lead_times = recent_lead_times
  /\ length (Np.last_n 10 recent_lead_times) = (10 `min` length recent_lead_times)%nat.
Proof.
  intros Hshort result lead.
  assert (Hwma : (90 <=? length recent_demand)%nat = false)
    by (apply Nat.leb_gt; exact Hshort).
  assert (Hlead : (if (0 <? length recent_lead_times)%nat
                   then Np.mean (Np.last_n 10 recent_lead_times)
                   else Num 14) = lead).
  { unfold lead. destruct recent_lead_times; reflexivity. }
  unfold result, calculate_dynamic_rop.
  cbn [wma_demand forecasted_lt rop safety_stock].
  rewrite Hwma, Hlead.
  repeat split; try reflexivity; apply last_n_suffix.
Qed.

(** Two demand observations and two lead times. *)
Lemma dynamic_rop_plain_mean_witness :
  let result :=
    calculate_dynamic_rop logistic_ppf [Num 3; Num 5] [Num 4; Num 6] (Num 0.95)
      default_weights in
  let lead := Np.mean (Np.last_n 10 [Num 4; Num 6]) in
  wma_demand result = Some (Np.mean [Num 3; Num 5])
  /\ forecasted_lt result = Some lead
  /\ rop result = F.add (F.mul (Np.mean [Num 3; Num 5]) lead) (safety_stock result)
  /\ take (length [Num 4; Num 6] - 10) [Num 4; Num 6]
       ++ Np.last_n 10 [Num 4; Num 6] = [Num 4; Num 6]
  /\ length (Np.last_n 10 [Num 4; Num 6]) = (10 `min` length [Num 4; Num 6])%nat.
Proof.
  apply (dynamic_rop_plain_mean logistic_ppf [Num 3; Num 5] [Num 4; Num 6]
           (Num 0.95) default_weights).
  simpl. lia.
Defined.

(** ** The statistics of a SKU with one demand observation *)

Lemma group_by_lookup {A} (rows : list (string * A)) (k : string) :
  Pd.group_by rows !! k =
  match snd <$> filter (fun kv => kv.1 = k) rows with
  | [] => None
  | vs => Some vs
  end.
Proof.
  induction rows as [|[k' v] rows IH].
  - reflexivity.
  - change (Pd.group_by ((k', v) :: rows))
      with (partial_alter (fun o => Some (v :: default [] o)) k' (Pd.group_by rows)).
    rewrite filter_cons. cbn [fst].
    set (vs := snd <$> filter (fun kv : string * A => kv.1 = k) rows) in *.
    destruct (decide (k' = k)) as [-> | Hne].
    + rewrite lookup_partial_alter_eq, IH, fmap_cons. fold vs.
      destruct vs; reflexivity.
    + rewrite lookup_partial_alter_ne by exact Hne. exact IH.
Qed.

(** The sample standard deviation of a single value is NaN. *)
Lemma std_single (q : f64) : Pd.std [q] = NaN.
Proof.
  unfold Pd.std, Pd.var, Pd.dropna. rewrite filter_cons, filter_nil.
  destruct (decide (F.is_nan q = false)); reflexivity.
Qed.

(** The statistics row of a SKU, from its demand and purchase order rows. *)
Lemma sku_statistics_lookup daily_demand purchase_orders (sku : string) :
  calculate_sku_statistics daily_demand purchase_orders !! sku =
  match sku_quantities daily_demand sku with
  | [] => None
  | quantity =>
      Some {| Stats.avg_daily_demand := Pd.mean quantity;
              Stats.demand_std := Pd.std quantity;
              Stats.total_demand := Pd.sum quantity;
              Stats.avg_lead_time :=
                Pd.fillna (Num 14)
                  (from_option Pd.mean NaN
                     (Pd.group_by ((fun r => (po_sku_id r, po_lead_time_days r))
                                     <$> purchase_orders) !! sku));
              Stats.lead_time_std :=
                Pd.fillna (Num 3)
                  (from_option Pd.std NaN
                     (Pd.group_by ((fun r => (po_sku_id r, po_lead_time_days r))
                                     <$> purchase_orders) !! sku)) |}
  end.
Proof.
  unfold calculate_sku_statistics. rewrite map_lookup_imap.
  rewrite (group_by_lookup ((fun r => (dd_sku_id r, dd_quantity r)) <$> daily_demand)).
  assert (Hq : snd <$> filter (fun kv : string * f64 => kv.1 = sku)
                 ((fun r => (dd_sku_id r, dd_quantity r)) <$> daily_demand)
               = sku_quantities daily_demand sku).
  { unfold sku_quantities. induction daily_demand as [|r rows IH]; [reflexivity|].
    rewrite fmap_cons, !filter_cons. simpl.
    destruct (decide (dd_sku_id r = sku)); [rewrite !fmap_cons, IH|]; auto. }
  rewrite Hq. destruct (sku_quantities daily_demand sku); reflexivity.
Qed.

(** A SKU with exactly one demand observation has a row of statistics whose
    demand standard deviation is NaN, and the fixed policy turns it into a
    NaN safety stock and a NaN reorder point. *)
Lemma single_observation_nan norm_ppf service_level daily_demand purchase_orders
    (sku : string) (q : f64) :
  sku_quantities daily_demand sku = [q] ->
  exists sku_data,
    calculate_sku_statistics daily_demand purchase_orders !! sku = Some sku_data
    /\ Stats.demand_std sku_data = NaN
    /\ safety_stock
         (calculate_fixed_rop norm_ppf (Stats.avg_daily_demand sku_data)
            (Stats.avg_lead_time sku_data) (Stats.demand_std sku_data) service_level)
       = NaN
    /\ rop
         (calculate_fixed_rop norm_ppf (Stats.avg_daily_demand sku_data)
            (Stats.avg_lead_time sku_data) (Stats.demand_std sku_data) service_level)
       = NaN.
Proof.
  intros Hone. rewrite sku_statistics_lookup, Hone.
  eexists. split; [reflexivity|].
  unfold calculate_fixed_rop.
  cbn [Stats.demand_std Stats.avg_daily_demand Stats.avg_lead_time safety_stock rop].
  rewrite std_single, mul_nan_r. cbn [F.mul]. rewrite add_nan_r.
  repeat split.
Qed.

(** *** A NaN reorder point in the simulation *)

Lemma draw_demand_positive demand_data g :
  demand_data <> [] -> Forall F.positive demand_data ->
  F.positive (fst (draw_demand demand_data g)).
Proof.
  intros Hne Hall. unfold draw_demand.
  destruct (0 <? length demand_data)%nat eqn:Hlen.
  - apply Nat.ltb_lt in Hlen. simpl.
    apply (proj1 (List.Forall_nth F.positive demand_data) Hall).
    apply Nat.mod_upper_bound. lia.
  - apply Nat.ltb_ge in Hlen. destruct demand_data; [contradiction|].
    simpl in Hlen. lia.
Qed.

Section NanReorderPoint.

Variables (demand_data : list f64) (order_qty lead_time : f64).
Hypothesis demand_some : demand_data <> [].
Hypothesis demand_positive : Forall F.positive demand_data.

Lemma met_untouched_after_fulfil s :
  Loop.demand_met (record_level (receive lead_time (reorder NaN order_qty s)))
  = Loop.demand_met s
  /\ Loop.total_demand (record_level (receive lead_time (reorder NaN order_qty s)))
     = Loop.total_demand s.
Proof.
  unfold record_level, receive, reorder.
  destruct (F.leb (Loop.inventory s) NaN && F.eqb (Loop.on_order s) (Num 0));
    match goal with |- context [arrival ?l ?x] => destruct (arrival l x) as [[|] g'] end;
    split; reflexivity.
Qed.

Lemma met_is_nan_first_day g :
  met_is_nan (simulate_day demand_data NaN order_qty lead_time (initial_state NaN g)).
Proof using demand_some demand_positive.
  unfold simulate_day.
  pose proof (draw_demand_positive demand_data (Loop.gen (initial_state NaN g))
                demand_some demand_positive) as Hd.
  destruct (draw_demand demand_data (Loop.gen (initial_state NaN g))) as [d g'].
  simpl in Hd. destruct Hd as (x & -> & Hx).
  unfold met_is_nan.
  destruct (met_untouched_after_fulfil
              (fulfil (Num x) (observe (Num x) g' (initial_state NaN g)))) as [-> ->].
  unfold fulfil, observe, initial_state. simpl.
  split; [reflexivity|]. exists (0 + x). split; [reflexivity | lra].
Qed.

Lemma met_is_nan_simulate_day s :
  met_is_nan s -> met_is_nan (simulate_day demand_data NaN order_qty lead_time s).
Proof using demand_some demand_positive.
  intros [Hmet (t & Ht & Hpos)]. unfold simulate_day.
  pose proof (draw_demand_positive demand_data (Loop.gen s)
                demand_some demand_positive) as Hd.
  destruct (draw_demand demand_data (Loop.gen s)) as [d g'].
  simpl in Hd. destruct Hd as (x & -> & Hx).
  unfold met_is_nan.
  destruct (met_untouched_after_fulfil (fulfil (Num x) (observe (Num x) g' s)))
    as [-> ->].
  unfold fulfil, observe. cbn [Loop.inventory Loop.demand_met Loop.total_demand].
  rewrite Hmet, Ht.
  destruct (F.geb (Loop.inventory s) (Num x)); simpl;
    (split; [reflexivity|]); exists (t + x); (split; [reflexivity | lra]).
Qed.

End NanReorderPoint.

(** With a NaN reorder point, a non-empty history of positive demand and a
    horizon of at least one day, the fill rate is NaN. *)
Lemma nan_rop_fill_rate days g sku demand_data lead_time :
  demand_data <> [] -> Forall F.positive demand_data ->
  Sim.fill_rate (fst (simulate_sku_inventory (S days) g sku demand_data NaN lead_time))
  = NaN.
Proof.
  intros Hne Hpos. unfold simulate_sku_inventory. cbn [fst Sim.fill_rate run_days].
  assert (Hs : met_is_nan
                 (run_days days demand_data NaN (F.mul NaN (Num 1.5)) lead_time
                    (simulate_day demand_data NaN (F.mul NaN (Num 1.5)) lead_time
                       (initial_state NaN g)))).
  { apply run_days_invariant.
    - intros s. apply met_is_nan_simulate_day; assumption.
    - apply met_is_nan_first_day; assumption. }
  destruct Hs as [Hmet (t & Ht & Htpos)].
  rewrite Hmet, Ht. simpl. rewrite Rltb_true by exact Htpos. reflexivity.
Qed.

(** C3 (what the code does).  For the SKU of [single_observation], which has
    exactly one demand observation, [calculate_sku_statistics] leaves the
    demand standard deviation at NaN (only the two lead time columns are
    filled), and the fixed arm passes it on: the safety stock, the reorder
    point and the fill rate of the SKU's result row are NaN. *)
Theorem single_observation_sku_yields_nan
    (norm_ppf : f64 -> f64) (service_level : f64) (days : nat) (g : rng) :
  let sku_stats := calculate_sku_statistics single_observation [] in
  exists sku_data out g',
    sku_stats !! "SKU1" = Some sku_data
    /\ Stats.demand_std sku_data = NaN
    /\ simulate_one norm_ppf service_level (S days) g "SKU1" single_observation
         sku_stats fixed = Some (out, g')
    /\ Out.safety_stock out = NaN
    /\ Out.rop out = NaN
    /\ Out.fill_rate out = NaN.
Proof.
  intros sku_stats.
  assert (Hone : sku_quantities single_observation "SKU1" = [Num 5]) by reflexivity.
  destruct (single_observation_nan norm_ppf service_level single_observation []
              "SKU1" (Num 5) Hone) as (sku_data & Hrow & Hstd & Hss & Hrop).
  fold sku_stats in Hrow.
  pose proof (nan_rop_fill_rate days g "SKU1" [Num 5] (Stats.avg_lead_time sku_data))
    as Hfill.
  unfold simulate_one. rewrite Hrow. cbn [mbind option_bind].
  rewrite Hone, Hrop, Hss.
  destruct (simulate_sku_inventory (S days) g "SKU1" [Num 5] NaN
              (Stats.avg_lead_time sku_data)) as [sim_result g'] eqn:Hsim.
  exists sku_data. eexists. exists g'.
  split; [reflexivity|]. split; [exact Hstd|]. split; [reflexivity|].
  cbn [Out.safety_stock Out.rop Out.fill_rate].
  split; [reflexivity|]. split; [reflexivity|].
  apply Hfill.
  - discriminate.
  - repeat constructor. exists 5. split; [reflexivity | lra].
Qed.

(** ** Reductions over columns of real numbers *)

Lemma dropna_nums (xs : list R) : Pd.dropna (Num <$> xs) = Num <$> xs.
Proof.
  unfold Pd.dropna. induction xs as [|x xs IH]; [reflexivity|].
  rewrite fmap_cons, filter_cons, IH. reflexivity.
Qed.

Lemma pd_mean_nums (xs : list R) : xs <> [] -> Pd.mean (Num <$> xs) = Num (Rmean xs).
Proof. intros Hne. unfold Pd.mean. rewrite dropna_nums. apply mean_nums, Hne. Qed.

Lemma pd_sum_nums (xs : list R) : Pd.sum (Num <$> xs) = Num (Rsum xs).
Proof. unfold Pd.sum. rewrite dropna_nums. apply sum_nums. Qed.

Lemma pd_var_nums (xs : list R) :
  (2 <= length xs)%nat -> Pd.var (Num <$> xs) = Num (Rsvar xs).
Proof.
  intros Hlen. unfold Pd.var. rewrite dropna_nums, length_fmap.
  assert (Hne : xs <> []) by (intros ->; simpl in Hlen; lia).
  destruct (length xs <=? 1)%nat eqn:E; [apply Nat.leb_le in E; lia|].
  rewrite (mean_nums xs Hne), deviations_nums, sum_nums.
  apply div_Num. apply not_0_INR. lia.
Qed.

Lemma Rsvar_nonneg (xs : list R) : (2 <= length xs)%nat -> 0 <= Rsvar xs.
Proof.
  intros Hlen. unfold Rsvar.
  assert (Hn : 0 < INR (length xs - 1)) by (apply lt_0_INR; lia).
  apply Rinv_0_lt_compat in Hn.
  assert (Hs : 0 <= Rsum ((fun x => (x - Rmean xs) * (x - Rmean xs)) <$> xs)).
  { apply Rsum_nonneg, Forall_fmap, Forall_true. intros x. unfold compose. cbv beta.
    apply Rle_0_sqr. }
  unfold Rdiv. nra.
Qed.

Lemma pd_std_nums (xs : list R) :
  (2 <= length xs)%nat -> Pd.std (Num <$> xs) = Num (sqrt (Rsvar xs)).
Proof.
  intros Hlen. unfold Pd.std. rewrite (pd_var_nums xs Hlen). simpl.
  rewrite Rltb_false by (apply Rsvar_nonneg; exact Hlen). reflexivity.
Qed.

(** The pooled standard deviation of two columns of at least two numbers. *)
Lemma pooled_std_nums (xs ys : list R) :
  (2 <= length xs)%nat -> (2 <= length ys)%nat ->
  pooled_std (Num <$> xs) (Num <$> ys) = Num (sqrt ((Rsvar xs + Rsvar ys) / 2)).
Proof.
  intros Hx Hy. unfold pooled_std. rewrite (pd_std_nums xs Hx), (pd_std_nums ys Hy).
  pose proof (Rsvar_nonneg xs Hx) as Hvx. pose proof (Rsvar_nonneg ys Hy) as Hvy.
  simpl. rewrite !sqrt_sqrt by assumption.
  rewrite Reqb_false by lra. simpl.
  rewrite Rltb_false by lra. reflexivity.
Qed.

(** ** The comparator *)

Section ComparatorProperties.

Variable ttest_ind : list f64 -> list f64 -> f64 * f64.
Variable alpha : f64.

(** The effect size, from the difference of the means and the pooled
    standard deviation. *)
Lemma cohens_d_unfold control treatment metric_name :
  cohens_d (compare_means ttest_ind alpha control treatment metric_name) =
  if F.gtb (pooled_std control treatment) (Num 0)
  then F.div (F.sub (Pd.mean treatment) (Pd.mean control)) (pooled_std control treatment)
  else Num 0.
Proof.
  unfold compare_means. destruct (ttest_ind treatment control). reflexivity.
Qed.

Lemma pct_change_unfold control treatment metric_name :
  pct_change (compare_means ttest_ind alpha control treatment metric_name) =
  F.mul (F.div (F.sub (Pd.mean treatment) (Pd.mean control)) (Pd.mean control)) (Num 100).
Proof.
  unfold compare_means. destruct (ttest_ind treatment control). reflexivity.
Qed.

Lemma control_mean_unfold control treatment metric_name :
  control_mean (compare_means ttest_ind alpha control treatment metric_name)
  = Pd.mean control.
Proof.
  unfold compare_means. destruct (ttest_ind treatment control). reflexivity.
Qed.

(** C7 (amended).  When the pooled standard deviation is 0, Cohen's d is 0,
    whatever the two means are: the division is not attempted. *)
Theorem cohens_d_zero_pooled_std control treatment metric_name :
  pooled_std control treatment = Num 0 ->
  cohens_d (compare_means ttest_ind alpha control treatment metric_name) = Num 0.
Proof.
  intros Hzero. rewrite cohens_d_unfold, Hzero.
  unfold F.gtb. simpl. rewrite Rltb_false by lra. reflexivity.
Qed.

(** With a positive pooled standard deviation and two columns of numbers,
    Cohen's d is the quotient, which is 0 exactly when the means agree. *)
Lemma cohens_d_positive_pooled_std (xs ys : list R) metric_name :
  (2 <= length xs)%nat -> (2 <= length ys)%nat ->
  0 < Rsvar xs + Rsvar ys ->
  cohens_d (compare_means ttest_ind alpha (Num <$> xs) (Num <$> ys) metric_name)
  = Num ((Rmean ys - Rmean xs) / sqrt ((Rsvar xs + Rsvar ys) / 2))
  /\ (cohens_d (compare_means ttest_ind alpha (Num <$> xs) (Num <$> ys) metric_name)
      = Num 0 <-> Rmean ys = Rmean xs).
Proof.
  intros Hx Hy Hpos.
  assert (Hnx : xs <> []) by (intros ->; simpl in Hx; lia).
  assert (Hny : ys <> []) by (intros ->; simpl in Hy; lia).
  assert (Hs : 0 < sqrt ((Rsvar xs + Rsvar ys) / 2)) by (apply sqrt_lt_R0; lra).
  assert (Hd : cohens_d (compare_means ttest_ind alpha (Num <$> xs) (Num <$> ys) metric_name)
               = Num ((Rmean ys - Rmean xs) / sqrt ((Rsvar xs + Rsvar ys) / 2))).
  { rewrite cohens_d_unfold, (pooled_std_nums xs ys Hx Hy).
    rewrite (pd_mean_nums xs Hnx), (pd_mean_nums ys Hny).
    unfold F.gtb. simpl. rewrite Rltb_true by exact Hs.
    rewrite Reqb_false by lra. reflexivity. }
  split; [exact Hd|]. rewrite Hd.
  assert (Hinv : 0 < / sqrt ((Rsvar xs + Rsvar ys) / 2)) by (apply Rinv_0_lt_compat, Hs).
  split.
  - intros Heq. injection Heq as Heq. unfold Rdiv in Heq.
    apply Rmult_integral in Heq. destruct Heq; lra.
  - intros ->. f_equal. unfold Rdiv. ring.
Qed.

End ComparatorProperties.

Lemma Rsvar_1_3 : Rsvar [1; 3] = 2.
Proof. unfold Rsvar, Rmean, Rsum. simpl. field. Qed.

Lemma Rmean_1_3 : Rmean [1; 3] = 2.
Proof. unfold Rmean, Rsum. simpl. field. Qed.

(** C7, as stated, fails in the direction from d = 0 to a zero pooled
    standard deviation: for the two equal samples 1, 3 the means agree and
    Cohen's d is 0, while the pooled standard deviation is the square root
    of 2. *)
Lemma equal_means_positive_pooled_std :
  (forall ttest_ind alpha,
     cohens_d (compare_means ttest_ind alpha [Num 1; Num 3] [Num 1; Num 3]
                 "Fill Rate (%)") = Num 0)
  /\ pooled_std [Num 1; Num 3] [Num 1; Num 3] = Num (sqrt 2)
  /\ pooled_std [Num 1; Num 3] [Num 1; Num 3] <> Num 0.
Proof.
  assert (Hpooled : pooled_std [Num 1; Num 3] [Num 1; Num 3] = Num (sqrt 2)).
  { change [Num 1; Num 3] with (Num <$> [1; 3]).
    rewrite pooled_std_nums by (simpl; lia).
    rewrite Rsvar_1_3. do 2 f_equal. lra. }
  split; [|split].
  - intros ttest_ind alpha.
    change [Num 1; Num 3] with (Num <$> [1; 3]).
    apply cohens_d_positive_pooled_std; try (simpl; lia).
    + rewrite Rsvar_1_3. lra.
    + reflexivity.
  - exact Hpooled.
  - rewrite Hpooled. intros Heq. injection Heq as Heq.
    pose proof (sqrt_lt_R0 2 ltac:(lra)). lra.
Qed.

Lemma Rsvar_constant_pair (c : R) : Rsvar [c; c] = 0.
Proof. unfold Rsvar, Rmean, Rsum. simpl. field. Qed.

(** Two samples without dispersion and with different means. *)
Lemma cohens_d_zero_pooled_std_witness :
  cohens_d (compare_means null_ttest (Num 0.05) [Num 2; Num 2] [Num 5; Num 5]
              "Fill Rate (%)") = Num 0.
Proof.
  apply cohens_d_zero_pooled_std.
  change [Num 2; Num 2] with (Num <$> [2; 2]).
  change [Num 5; Num 5] with (Num <$> [5; 5]).
  rewrite pooled_std_nums by (simpl; lia).
  rewrite !Rsvar_constant_pair.
  replace ((0 + 0) / 2) with 0 by lra.
  rewrite sqrt_0. reflexivity.
Defined.

(** *** The percent change against a zero baseline *)

(** With a control mean of zero the percent change is the outcome of a
    division by zero: an infinity with the sign of the treatment mean, or
    NaN when the treatment mean is zero too. *)
Lemma pct_change_zero_baseline ttest_ind alpha control treatment metric_name (t : R) :
  Pd.mean control = Num 0 -> Pd.mean treatment = Num t ->
  pct_change (compare_means ttest_ind alpha control treatment metric_name)
  = if Rltb 0 t then PosInf else if Rltb t 0 then NegInf else NaN.
Proof.
  intros Hc Ht. rewrite pct_change_unfold, Hc, Ht. simpl.
  rewrite Reqb_true by reflexivity. unfold F.scaled_inf.
  replace (t - 0) with t by lra.
  destruct (Rltb 0 t) eqn:E1; simpl.
  - unfold F.scaled_inf. Rdecide. reflexivity.
  - destruct (Rltb t 0) eqn:E2; simpl; [|reflexivity].
    unfold F.scaled_inf. Rdecide. reflexivity.
Qed.

Lemma Rmean_0_0 : Rmean [0; 0] = 0.
Proof. unfold Rmean, Rsum. simpl. field. Qed.

(** C8 (what the code does).  For the stockout counts 0, 0 of the control
    arm and 1, 3 of the treatment arm the control mean is zero and the
    percent change is computed by the division all the same: it is reported
    as plus infinity (and as NaN when the treatment counts are 0, 0 too). *)
Theorem pct_change_zero_control_mean
    (ttest_ind : list f64 -> list f64 -> f64 * f64) (alpha : f64) :
  control_mean (compare_means ttest_ind alpha [Num 0; Num 0] [Num 1; Num 3]
                  "Stockout Count") = Num 0
  /\ pct_change (compare_means ttest_ind alpha [Num 0; Num 0] [Num 1; Num 3]
                   "Stockout Count") = PosInf
  /\ pct_change (compare_means ttest_ind alpha [Num 0; Num 0] [Num 0; Num 0]
                   "Stockout Count") = NaN.
Proof.
  assert (H0 : Pd.mean [Num 0; Num 0] = Num 0).
  { change [Num 0; Num 0] with (Num <$> [0; 0]).
    rewrite pd_mean_nums by discriminate. rewrite Rmean_0_0. reflexivity. }
  assert (H2 : Pd.mean [Num 1; Num 3] = Num 2).
  { change [Num 1; Num 3] with (Num <$> [1; 3]).
    rewrite pd_mean_nums by discriminate. rewrite Rmean_1_3. reflexivity. }
  split; [|split].
  - rewrite control_mean_unfold. exact H0.
  - rewrite (pct_change_zero_baseline _ _ _ _ _ 2 H0 H2).
    rewrite Rltb_true by lra. reflexivity.
  - rewrite (pct_change_zero_baseline _ _ _ _ _ 0 H0 H0).
    rewrite !Rltb_false by lra. reflexivity.
Qed.

(** ** The ROI computation *)

Lemma leb_zero_not_gtb (a : f64) : F.leb a (Num 0) = true -> F.gtb a (Num 0) = false.
Proof.
  destruct a as [x| | |]; simpl; try discriminate; try reflexivity.
  intros H. apply Rleb_spec in H. apply Rltb_false. exact H.
Qed.

(** The report, once the carrying cost rate is read. *)
Lemma calculate_roi_unfold config control treatment (carrying_rate : f64) :
  cfg_get config "simulation" "carrying_cost_rate" ≫= scalar_num = Some carrying_rate ->
  let inventory_savings :=
    F.sub (F.mul (Pd.sum (col_avg_inventory control)) (Num 25))
          (F.mul (Pd.sum (col_avg_inventory treatment)) (Num 25)) in
  let annual_carrying_savings := F.mul inventory_savings carrying_rate in
  let stockout_savings :=
    F.mul (F.sub (Pd.sum (col_stockout_count control))
                 (Pd.sum (col_stockout_count treatment))) (Num 150) in
  let benefit :=
    F.sub (F.add annual_carrying_savings stockout_savings) (Num 15000) in
  calculate_roi config control treatment =
  Some {| inventory_savings := inventory_savings;
          annual_carrying_savings := annual_carrying_savings;
          stockout_savings := stockout_savings;
          total_annual_benefit := benefit;
          payback_months :=
            if F.gtb benefit (Num 0)
            then F.div (Num 50000) (F.div benefit (Num 12))
            else PosInf;
          npv_3year := npv_years benefit [1; 2; 3]%nat (Num (- 50000));
          roi_year1 :=
            F.mul (F.div (F.sub benefit (Num 50000)) (Num 50000)) (Num 100) |}.
Proof.
  intros Hrate. unfold calculate_roi. rewrite Hrate. reflexivity.
Qed.

(** C9.  Once the configuration supplies the carrying cost rate,
    [calculate_roi] returns a report for every pair of result tables; when
    its total annual benefit is at most 0 the payback period is plus
    infinity, and when that benefit is a number the net present value and
    the year-1 ROI are numbers too. *)
Theorem nonpositive_benefit_no_payback
    (config : gmap string (gmap string scalar)) (control treatment : list Out.row)
    (carrying_rate : f64) :
  cfg_get config "simulation" "carrying_cost_rate" ≫= scalar_num = Some carrying_rate ->
  exists report,
    calculate_roi config control treatment = Some report
    /\ (F.leb (total_annual_benefit report) (Num 0) = true ->
        payback_months report = PosInf)
    /\ (forall b, total_annual_benefit report = Num b ->
        npv_3year report
        = Num (- 50000 + b / 1.10 ^ 1 + b / 1.10 ^ 2 + b / 1.10 ^ 3)
        /\ roi_year1 report = Num ((b - 50000) / 50000 * 100)).
Proof.
  intros Hrate. rewrite (calculate_roi_unfold _ _ _ _ Hrate).
  eexists. split; [reflexivity|].
  cbn [total_annual_benefit payback_months npv_3year roi_year1]. split.
  - intros Hle. rewrite (leb_zero_not_gtb _ Hle). reflexivity.
  - intros b ->. unfold npv_years. simpl.
    rewrite !Reqb_false by lra. split; reflexivity.
Qed.

(** The report on the example tables: a saving of 10 units of inventory and
    of one stockout does not cover the annual maintenance. *)
Lemma example_roi_benefit (config : gmap string (gmap string scalar)) :
  cfg_get config "simulation" "carrying_cost_rate" ≫= scalar_num = Some (Num 0.25) ->
  exists report,
    calculate_roi config example_control example_treatment = Some report
    /\ inventory_savings report = Num 250
    /\ total_annual_benefit report = Num (-14787.5).
Proof.
  intros Hrate. rewrite (calculate_roi_unfold _ _ _ _ Hrate).
  eexists. split; [reflexivity|].
  cbn [inventory_savings total_annual_benefit].
  change (col_avg_inventory example_control) with (Num <$> [100]).
  change (col_avg_inventory example_treatment) with (Num <$> [90]).
  change (col_stockout_count example_control) with (Num <$> [INR 2]).
  change (col_stockout_count example_treatment) with (Num <$> [INR 1]).
  rewrite !pd_sum_nums. unfold Rsum. simpl.
  split; f_equal; lra.
Qed.

(** The example tables, whose benefit is negative: no payback, and finite
    figures for the net present value and the year-1 ROI. *)
Lemma nonpositive_benefit_no_payback_witness :
  exists report,
    calculate_roi example_config example_control example_treatment = Some report
    /\ total_annual_benefit report = Num (-14787.5)
    /\ payback_months report = PosInf
    /\ exists npv roi, npv_3year report = Num npv /\ roi_year1 report = Num roi.
Proof.
  destruct (nonpositive_benefit_no_payback example_config example_control
              example_treatment (Num 0.25) eq_refl)
    as (report & Hreport & Hpayback & Hfigures).
  destruct (example_roi_benefit example_config eq_refl) as (report' & Hreport' & _ & Hb).
  rewrite Hreport in Hreport'. injection Hreport' as <-.
  exists report. split; [exact Hreport|]. split; [exact Hb|]. split.
  - apply Hpayback. rewrite Hb. simpl. apply Rleb_true. lra.
  - destruct (Hfigures _ Hb) as [Hnpv Hroi]. eauto.
Defined.

(** C10 (amended).  Of the configuration, [calculate_roi] reads the carrying
    cost rate and nothing else: two configurations that supply the same
    rate give the same report on the same result tables, whose annual
    carrying savings are the inventory savings times that rate; the unit
    cost (25), the cost of a stockout (150), the implementation cost
    (50000), the annual maintenance (15000) and the discount rate (10%) are
    constants of the function. *)
Theorem roi_reads_only_carrying_rate
    (config1 config2 : gmap string (gmap string scalar))
    (control treatment : list Out.row) (carrying_rate : f64) :
  cfg_get config1 "simulation" "carrying_cost_rate" ≫= scalar_num = Some carrying_rate ->
  cfg_get config2 "simulation" "carrying_cost_rate" ≫= scalar_num = Some carrying_rate ->
  calculate_roi config1 control treatment = calculate_roi config2 control treatment
  /\ exists report,
       calculate_roi config1 control treatment = Some report
       /\ inventory_savings report
          = F.sub (F.mul (Pd.sum (col_avg_inventory control)) (Num 25))
                  (F.mul (Pd.sum (col_avg_inventory treatment)) (Num 25))
       /\ annual_carrying_savings report = F.mul (inventory_savings report) carrying_rate
       /\ stockout_savings report
          = F.mul (F.sub (Pd.sum (col_stockout_count control))
                         (Pd.sum (col_stockout_count treatment))) (Num 150)
       /\ total_annual_benefit report
          = F.sub (F.add (annual_carrying_savings report) (stockout_savings report))
                  (Num 15000)
       /\ npv_3year report
          = npv_years (total_annual_benefit report) [1; 2; 3]%nat (Num (- 50000))
       /\ roi_year1 report
          = F.mul (F.div (F.sub (total_annual_benefit report) (Num 50000)) (Num 50000))
                  (Num 100).
Proof.
  intros H1 H2.
  rewrite (calculate_roi_unfold _ _ _ _ H1), (calculate_roi_unfold _ _ _ _ H2).
  split; [reflexivity|].
  eexists. split; [reflexivity|].
  cbn [inventory_savings annual_carrying_savings stockout_savings
       total_annual_benefit npv_3year roi_year1].
  repeat split.
Qed.

(** The example configuration and the one with the section of monetary
    constants supply the same carrying cost rate. *)
Lemma roi_reads_only_carrying_rate_witness :
  calculate_roi example_config example_control example_treatment
  = calculate_roi costly_config example_control example_treatment
  /\ exists report,
       calculate_roi example_config example_control example_treatment = Some report
       /\ inventory_savings report
          = F.sub (F.mul (Pd.sum (col_avg_inventory example_control)) (Num 25))
                  (F.mul (Pd.sum (col_avg_inventory example_treatment)) (Num 25))
       /\ annual_carrying_savings report = F.mul (inventory_savings report) (Num 0.25)
       /\ stockout_savings report
          = F.mul (F.sub (Pd.sum (col_stockout_count example_control))
                         (Pd.sum (col_stockout_count example_treatment))) (Num 150)
       /\ total_annual_benefit report
          = F.sub (F.add (annual_carrying_savings report) (stockout_savings report))
                  (Num 15000)
       /\ npv_3year report
          = npv_years (total_annual_benefit report) [1; 2; 3]%nat (Num (- 50000))
       /\ roi_year1 report
          = F.mul (F.div (F.sub (total_annual_benefit report) (Num 50000)) (Num 50000))
                  (Num 100).
Proof.
  apply (roi_reads_only_carrying_rate example_config costly_config
           example_control example_treatment (Num 0.25)).
  - reflexivity.
  - reflexivity.
Defined.

(** C10, as stated, fails: [costly_config] sets a unit cost of 40, a
    stockout cost of 500, an implementation cost of 1000, no maintenance and
    a discount rate of 50%, and the report is the one of the configuration
    without these entries: the inventory saving of 10 units is valued at
    25 each. *)
Lemma configured_costs_ignored :
  cfg_get costly_config "roi" "unit_cost" = Some (SFloat 40)
  /\ cfg_get example_config "roi" "unit_cost" = None
  /\ calculate_roi costly_config example_control example_treatment
     = calculate_roi example_config example_control example_treatment
  /\ exists report,
       calculate_roi costly_config example_control example_treatment = Some report
       /\ inventory_savings report = Num 250
       /\ inventory_savings report <> Num (40 * (100 - 90)).
Proof.
  split; [reflexivity|]. split; [reflexivity|]. split.
  - rewrite (calculate_roi_unfold costly_config _ _ (Num 0.25) eq_refl).
    rewrite (calculate_roi_unfold example_config _ _ (Num 0.25) eq_refl).
    reflexivity.
  - destruct (example_roi_benefit costly_config eq_refl) as (report & Hreport & Hsave & _).
    exists report. split; [exact Hreport|]. split; [exact Hsave|].
    rewrite Hsave. intros Heq. injection Heq as Heq. lra.
Qed.

(** * Part III: further properties of the code *)

(** ** The day loop: counters *)

Lemma stockouts_simulate_day demand_data rop order_qty lead_time s :
  (Loop.stockouts (simulate_day demand_data rop order_qty lead_time s)
   <= Loop.stockouts s + 1)%nat.
Proof.
  unfold simulate_day.
  destruct (draw_demand demand_data (Loop.gen s)) as [d g'].
  unfold record_level, receive, reorder.
  destruct (F.leb (Loop.inventory (fulfil d (observe d g' s))) rop
            && F.eqb (Loop.on_order (fulfil d (observe d g' s))) (Num 0));
    match goal with |- context [arrival ?l ?x] => destruct (arrival l x) as [[|] g''] end;
    cbn [Loop.stockouts]; unfold fulfil, observe;
    cbn [Loop.inventory Loop.stockouts];
    destruct (F.geb (Loop.inventory s) d); cbn [Loop.stockouts]; lia.
Qed.

Lemma levels_simulate_day demand_data rop order_qty lead_time s :
  length (Loop.inventory_levels (simulate_day demand_data rop order_qty lead_time s))
  = S (length (Loop.inventory_levels s)).
Proof.
  unfold simulate_day.
  destruct (draw_demand demand_data (Loop.gen s)) as [d g'].
  unfold record_level. cbn [Loop.inventory_levels]. rewrite length_app.
  unfold receive, reorder.
  destruct (F.leb (Loop.inventory (fulfil d (observe d g' s))) rop
            && F.eqb (Loop.on_order (fulfil d (observe d g' s))) (Num 0));
    match goal with |- context [arrival ?l ?x] => destruct (arrival l x) as [[|] g''] end;
    cbn [Loop.inventory_levels]; unfold fulfil, observe;
    cbn [Loop.inventory Loop.inventory_levels];
    destruct (F.geb (Loop.inventory s) d); cbn [Loop.inventory_levels length]; lia.
Qed.

Lemma stockouts_run_days days demand_data rop order_qty lead_time s :
  (Loop.stockouts (run_days days demand_data rop order_qty lead_time s)
   <= Loop.stockouts s + days)%nat.
Proof.
  revert s. induction days as [|d IH]; intros s; simpl.
  - lia.
  - pose proof (IH (simulate_day demand_data rop order_qty lead_time s)) as H1.
    pose proof (stockouts_simulate_day demand_data rop order_qty lead_time s) as H2.
    lia.
Qed.

Lemma levels_run_days days demand_data rop order_qty lead_time s :
  length (Loop.inventory_levels (run_days days demand_data rop order_qty lead_time s))
  = (length (Loop.inventory_levels s) + days)%nat.
Proof.
  revert s. induction days as [|d IH]; intros s; simpl.
  - lia.
  - rewrite IH, levels_simulate_day. lia.
Qed.

(** X1.  Whatever the inputs, the stockout count that
    [simulate_sku_inventory] returns is at most the number of simulated
    days: a day counts as one stockout at most. *)
Theorem stockout_count_at_most_days
    (test_days : nat) (g : rng) (sku : string) (demand_data : list f64)
    (rop lead_time : f64) :
  (Sim.stockout_count (fst (simulate_sku_inventory test_days g sku demand_data rop lead_time))
   <= test_days)%nat.
Proof.
  unfold simulate_sku_inventory. cbn [fst Sim.stockout_count].
  pose proof (stockouts_run_days test_days demand_data rop (F.mul rop (Num 1.5))
                lead_time (initial_state rop g)) as H.
  simpl in H. exact H.
Qed.

(** ** The day loop: the range of the stock *)

Lemma Rsum_bounds (lo hi : R) (xs : list R) :
  Forall (fun x => lo <= x <= hi) xs ->
  INR (length xs) * lo <= Rsum xs <= INR (length xs) * hi.
Proof.
  induction 1 as [|x xs Hx _ IH].
  - simpl. lra.
  - change (Rsum (x :: xs)) with (x + Rsum xs).
    change (length (x :: xs)) with (S (length xs)). rewrite S_INR. lra.
Qed.

Lemma Rmean_bounds (lo hi : R) (xs : list R) :
  xs <> [] -> Forall (fun x => lo <= x <= hi) xs -> lo <= Rmean xs <= hi.
Proof.
  intros Hne Hall. unfold Rmean.
  pose proof (Rsum_bounds lo hi xs Hall) as Hs.
  pose proof (INR_length_pos xs Hne) as Hn.
  assert (Hinv : 0 < / INR (length xs)) by (apply Rinv_0_lt_compat, Hn).
  destruct Hs as [Hlo Hhi]. unfold Rdiv. split.
  - replace lo with (INR (length xs) * lo * / INR (length xs)) by (field; lra).
    apply Rmult_le_compat_r; lra.
  - replace hi with (INR (length xs) * hi * / INR (length xs)) by (field; lra).
    apply Rmult_le_compat_r; lra.
Qed.


Section StockRange.

Variables (demand_data : list f64) (r : R) (lead_time : f64).
Hypothesis demand_nonneg : Forall F.nonneg demand_data.
Hypothesis r_nonneg : 0 <= r.






End StockRange.



(** ** The day loop: stockouts and the fill rate *)

Lemma after_fulfil_unchanged rop order_qty lead_time s :
  Loop.total_demand (record_level (receive lead_time (reorder rop order_qty s)))
  = Loop.total_demand s
  /\ Loop.demand_met (record_level (receive lead_time (reorder rop order_qty s)))
     = Loop.demand_met s
  /\ Loop.stockouts (record_level (receive lead_time (reorder rop order_qty s)))
     = Loop.stockouts s.
Proof.
  unfold record_level, receive, reorder.
  destruct (F.leb (Loop.inventory s) rop && F.eqb (Loop.on_order s) (Num 0));
    match goal with |- context [arrival ?l ?x] => destruct (arrival l x) as [[|] g'] end;
    repeat split.
Qed.

Section Shortfall.

Variables (demand_data : list f64) (r q : R) (lead_time : f64).
Hypothesis demand_nonneg : Forall F.nonneg demand_data.
Hypothesis q_nonneg : 0 <= q.

Lemma shortfall_simulate_day s :
  books_balance s -> shortfall_counted s ->
  shortfall_counted (simulate_day demand_data (Num r) (Num q) lead_time s).
Proof using demand_nonneg.
  intros (i & o & t & m & Hi & Ho & Ht & Hm & Hi0 & Ho0 & Hmt)
         (t' & m' & Ht' & Hm' & Hnone & Hsome).
  rewrite Ht in Ht'. rewrite Hm in Hm'. injection Ht' as <-. injection Hm' as <-.
  unfold simulate_day.
  pose proof (draw_demand_nonneg demand_data (Loop.gen s) demand_nonneg) as Hd.
  destruct (draw_demand demand_data (Loop.gen s)) as [d g'].
  simpl in Hd. destruct Hd as (x & -> & Hx).
  unfold shortfall_counted.
  destruct (after_fulfil_unchanged (Num r) (Num q) lead_time
              (fulfil (Num x) (observe (Num x) g' s))) as (-> & -> & ->).
  unfold fulfil, observe.
  cbn [Loop.inventory Loop.total_demand Loop.demand_met Loop.stockouts].
  rewrite Hi, Ht, Hm. simpl.
  destruct (Rleb x i) eqn:E; simpl.
  - exists (t + x), (m + x). split; [reflexivity|]. split; [reflexivity|].
    split; intros Hs.
    + rewrite (Hnone Hs). reflexivity.
    + specialize (Hsome Hs). lra.
  - apply not_true_iff_false in E. rewrite Rleb_spec in E.
    exists (t + x), (m + i). split; [reflexivity|]. split; [reflexivity|].
    split; intros Hs; [lia|].
    destruct (Nat.eq_dec (Loop.stockouts s) 0%nat) as [Hz | Hnz].
    + rewrite (Hnone Hz). lra.
    + specialize (Hsome Hnz). lra.
Qed.

Lemma balance_and_shortfall_simulate_day s :
  books_balance s /\ shortfall_counted s ->
  books_balance (simulate_day demand_data (Num r) (Num q) lead_time s)
  /\ shortfall_counted (simulate_day demand_data (Num r) (Num q) lead_time s).
Proof using demand_nonneg q_nonneg.
  intros [Hb Hs]. split.
  - apply books_balance_simulate_day; assumption.
  - apply shortfall_simulate_day; assumption.
Qed.

End Shortfall.

(** X3.  With a reorder point that is not negative and a demand history
    without negative quantities, the fill rate that
    [simulate_sku_inventory] returns is 100 exactly when the run had no
    stockout. *)
Theorem full_fill_rate_iff_no_stockout
    (test_days : nat) (g : rng) (sku : string) (demand_data : list f64)
    (r : R) (lead_time : f64) :
  0 <= r -> Forall F.nonneg demand_data ->
  let m := fst (simulate_sku_inventory test_days g sku demand_data (Num r) lead_time) in
  Sim.fill_rate m = Num 100 <-> Sim.stockout_count m = O.
Proof.
  intros Hr Hdemand m. unfold m, simulate_sku_inventory.
  cbn [fst Sim.fill_rate Sim.stockout_count].
  change (F.mul (Num r) (Num 1.5)) with (Num (r * 1.5)).
  set (s := run_days test_days demand_data (Num r) (Num (r * 1.5)) lead_time
              (initial_state (Num r) g)).
  assert (Hs : books_balance s /\ shortfall_counted s).
  { apply (run_days_invariant demand_data (Num r) (Num (r * 1.5)) lead_time
             (fun s => books_balance s /\ shortfall_counted s)).
    - intros s0. apply balance_and_shortfall_simulate_day; [assumption | lra].
    - split.
      + exists (r * 2), 0, 0, 0. simpl. repeat split; try reflexivity; lra.
      + exists 0, 0. simpl. repeat split; try reflexivity. intros H. contradiction. }
  destruct Hs as [(i & o & t & d & Hi & Ho & Ht & Hm & Hi0 & Ho0 & Hd0 & Hdt)
                  (t' & d' & Ht' & Hm' & Hnone & Hsome)].
  rewrite Ht in Ht'. rewrite Hm in Hm'. injection Ht' as <-. injection Hm' as <-.
  rewrite Ht, Hm. simpl.
  destruct (Rltb 0 t) eqn:E.
  - apply Rltb_spec in E. rewrite Reqb_false by lra. simpl.
    assert (Hinv : 0 < / t) by (apply Rinv_0_lt_compat, E).
    assert (Hone : t * / t = 1) by (apply Rinv_r; lra).
    split.
    + intros Hfill. injection Hfill as Hfill.
      destruct (Nat.eq_dec (Loop.stockouts s) 0%nat) as [Hz | Hnz]; [exact Hz|].
      specialize (Hsome Hnz). unfold Rdiv in Hfill. nra.
    + intros Hz. rewrite (Hnone Hz). f_equal. unfold Rdiv. nra.
  - apply not_true_iff_false in E. rewrite Rltb_spec in E.
    split; [|reflexivity]. intros _.
    destruct (Nat.eq_dec (Loop.stockouts s) 0%nat) as [Hz | Hnz]; [exact Hz|].
    specialize (Hsome Hnz). lra.
Qed.

(** Two days with reorder point 2 and a history of three units of demand. *)
Lemma full_fill_rate_iff_no_stockout_witness :
  let m := fst (simulate_sku_inventory 2 zero_tape "SKU1" [Num 3] (Num 2) (Num 1)) in
  Sim.fill_rate m = Num 100 <-> Sim.stockout_count m = O.
Proof.
  apply (full_fill_rate_iff_no_stockout 2 zero_tape "SKU1" [Num 3] 2 (Num 1)).
  - lra.
  - repeat constructor. exists 3. split; [reflexivity | lra].
Defined.

(** ** The day loop: a SKU without demand history *)

Lemma Rmean_constant (c : R) (xs : list R) :
  xs <> [] -> Forall (fun x => x = c) xs -> Rmean xs = c.
Proof.
  intros Hne Hall.
  assert (Hb : c <= Rmean xs <= c).
  { apply Rmean_bounds; [exact Hne|].
    eapply Forall_impl; [exact Hall|]. intros x ->. cbv beta. lra. }
  lra.
Qed.

Lemma idle_simulate_day (r : R) (g : rng) (lead_time : f64) s :
  0 <= r -> idle r g s ->
  idle r g (simulate_day [] (Num r) (Num (r * 1.5)) lead_time s).
Proof.
  intros Hr (t & m & o & Hi & Ho & Ho0 & Ht & Ht0 & Hm & Hm0 & Hst & Hg
             & levels & Hlev & Hall).
  subst o t m.
  unfold simulate_day, draw_demand. cbn [length Nat.ltb Nat.leb].
  unfold observe, fulfil. cbn [Loop.inventory]. rewrite Hi. simpl.
  rewrite Rleb_true by lra.
  unfold reorder. cbn [Loop.inventory Loop.on_order]. rewrite Ho. simpl.
  rewrite Reqb_true by reflexivity.
  destruct (Rleb (r * 2 - 0) r) eqn:E; simpl.
  - apply Rleb_spec in E. assert (Hr0 : r = 0) by lra.
    unfold receive, arrival. cbn [Loop.on_order]. simpl.
    rewrite Rltb_false by lra.
    unfold record_level. simpl. rewrite Ht, Hm, Hst, Hg, Hlev.
    exists (0 + 0), (0 + 0), (r * 1.5). simpl.
    split; [f_equal; lra|]. split; [reflexivity|]. split; [lra|].
    split; [reflexivity|]. split; [lra|]. split; [reflexivity|]. split; [lra|].
    split; [reflexivity|]. split; [reflexivity|].
    exists (levels ++ [r * 2 - 0]). split.
    + rewrite fmap_app. reflexivity.
    + apply Forall_app. split; [exact Hall|]. constructor; [lra | constructor].
  - unfold receive, arrival. cbn [Loop.on_order]. simpl.
    rewrite Rltb_false by lra.
    unfold record_level. simpl. rewrite Ht, Hm, Hst, Hg, Hlev.
    exists (0 + 0), (0 + 0), 0. simpl.
    split; [f_equal; lra|]. split; [reflexivity|]. split; [reflexivity|].
    split; [reflexivity|]. split; [lra|]. split; [reflexivity|]. split; [lra|].
    split; [reflexivity|]. split; [reflexivity|].
    exists (levels ++ [r * 2 - 0]). split.
    + rewrite fmap_app. reflexivity.
    + apply Forall_app. split; [exact Hall|]. constructor; [lra | constructor].
Qed.

(** X4.  For a SKU without demand history and a reorder point that is not
    negative, every day has zero demand: the run has no stockout, a total
    demand of 0 and a fill rate of 100, it leaves the random generator as
    it found it, and over at least one day the average inventory is the
    opening stock, twice the reorder point. *)
Theorem no_history_idle_run
    (test_days : nat) (g : rng) (sku : string) (r : R) (lead_time : f64) :
  0 <= r ->
  let result := simulate_sku_inventory test_days g sku [] (Num r) lead_time in
  Sim.stockout_count (fst result) = O
  /\ Sim.total_demand (fst result) = Num 0
  /\ Sim.demand_met (fst result) = Num 0
  /\ Sim.fill_rate (fst result) = Num 100
  /\ snd result = g
  /\ ((1 <= test_days)%nat -> Sim.avg_inventory (fst result) = Num (2 * r)).
Proof.
  intros Hr result. unfold result, simulate_sku_inventory.
  cbn [fst snd Sim.stockout_count Sim.total_demand Sim.demand_met Sim.fill_rate
       Sim.avg_inventory].
  change (F.mul (Num r) (Num 1.5)) with (Num (r * 1.5)).
  set (s := run_days test_days [] (Num r) (Num (r * 1.5)) lead_time
              (initial_state (Num r) g)).
  assert (Hs : idle r g s).
  { apply run_days_invariant.
    - intros s0. apply idle_simulate_day. exact Hr.
    - exists 0, 0, 0. simpl. repeat split; try reflexivity.
      exists []. split; [reflexivity | constructor]. }
  assert (Hlen : length (Loop.inventory_levels s) = test_days).
  { unfold s. rewrite levels_run_days. reflexivity. }
  destruct Hs as (t & m & o & Hi & Ho & Ho0 & Ht & Ht0 & Hm & Hm0 & Hst & Hg
                  & levels & Hlev & Hall).
  subst o t m. rewrite Ht, Hm, Hst, Hg. simpl. rewrite Rltb_false by lra.
  repeat split. intros Hdays.
  rewrite Hlev in *. rewrite length_fmap in Hlen.
  assert (Hne : levels <> []) by (intros ->; simpl in Hlen; lia).
  rewrite (mean_nums levels Hne), (Rmean_constant (r * 2) levels Hne Hall).
  f_equal. lra.
Qed.

(** Ninety days with reorder point 40. *)
Lemma no_history_idle_run_witness :
  let result := simulate_sku_inventory 90 zero_tape "SKU1" [] (Num 40) (Num 14) in
  Sim.stockout_count (fst result) = O
  /\ Sim.total_demand (fst result) = Num 0
  /\ Sim.demand_met (fst result) = Num 0
  /\ Sim.fill_rate (fst result) = Num 100
  /\ snd result = zero_tape
  /\ ((1 <= 90)%nat -> Sim.avg_inventory (fst result) = Num (2 * 40)).
Proof.
  apply (no_history_idle_run 90 zero_tape "SKU1" 40 (Num 14)). lra.
Defined.

(** ** The loop over the SKUs of a group *)

Lemma sku_statistics_none daily_demand purchase_orders (sku : string) :
  calculate_sku_statistics daily_demand purchase_orders !! sku = None
  <-> sku_quantities daily_demand sku = [].
Proof.
  rewrite sku_statistics_lookup.
  destruct (sku_quantities daily_demand sku); split; intros H;
    try reflexivity; discriminate.
Qed.

Section GroupRows.

Variables (norm_ppf : f64 -> f64) (service_level : f64) (test_days : nat).

Lemma simulate_one_row g (sku : string) daily_demand sku_stats m :
  match simulate_one norm_ppf service_level test_days g sku daily_demand sku_stats m with
  | Some (out, _) =>
      is_Some (sku_stats !! sku) /\ Out.sku_id out = sku /\ Out.method out = m
  | None => sku_stats !! sku = None
  end.
Proof.
  unfold simulate_one. destruct (sku_stats !! sku) as [sku_data|]; [|reflexivity].
  cbn [mbind option_bind].
  match goal with |- context [simulate_sku_inventory ?a ?b ?c ?d ?e ?f] =>
    destruct (simulate_sku_inventory a b c d e f) as [sim_result g'] end.
  split; [eexists; reflexivity|]. split; reflexivity.
Qed.

Lemma simulate_group_stats g (sku_list : list string) daily_demand sku_stats m :
  match simulate_group norm_ppf service_level test_days g sku_list daily_demand
          sku_stats m with
  | Some (results, _) =>
      Forall (fun sku => is_Some (sku_stats !! sku)) sku_list
      /\ Out.sku_id <$> results = sku_list
      /\ Forall (fun out => Out.method out = m) results
  | None => Exists (fun sku => sku_stats !! sku = None) sku_list
  end.
Proof.
  revert g. induction sku_list as [|sku rest IH]; intros g.
  - simpl. repeat split; constructor.
  - cbn [simulate_group].
    pose proof (simulate_one_row g sku daily_demand sku_stats m) as Hone.
    destruct (simulate_one norm_ppf service_level test_days g sku daily_demand
                sku_stats m) as [[out g']|]; cbn [mbind option_bind].
    + destruct Hone as (Hrow & Hsku & Hm).
      specialize (IH g').
      destruct (simulate_group norm_ppf service_level test_days g' rest daily_demand
                  sku_stats m) as [[results g'']|]; cbn [mbind option_bind].
      * destruct IH as (Hall & Hids & Hmethods). split; [|split].
        -- constructor; assumption.
        -- rewrite fmap_cons, Hsku, Hids. reflexivity.
        -- constructor; assumption.
      * apply Exists_cons_tl. exact IH.
    + apply Exists_cons_hd. exact Hone.
Qed.

Lemma has_statistics daily_demand purchase_orders (sku : string) :
  is_Some (calculate_sku_statistics daily_demand purchase_orders !! sku)
  <-> sku_quantities daily_demand sku <> [].
Proof.
  rewrite <- not_eq_None_Some, sku_statistics_none. reflexivity.
Qed.

(** X5.  [simulate_group], run on the statistics of the demand table,
    fails (the [IndexError] of [.iloc[0]]) exactly when a SKU of the list
    has no demand row; otherwise it returns one row per SKU of the list, in
    the order of the list, each carrying its SKU and the method of the
    group. *)
Theorem simulate_group_rows
    (g : rng) (sku_list : list string) (daily_demand : list DemandRow)
    (purchase_orders : list PoRow) (m : rop_method) :
  match simulate_group norm_ppf service_level test_days g sku_list daily_demand
          (calculate_sku_statistics daily_demand purchase_orders) m with
  | Some (results, _) =>
      Forall (fun sku => sku_quantities daily_demand sku <> []) sku_list
      /\ Out.sku_id <$> results = sku_list
      /\ Forall (fun out => Out.method out = m) results
  | None => Exists (fun sku => sku_quantities daily_demand sku = []) sku_list
  end.
Proof.
  pose proof (simulate_group_stats g sku_list daily_demand
                (calculate_sku_statistics daily_demand purchase_orders) m) as H.
  destruct (simulate_group norm_ppf service_level test_days g sku_list daily_demand
              (calculate_sku_statistics daily_demand purchase_orders) m)
    as [[results g']|].
  - destruct H as (Hall & Hids & Hmethods). split; [|split; assumption].
    eapply Forall_impl; [exact Hall|]. intros sku. apply has_statistics.
  - eapply Exists_impl; [exact H|]. intros sku. apply sku_statistics_none.
Qed.

End GroupRows.

(** ** From the tables to a result row *)

Lemma lead_time_group purchase_orders (sku : string) :
  Pd.group_by ((fun r => (po_sku_id r, po_lead_time_days r)) <$> purchase_orders) !! sku
  = match sku_lead_times purchase_orders sku with
    | [] => None
    | lead_times => Some lead_times
    end.
Proof.
  rewrite group_by_lookup.
  assert (Hq : snd <$> filter (fun kv : string * f64 => kv.1 = sku)
                 ((fun r => (po_sku_id r, po_lead_time_days r)) <$> purchase_orders)
               = sku_lead_times purchase_orders sku).
  { unfold sku_lead_times. induction purchase_orders as [|r rows IH]; [reflexivity|].
    rewrite fmap_cons, !filter_cons. simpl.
    destruct (decide (po_sku_id r = sku)); [rewrite !fmap_cons, IH|]; auto. }
  rewrite Hq. reflexivity.
Qed.









(** ** The assignment as a partition *)

Lemma abc_member (c : string) :
  c ∈ ["A"; "B"; "C"]%string <-> c = "A"%string \/ c = "B"%string \/ c = "C"%string.
Proof. rewrite !elem_of_cons, elem_of_nil. tauto. Qed.

Lemma strata_cover (sku_master : list SkuRow) :
  class_skus sku_master "A" ++ class_skus sku_master "B" ++ class_skus sku_master "C"
  ≡ₚ abc_skus sku_master.
Proof.
  unfold class_skus, abc_skus. induction sku_master as [|r rows IH]; [reflexivity|].
  rewrite !filter_cons.
  pose proof (abc_member (sm_abc_class r)) as Hmem.
  destruct (decide (sm_abc_class r = "A"%string)) as [HA|HA],
           (decide (sm_abc_class r = "B"%string)) as [HB|HB],
           (decide (sm_abc_class r = "C"%string)) as [HC|HC],
           (decide (sm_abc_class r ∈ ["A"; "B"; "C"]%string)) as [HM|HM];
    try (exfalso; intuition congruence).
  - rewrite !fmap_cons. simpl. rewrite IH. reflexivity.
  - rewrite !fmap_cons. cbn [app]. rewrite <- Permutation_middle. rewrite IH.
    reflexivity.
  - rewrite !fmap_cons. rewrite app_assoc, <- Permutation_middle, <- app_assoc.
    rewrite IH. reflexivity.
  - exact IH.
Qed.

Lemma interleave_groups {A} (a1 a2 a3 b1 b2 b3 : list A) :
  (a1 ++ a2 ++ a3) ++ (b1 ++ b2 ++ b3) ≡ₚ (a1 ++ b1) ++ (a2 ++ b2) ++ (a3 ++ b3).
Proof.
  rewrite <- !app_assoc. apply Permutation_app_head.
  rewrite (app_assoc a2 a3), (app_assoc (a2 ++ a3) b1).
  rewrite (Permutation_app_comm (a2 ++ a3) b1). rewrite <- !app_assoc.
  do 2 apply Permutation_app_head.
  rewrite app_assoc, (Permutation_app_comm a3 b2), <- app_assoc. reflexivity.
Qed.

Section AssignmentPartition.

Variable np_random_seed : Z -> rng.
Variable np_random_shuffle : rng -> list string -> list string * rng.
Hypothesis shuffle_perm : forall g x, fst (np_random_shuffle g x) ≡ₚ x.

Lemma stratum_split_perm sku_master abc_class c t :
  stratum_split sku_master abc_class c t ->
  c ++ t ≡ₚ class_skus sku_master abc_class
  /\ (length c <= length t <= length c + 1)%nat.
Proof.
  intros (shuffled & Hperm & -> & -> & Hlen).
  split; [|exact Hlen]. rewrite take_drop. exact Hperm.
Qed.

Lemma assign_classes_partition (g0 : rng) (sku_master : list SkuRow) :
  exists control treatment g',
    assign_classes np_random_shuffle g0 sku_master ["A"; "B"; "C"]%string [] []
    = ((control, treatment), g')
    /\ control ++ treatment ≡ₚ abc_skus sku_master
    /\ (length control <= length treatment <= length control + 3)%nat.
Proof using shuffle_perm.
  pose proof (split_class_stratum np_random_shuffle shuffle_perm g0 sku_master "A") as HA.
  destruct (split_class np_random_shuffle g0 sku_master "A") as [[cA tA] gA] eqn:EA.
  pose proof (split_class_stratum np_random_shuffle shuffle_perm gA sku_master "B") as HB.
  destruct (split_class np_random_shuffle gA sku_master "B") as [[cB tB] gB] eqn:EB.
  pose proof (split_class_stratum np_random_shuffle shuffle_perm gB sku_master "C") as HC.
  destruct (split_class np_random_shuffle gB sku_master "C") as [[cC tC] gC] eqn:EC.
  cbn [fst snd] in HA, HB, HC.
  apply stratum_split_perm in HA as [PA LA].
  apply stratum_split_perm in HB as [PB LB].
  apply stratum_split_perm in HC as [PC LC].
  exists (cA ++ cB ++ cC), (tA ++ tB ++ tC), gC. split; [|split].
  - cbn [assign_classes]. rewrite EA, EB, EC.
    rewrite <- !app_assoc. reflexivity.
  - rewrite <- strata_cover, <- PA, <- PB, <- PC. apply interleave_groups.
  - rewrite !length_app. lia.
Qed.

Lemma assign_seeded (config : gmap string (gmap string scalar)) (seed : Z) g sku_master :
  cfg_get config "ab_test" "random_seed" = Some (SInt seed) ->
  (0 <= seed < 2 ^ 32)%Z ->
  assign_treatment_groups np_random_seed np_random_shuffle config g sku_master
  = Some (assign_classes np_random_shuffle (np_random_seed seed) sku_master
            ["A"; "B"; "C"]%string [] []).
Proof.
  intros Hseed Hrange. unfold assign_treatment_groups. rewrite Hseed.
  cbn [mbind option_bind scalar_seed]. case_decide; [|contradiction]. reflexivity.
Qed.

(** X7.  With a seed that the configuration supplies and a shuffle that
    rearranges its argument, the assignment is a
    partition of the SKUs of classes A, B and C: control and treatment
    together hold each of them once (a rearrangement of the rows' SKUs),
    rows of any other class are assigned to neither group, and control has
    at most as many SKUs as treatment and at most three fewer. *)
Theorem assignment_partition
    (config : gmap string (gmap string scalar)) (sku_master : list SkuRow) (seed : Z) :
  cfg_get config "ab_test" "random_seed" = Some (SInt seed) ->
  (0 <= seed < 2 ^ 32)%Z ->
  exists control treatment g',
    (forall g,
       assign_treatment_groups np_random_seed np_random_shuffle config g sku_master
       = Some ((control, treatment), g'))
    /\ control ++ treatment ≡ₚ abc_skus sku_master
    /\ (length control <= length treatment <= length control + 3)%nat.
Proof using shuffle_perm.
  intros Hseed Hrange.
  destruct (assign_classes_partition (np_random_seed seed) sku_master)
    as (control & treatment & g' & Hassign & Hperm & Hlen).
  exists control, treatment, g'. split; [|split; assumption].
  intros g. rewrite (assign_seeded config seed g sku_master Hseed Hrange), Hassign.
  reflexivity.
Qed.

End AssignmentPartition.

(** The example table with the Fisher-Yates shuffle and seed 42. *)
Lemma assignment_partition_witness :
  exists control treatment g',
    (forall g,
       assign_treatment_groups lcg_seed tape_shuffle example_config g example_sku_master
       = Some ((control, treatment), g'))
    /\ control ++ treatment ≡ₚ abc_skus example_sku_master
    /\ (length control <= length treatment <= length control + 3)%nat.
Proof.
  apply (assignment_partition lcg_seed tape_shuffle tape_shuffle_perm
           example_config example_sku_master 42).
  - reflexivity.
  - lia.
Defined.

(** ** The lead time columns of the statistics *)

Lemma fillna_not_nan (d x : f64) : F.is_nan d = false -> F.is_nan (Pd.fillna d x) = false.
Proof. intros Hd. unfold Pd.fillna. destruct x; simpl; try reflexivity. exact Hd. Qed.

Lemma pd_mean_single (L : R) : Pd.mean [Num L] = Num L.
Proof.
  change [Num L] with (Num <$> [L]). rewrite pd_mean_nums by discriminate.
  f_equal. unfold Rmean, Rsum. simpl. field.
Qed.

(** X8.  The statistics table has a row exactly for the SKUs with a demand
    row.  In every row the two lead time columns are never NaN; they are
    14 and 3 for a SKU without purchase order, and the lead time itself and
    3 for a SKU with a single purchase order, whose sample standard
    deviation is undefined. *)
Theorem lead_time_columns_filled
    (daily_demand : list DemandRow) (purchase_orders : list PoRow) (sku : string) :
  match calculate_sku_statistics daily_demand purchase_orders !! sku with
  | None => sku_quantities daily_demand sku = []
  | Some sku_data =>
      sku_quantities daily_demand sku <> []
      /\ F.is_nan (Stats.avg_lead_time sku_data) = false
      /\ F.is_nan (Stats.lead_time_std sku_data) = false
      /\ (sku_lead_times purchase_orders sku = [] ->
          Stats.avg_lead_time sku_data = Num 14
          /\ Stats.lead_time_std sku_data = Num 3)
      /\ (forall L, sku_lead_times purchase_orders sku = [Num L] ->
          Stats.avg_lead_time sku_data = Num L
          /\ Stats.lead_time_std sku_data = Num 3)
  end.
Proof.
  rewrite sku_statistics_lookup.
  destruct (sku_quantities daily_demand sku) as [|q0 quantity]; [reflexivity|].
  cbn [Stats.avg_lead_time Stats.lead_time_std]. rewrite lead_time_group.
  split; [discriminate|].
  split; [apply fillna_not_nan; reflexivity|].
  split; [apply fillna_not_nan; reflexivity|].
  split.
  - intros ->. split; reflexivity.
  - intros L ->. cbn [from_option]. rewrite pd_mean_single, std_single.
    split; reflexivity.
Qed.

(** ** The windows of the dynamic policy *)

Lemma last_n_app {A} (k : nat) (older recent : list A) :
  (k <= length recent)%nat -> Np.last_n k (older ++ recent) = Np.last_n k recent.
Proof.
  intros Hk. unfold Np.last_n. rewrite length_app.
  replace (length older + length recent - k)%nat
    with (length older + (length recent - k))%nat by lia.
  rewrite drop_app_add'; reflexivity.
Qed.

(** X9.  The dynamic policy reads the 90 most recent demand observations
    and the 10 most recent lead times only: older observations in front of
    at least 90 recent ones, and older lead times in front of at least 10
    recent ones, do not change its result. *)
Theorem dynamic_rop_ignores_older
    (norm_ppf : f64 -> f64) (older recent older_lt recent_lt : list f64)
    (service_level : f64) (weights : Weights) :
  (90 <= length recent)%nat -> (10 <= length recent_lt)%nat ->
  calculate_dynamic_rop norm_ppf (older ++ recent) (older_lt ++ recent_lt)
    service_level weights
  = calculate_dynamic_rop norm_ppf recent recent_lt service_level weights.
Proof.
  intros Hd Hl. unfold calculate_dynamic_rop.
  rewrite !length_app.
  rewrite !(last_n_app _ older recent) by lia.
  rewrite (last_n_app _ older_lt recent_lt) by lia.
  replace (90 <=? length older + length recent)%nat with true
    by (symmetry; apply Nat.leb_le; lia).
  replace (90 <=? length recent)%nat with true by (symmetry; apply Nat.leb_le; lia).
  replace (30 <=? length older + length recent)%nat with true
    by (symmetry; apply Nat.leb_le; lia).
  replace (30 <=? length recent)%nat with true by (symmetry; apply Nat.leb_le; lia).
  replace (0 <? length older_lt + length recent_lt)%nat with true
    by (symmetry; apply Nat.ltb_lt; lia).
  replace (0 <? length recent_lt)%nat with true by (symmetry; apply Nat.ltb_lt; lia).
  reflexivity.
Qed.

(** Ninety recent observations after two older ones, ten recent lead times
    after one older one. *)
Lemma dynamic_rop_ignores_older_witness :
  calculate_dynamic_rop logistic_ppf ([Num 100; Num 200] ++ replicate 90 (Num 3))
    ([Num 30] ++ replicate 10 (Num 14)) (Num 0.95) default_weights
  = calculate_dynamic_rop logistic_ppf (replicate 90 (Num 3)) (replicate 10 (Num 14))
      (Num 0.95) default_weights.
Proof.
  apply (dynamic_rop_ignores_older logistic_ppf [Num 100; Num 200]
           (replicate 90 (Num 3)) [Num 30] (replicate 10 (Num 14))).
  - rewrite length_replicate. lia.
  - rewrite length_replicate. lia.
Defined.

(** ** A demand without dispersion *)

Lemma Rvar_constant (c : R) (xs : list R) :
  xs <> [] -> Forall (fun x => x = c) xs -> Rvar xs = 0.
Proof.
  intros Hne Hall. unfold Rvar. rewrite (Rmean_constant c xs Hne Hall).
  apply Rmean_constant.
  - destruct xs; [contradiction | discriminate].
  - apply Forall_fmap. eapply Forall_impl; [exact Hall|].
    intros x ->. unfold compose. ring.
Qed.

Lemma mean_last_n_replicate (k n : nat) (d : R) :
  (0 < k)%nat -> Np.mean (Np.last_n k (replicate (S n) (Num d))) = Num d.
Proof.
  intros Hk. unfold Np.last_n. rewrite length_replicate, drop_replicate.
  rewrite <- fmap_replicate.
  assert (Hne : replicate (S n - (S n - k)) d <> []).
  { intros Hnil. apply (f_equal length) in Hnil.
    rewrite length_replicate in Hnil. simpl in Hnil. lia. }
  rewrite mean_nums by exact Hne. f_equal.
  apply Rmean_constant; [exact Hne|]. apply Forall_replicate. reflexivity.
Qed.

Lemma mean_replicate (n : nat) (d : R) : Np.mean (replicate (S n) (Num d)) = Num d.
Proof.
  rewrite <- fmap_replicate. rewrite mean_nums by discriminate. f_equal.
  apply Rmean_constant; [discriminate|]. apply Forall_replicate. reflexivity.
Qed.

Lemma std_replicate (n : nat) (d : R) : Np.std (replicate (S n) (Num d)) = Num 0.
Proof.
  rewrite <- fmap_replicate. rewrite std_nums by discriminate.
  rewrite (Rvar_constant d) by (try discriminate; apply Forall_replicate; reflexivity).
  rewrite sqrt_0. reflexivity.
Qed.

Lemma std_last_n_replicate (k n : nat) (d : R) :
  (0 < k)%nat -> Np.std (Np.last_n k (replicate (S n) (Num d))) = Num 0.
Proof.
  intros Hk. unfold Np.last_n. rewrite length_replicate, drop_replicate.
  destruct (S n - (S n - k))%nat as [|j] eqn:E; [lia|].
  apply std_replicate.
Qed.

(** X10.  On a constant demand series (one observation or more, all equal
    to [d]), positive lead times and a service level strictly between 0
    and 1, the dynamic policy with the default weights has the demand [d]
    as its weighted moving average, no safety stock, and the reorder point
    [d] times the forecasted lead time; the fixed policy on the same
    demand, lead time and a zero standard deviation returns the same
    reorder point and safety stock. *)
Theorem constant_demand_no_safety_stock
    (norm_ppf : f64 -> f64) (p d : R) (n : nat) (recent_lead_times : list f64) :
  normal_quantile norm_ppf -> 0 < p < 1 ->
  Forall F.positive recent_lead_times ->
  let result :=
    calculate_dynamic_rop norm_ppf (replicate (S n) (Num d)) recent_lead_times (Num p)
      default_weights in
  exists f,
    forecasted_lt result = Some (Num f) /\ 0 < f
    /\ wma_demand result = Some (Num d)
    /\ safety_stock result = Num 0
    /\ rop result = Num (d * f)
    /\ safety_stock (calculate_fixed_rop norm_ppf (Num d) (Num f) (Num 0) (Num p))
       = Num 0
    /\ rop (calculate_fixed_rop norm_ppf (Num d) (Num f) (Num 0) (Num p))
       = Num (d * f).
Proof.
  intros Hq Hp Hlead result.
  destruct (Hq p Hp) as (z & Hz & _).
  destruct (forecast_positive recent_lead_times Hlead) as (f & Hf & Hf0).
  exists f. unfold result, calculate_dynamic_rop, calculate_fixed_rop.
  cbn [forecasted_lt wma_demand safety_stock rop].
  rewrite Hf, Hz, length_replicate.
  assert (Hstd : (if (30 <=? S n)%nat
                  then Np.std (Np.last_n 30 (replicate (S n) (Num d)))
                  else Np.std (replicate (S n) (Num d))) = Num 0).
  { destruct (30 <=? S n)%nat;
      [apply std_last_n_replicate; lia | apply std_replicate]. }
  assert (Hwma : (if (90 <=? S n)%nat
                  then F.add
                         (F.add
                            (F.mul (w30d default_weights)
                               (Np.mean (Np.last_n 30 (replicate (S n) (Num d)))))
                            (F.mul (w60d default_weights)
                               (Np.mean (Np.last_n 60 (replicate (S n) (Num d))))))
                         (F.mul (w90d default_weights)
                            (Np.mean (Np.last_n 90 (replicate (S n) (Num d)))))
                  else Np.mean (replicate (S n) (Num d))) = Num d).
  { destruct (90 <=? S n)%nat.
    - rewrite !mean_last_n_replicate by lia. simpl. f_equal. lra.
    - apply mean_replicate. }
  rewrite Hstd, Hwma. simpl. rewrite Rltb_false by lra. simpl.
  repeat split; try assumption; try reflexivity; f_equal; ring.
Qed.

(** Ninety-five days of a demand of 3 and lead times 12 and 16. *)
Lemma constant_demand_no_safety_stock_witness :
  let result :=
    calculate_dynamic_rop logistic_ppf (replicate 95 (Num 3)) [Num 12; Num 16]
      (Num 0.95) default_weights in
  exists f,
    forecasted_lt result = Some (Num f) /\ 0 < f
    /\ wma_demand result = Some (Num 3)
    /\ safety_stock result = Num 0
    /\ rop result = Num (3 * f)
    /\ safety_stock (calculate_fixed_rop logistic_ppf (Num 3) (Num f) (Num 0) (Num 0.95))
       = Num 0
    /\ rop (calculate_fixed_rop logistic_ppf (Num 3) (Num f) (Num 0) (Num 0.95))
       = Num (3 * f).
Proof.
  apply (constant_demand_no_safety_stock logistic_ppf 0.95 3 94 [Num 12; Num 16]
           logistic_ppf_quantile).
  - lra.
  - repeat constructor; eexists; (split; [reflexivity | lra]).
Defined.

(** ** The economic order quantity *)

(** X11.  For a positive annual demand, order cost, holding cost rate and
    unit cost, [calculate_eoq] returns a positive number whose square
    times the holding cost per unit is twice the annual demand times the
    order cost. *)
Theorem eoq_balances_costs (annual_demand order_cost holding_cost_rate unit_cost : R) :
  0 < annual_demand -> 0 < order_cost -> 0 < holding_cost_rate -> 0 < unit_cost ->
  exists eoq,
    calculate_eoq (Num annual_demand) (Num order_cost) (Num holding_cost_rate)
      (Num unit_cost) = Num eoq
    /\ 0 < eoq
    /\ eoq * eoq * (unit_cost * holding_cost_rate) = 2 * annual_demand * order_cost.
Proof.
  intros HD HS Hh Hc. unfold calculate_eoq. simpl.
  assert (Hhold : 0 < unit_cost * holding_cost_rate) by (apply Rmult_lt_0_compat; lra).
  assert (Hnum : 0 < 2 * annual_demand * order_cost).
  { apply Rmult_lt_0_compat; [lra | exact HS]. }
  assert (Hquot : 0 < 2 * annual_demand * order_cost / (unit_cost * holding_cost_rate)).
  { unfold Rdiv. apply Rmult_lt_0_compat; [exact Hnum|].
    apply Rinv_0_lt_compat, Hhold. }
  rewrite Reqb_false by lra. simpl. rewrite Rltb_false by lra.
  eexists. split; [reflexivity|]. split.
  - apply sqrt_lt_R0, Hquot.
  - rewrite sqrt_sqrt by lra. field. lra.
Qed.

(** The defaults of the function: order cost 50, holding cost rate 0.25,
    unit cost 10, and an annual demand of 1000. *)
Lemma eoq_balances_costs_witness :
  exists eoq,
    calculate_eoq (Num 1000) (Num 50) (Num 0.25) (Num 10) = Num eoq
    /\ 0 < eoq
    /\ eoq * eoq * (10 * 0.25) = 2 * 1000 * 50.
Proof.
  apply (eoq_balances_costs 1000 50 0.25 10); lra.
Defined.

(** ** The comparator: swapping the arms *)

Lemma sub_swap (a b : f64) : F.sub a b = F.neg (F.sub b a).
Proof.
  destruct a, b; simpl; try reflexivity. f_equal. ring.
Qed.

Lemma add_swap (a b : f64) : F.add a b = F.add b a.
Proof.
  destruct a, b; simpl; try reflexivity. f_equal. ring.
Qed.

Lemma neg_add (a b : f64) : F.neg (F.add a b) = F.sub (F.neg a) b.
Proof.
  destruct a, b; simpl; try reflexivity. f_equal. ring.
Qed.

Lemma neg_sub (a b : f64) : F.neg (F.sub a b) = F.add (F.neg a) b.
Proof.
  destruct a, b; simpl; try reflexivity. f_equal. ring.
Qed.

Lemma div_neg_positive (a b : f64) :
  F.gtb b (Num 0) = true -> F.div (F.neg a) b = F.neg (F.div a b).
Proof.
  destruct b as [y| | |]; simpl; try discriminate.
  - intros Hy. apply Rltb_spec in Hy.
    destruct a as [x| | |]; simpl; try reflexivity.
    + rewrite Reqb_false by lra. simpl. f_equal. field. lra.
    + rewrite Rltb_false by lra. reflexivity.
    + rewrite Rltb_false by lra. reflexivity.
  - intros _. destruct a; simpl; try reflexivity. f_equal. ring.
Qed.

Lemma pooled_std_swap (control treatment : list f64) :
  pooled_std treatment control = pooled_std control treatment.
Proof. unfold pooled_std. rewrite add_swap. reflexivity. Qed.

(** X12.  Swapping the two arms mirrors the comparison: the means change
    places, the difference and Cohen's d change sign, and the confidence
    interval is reflected (the new lower bound is minus the old upper
    bound, and conversely). *)
Theorem compare_means_swap
    (ttest_ind : list f64 -> list f64 -> f64 * f64) (alpha : f64)
    (control treatment : list f64) (metric_name : string) :
  let forward := compare_means ttest_ind alpha control treatment metric_name in
  let swapped := compare_means ttest_ind alpha treatment control metric_name in
  control_mean swapped = treatment_mean forward
  /\ treatment_mean swapped = control_mean forward
  /\ difference swapped = F.neg (difference forward)
  /\ cohens_d swapped = F.neg (cohens_d forward)
  /\ ci_lower swapped = F.neg (ci_upper forward)
  /\ ci_upper swapped = F.neg (ci_lower forward).
Proof.
  intros forward swapped. unfold forward, swapped, compare_means.
  destruct (ttest_ind treatment control) as [t1 p1].
  destruct (ttest_ind control treatment) as [t2 p2].
  cbn [control_mean treatment_mean difference cohens_d ci_lower ci_upper].
  rewrite (pooled_std_swap control treatment).
  rewrite (add_swap (F.div (Pd.var treatment) (Num (INR (length treatment))))).
  rewrite (sub_swap (Pd.mean control) (Pd.mean treatment)).
  split; [reflexivity|]. split; [reflexivity|]. split; [reflexivity|].
  split; [|split].
  - destruct (F.gtb (pooled_std control treatment) (Num 0)) eqn:E.
    + apply div_neg_positive. exact E.
    + simpl. f_equal. ring.
  - symmetry. apply neg_add.
  - symmetry. apply neg_sub.
Qed.

(** ** The comparator on columns of numbers *)

Lemma var_short (col : list f64) :
  (length (Pd.dropna col) <= 1)%nat -> Pd.var col = NaN.
Proof. intros H. apply Nat.leb_le in H. unfold Pd.var. rewrite H. reflexivity. Qed.

Section ComparatorNumbers.

Variable ttest_ind : list f64 -> list f64 -> f64 * f64.
Variable alpha : f64.

Lemma difference_unfold control treatment metric_name :
  difference (compare_means ttest_ind alpha control treatment metric_name)
  = F.sub (Pd.mean treatment) (Pd.mean control).
Proof.
  unfold compare_means. destruct (ttest_ind treatment control). reflexivity.
Qed.

Lemma ci_unfold control treatment metric_name :
  let se :=
    F.sqrt (F.add (F.div (Pd.var control) (Num (INR (length control))))
                  (F.div (Pd.var treatment) (Num (INR (length treatment))))) in
  ci_lower (compare_means ttest_ind alpha control treatment metric_name)
  = F.sub (F.sub (Pd.mean treatment) (Pd.mean control)) (F.mul (Num 1.96) se)
  /\ ci_upper (compare_means ttest_ind alpha control treatment metric_name)
     = F.add (F.sub (Pd.mean treatment) (Pd.mean control)) (F.mul (Num 1.96) se).
Proof.
  unfold compare_means. destruct (ttest_ind treatment control). split; reflexivity.
Qed.

(** X13.  For two columns of at least two numbers each, the confidence
    interval is centred on the difference of the means: its bounds are
    numbers, the difference lies between them at equal distance, and the
    half width is 1.96 times the standard error
    sqrt(var_c / n_c + var_t / n_t). *)
Theorem confidence_interval_centred (xs ys : list R) (metric_name : string) :
  (2 <= length xs)%nat -> (2 <= length ys)%nat ->
  let m := compare_means ttest_ind alpha (Num <$> xs) (Num <$> ys) metric_name in
  let se := sqrt (Rsvar xs / INR (length xs) + Rsvar ys / INR (length ys)) in
  difference m = Num (Rmean ys - Rmean xs)
  /\ ci_lower m = Num (Rmean ys - Rmean xs - 1.96 * se)
  /\ ci_upper m = Num (Rmean ys - Rmean xs + 1.96 * se)
  /\ 0 <= se.
Proof.
  intros Hx Hy m se.
  assert (Hnx : xs <> []) by (intros ->; simpl in Hx; lia).
  assert (Hny : ys <> []) by (intros ->; simpl in Hy; lia).
  pose proof (INR_length_pos xs Hnx) as Hlx. pose proof (INR_length_pos ys Hny) as Hly.
  pose proof (Rsvar_nonneg xs Hx) as Hvx. pose proof (Rsvar_nonneg ys Hy) as Hvy.
  assert (Hsum : 0 <= Rsvar xs / INR (length xs) + Rsvar ys / INR (length ys)).
  { apply Rplus_le_le_0_compat; unfold Rdiv; apply Rmult_le_pos; try assumption;
      apply Rlt_le, Rinv_0_lt_compat; assumption. }
  unfold m. rewrite difference_unfold.
  destruct (ci_unfold (Num <$> xs) (Num <$> ys) metric_name) as [-> ->].
  rewrite (pd_mean_nums xs Hnx), (pd_mean_nums ys Hny).
  rewrite (pd_var_nums xs Hx), (pd_var_nums ys Hy), !length_fmap.
  simpl. rewrite !Reqb_false by lra. simpl. rewrite Rltb_false by exact Hsum.
  simpl. repeat split. apply sqrt_pos.
Qed.

Lemma pct_change_nums (xs ys : list R) (metric_name : string) :
  xs <> [] -> ys <> [] -> Rmean xs <> 0 ->
  pct_change (compare_means ttest_ind alpha (Num <$> xs) (Num <$> ys) metric_name)
  = Num ((Rmean ys - Rmean xs) / Rmean xs * 100).
Proof.
  intros Hnx Hny Hnz. rewrite pct_change_unfold.
  rewrite (pd_mean_nums xs Hnx), (pd_mean_nums ys Hny). simpl.
  rewrite Reqb_false by exact Hnz. reflexivity.
Qed.

Lemma ratio_sign (d m : R) :
  0 < m -> (0 < d / m * 100 <-> 0 < d) /\ (d / m * 100 < 0 <-> d < 0).
Proof.
  intros Hpos.
  assert (Hinv : 0 < / m) by (apply Rinv_0_lt_compat, Hpos).
  unfold Rdiv. split; split; intros H; nra.
Qed.

(** X14.  For two columns of numbers with a positive control mean, the
    percent change is 100 times the difference of the means over the
    control mean, and it is positive exactly when the treatment mean is
    the larger one and negative exactly when it is the smaller one. *)
Theorem pct_change_sign (xs ys : list R) (metric_name : string) :
  xs <> [] -> ys <> [] -> 0 < Rmean xs ->
  exists pct,
    pct_change (compare_means ttest_ind alpha (Num <$> xs) (Num <$> ys) metric_name)
    = Num pct
    /\ pct = (Rmean ys - Rmean xs) / Rmean xs * 100
    /\ (0 < pct <-> Rmean xs < Rmean ys)
    /\ (pct < 0 <-> Rmean ys < Rmean xs).
Proof.
  intros Hnx Hny Hpos.
  rewrite (pct_change_nums xs ys metric_name Hnx Hny) by lra.
  eexists. split; [reflexivity|]. split; [reflexivity|].
  destruct (ratio_sign (Rmean ys - Rmean xs) (Rmean xs) Hpos) as [Hup Hdown].
  split; [rewrite Hup | rewrite Hdown]; split; intros H; lra.
Qed.

(** X15.  When an arm has fewer than two values (NaN aside), its sample
    variance is undefined: both bounds of the confidence interval are
    NaN, while Cohen's d is reported as 0, because the comparison of the
    NaN pooled standard deviation with 0 is false. *)
Theorem short_arm_comparison (control treatment : list f64) (metric_name : string) :
  (length (Pd.dropna control) <= 1)%nat \/ (length (Pd.dropna treatment) <= 1)%nat ->
  let m := compare_means ttest_ind alpha control treatment metric_name in
  ci_lower m = NaN /\ ci_upper m = NaN /\ cohens_d m = Num 0.
Proof.
  intros Hshort m. unfold m.
  destruct (ci_unfold control treatment metric_name) as [-> ->].
  rewrite cohens_d_unfold.
  assert (Hse : F.sqrt (F.add (F.div (Pd.var control) (Num (INR (length control))))
                          (F.div (Pd.var treatment) (Num (INR (length treatment)))))
                = NaN).
  { destruct Hshort as [H | H]; rewrite (var_short _ H); simpl.
    - reflexivity.
    - rewrite add_nan_r. reflexivity. }
  assert (Hpooled : pooled_std control treatment = NaN).
  { unfold pooled_std, Pd.std.
    destruct Hshort as [H | H]; rewrite (var_short _ H); simpl.
    - reflexivity.
    - rewrite add_nan_r. reflexivity. }
  rewrite Hse, Hpooled. simpl.
  destruct (F.sub (Pd.mean treatment) (Pd.mean control)); repeat split.
Qed.

End ComparatorNumbers.

(** Two fill rates per arm. *)
Lemma confidence_interval_centred_witness :
  let m := compare_means null_ttest (Num 0.05) (Num <$> [90; 92]) (Num <$> [95; 97])
             "Fill Rate (%)" in
  let se := sqrt (Rsvar [90; 92] / INR (length [90; 92])
                  + Rsvar [95; 97] / INR (length [95; 97])) in
  difference m = Num (Rmean [95; 97] - Rmean [90; 92])
  /\ ci_lower m = Num (Rmean [95; 97] - Rmean [90; 92] - 1.96 * se)
  /\ ci_upper m = Num (Rmean [95; 97] - Rmean [90; 92] + 1.96 * se)
  /\ 0 <= se.
Proof.
  apply (confidence_interval_centred null_ttest (Num 0.05) [90; 92] [95; 97] "Fill Rate (%)"); simpl; lia.
Defined.

(** Fill rates with means 90 and 96. *)
Lemma pct_change_sign_witness :
  exists pct,
    pct_change (compare_means null_ttest (Num 0.05) (Num <$> [88; 92]) (Num <$> [95; 97])
                  "Fill Rate (%)") = Num pct
    /\ pct = (Rmean [95; 97] - Rmean [88; 92]) / Rmean [88; 92] * 100
    /\ (0 < pct <-> Rmean [88; 92] < Rmean [95; 97])
    /\ (pct < 0 <-> Rmean [95; 97] < Rmean [88; 92]).
Proof.
  apply (pct_change_sign null_ttest (Num 0.05) [88; 92] [95; 97] "Fill Rate (%)").
  - discriminate.
  - discriminate.
  - unfold Rmean, Rsum. simpl. lra.
Defined.

(** A control arm of one SKU. *)
Lemma short_arm_comparison_witness :
  let m := compare_means null_ttest (Num 0.05) [Num 90] [Num 95; Num 97] "Fill Rate (%)" in
  ci_lower m = NaN /\ ci_upper m = NaN /\ cohens_d m = Num 0.
Proof.
  apply (short_arm_comparison null_ttest (Num 0.05) [Num 90] [Num 95; Num 97] "Fill Rate (%)").
  left. simpl. lia.
Defined.

(** ** The recommendation *)

Section RecommendationProperties.

Variable ttest_ind : list f64 -> list f64 -> f64 * f64.
Variable alpha : f64.

Lemma analyze_lookups control treatment :
  let metrics := analyze_primary_metrics ttest_ind alpha control treatment in
  metrics !! "fill_rate"
  = Some (compare_means ttest_ind alpha (Out.fill_rate <$> control)
            (Out.fill_rate <$> treatment) "Fill Rate (%)")
  /\ metrics !! "avg_inventory"
     = Some (compare_means ttest_ind alpha (col_avg_inventory control)
               (col_avg_inventory treatment) "Average Inventory (units)")
  /\ metrics !! "stockouts"
     = Some (compare_means ttest_ind alpha (col_stockout_count control)
               (col_stockout_count treatment) "Stockout Count").
Proof.
  unfold analyze_primary_metrics. cbv zeta. repeat split.
Qed.

Lemma is_significant_unfold control treatment metric_name :
  is_significant (compare_means ttest_ind alpha control treatment metric_name)
  = F.ltb (snd (ttest_ind treatment control)) alpha.
Proof.
  unfold compare_means. destruct (ttest_ind treatment control). reflexivity.
Qed.

(** X16.  On the metrics that [analyze_primary_metrics] returns, the
    recommendation never fails on a missing key, and its first line is
    either the verdict to implement the dynamic policy or the verdict that
    the results are inconclusive.  For fill rate columns of numbers with a
    positive control mean, it is the verdict to implement exactly when the
    p-value of the fill rate test is below alpha and the treatment mean is
    above the control mean; the line of the fill rate then always
    follows. *)
Theorem recommendation_requires_improvement
    (control treatment : list Out.row) (xs ys : list R) :
  Out.fill_rate <$> control = Num <$> xs ->
  Out.fill_rate <$> treatment = Num <$> ys ->
  xs <> [] -> ys <> [] -> 0 < Rmean xs ->
  let p_value := snd (ttest_ind (Num <$> ys) (Num <$> xs)) in
  exists lines,
    recommendation (analyze_primary_metrics ttest_ind alpha control treatment)
    = Some lines
    /\ (F.ltb p_value alpha = true /\ Rmean xs < Rmean ys ->
        exists pct rest,
          lines = ImplementDynamic :: ImprovementsIn :: FillRateUp (Num pct) :: rest
          /\ 0 < pct)
    /\ (~ (F.ltb p_value alpha = true /\ Rmean xs < Rmean ys) ->
        lines = [Inconclusive]).
Proof.
  intros Hc Ht Hnx Hny Hpos p_value.
  destruct (analyze_lookups control treatment) as (Hfill & Hinv & Hstock).
  unfold recommendation. rewrite Hfill, Hinv, Hstock. cbn [mbind option_bind].
  rewrite is_significant_unfold, Hc, Ht. fold p_value.
  rewrite (pct_change_nums ttest_ind alpha xs ys "Fill Rate (%)" Hnx Hny) by lra.
  set (pct := (Rmean ys - Rmean xs) / Rmean xs * 100).
  assert (Hup : 0 < pct <-> Rmean xs < Rmean ys).
  { unfold pct. rewrite (proj1 (ratio_sign (Rmean ys - Rmean xs) (Rmean xs) Hpos)).
    split; intros H; lra. }
  cbn [F.gtb F.ltb].
  destruct (F.ltb p_value alpha) eqn:Hsig; cbn [andb].
  - destruct (Rltb 0 pct) eqn:E.
    + apply Rltb_spec in E. eexists. split; [reflexivity|]. split.
      * intros _. exists pct. eexists. split; [reflexivity | exact E].
      * intros Hnot. exfalso. apply Hnot. split; [reflexivity | apply Hup, E].
    + apply not_true_iff_false in E. rewrite Rltb_spec in E.
      eexists. split; [reflexivity|]. split.
      * intros [_ Hlt]. exfalso. apply E, Hup, Hlt.
      * reflexivity.
  - eexists. split; [reflexivity|]. split.
    + intros [Habs _]. discriminate.
    + reflexivity.
Qed.

End RecommendationProperties.

(** The example tables, with fill rates 95 in both arms. *)
Lemma recommendation_requires_improvement_witness :
  let p_value := snd (null_ttest (Num <$> [95]) (Num <$> [95])) in
  exists lines,
    recommendation
      (analyze_primary_metrics null_ttest (Num 0.05) example_control example_treatment)
    = Some lines
    /\ (F.ltb p_value (Num 0.05) = true /\ Rmean [95] < Rmean [95] ->
        exists pct rest,
          lines = ImplementDynamic :: ImprovementsIn :: FillRateUp (Num pct) :: rest
          /\ 0 < pct)
    /\ (~ (F.ltb p_value (Num 0.05) = true /\ Rmean [95] < Rmean [95]) ->
        lines = [Inconclusive]).
Proof.
  apply (recommendation_requires_improvement null_ttest (Num 0.05)
           example_control example_treatment [95] [95]).
  - reflexivity.
  - reflexivity.
  - discriminate.
  - discriminate.
  - unfold Rmean, Rsum. simpl. lra.
Defined.

(** ** The figures of the ROI report *)

(** X17.  When the total annual benefit is a positive number [b], the
    payback period is the positive number of months 600000 / b, and it is
    at most 12 months exactly when the year-1 ROI is not negative, that is
    when the benefit covers the implementation cost of 50000. *)
Theorem payback_within_year_iff_roi
    (config : gmap string (gmap string scalar)) (control treatment : list Out.row)
    (carrying_rate : f64) :
  cfg_get config "simulation" "carrying_cost_rate" ≫= scalar_num = Some carrying_rate ->
  exists report,
    calculate_roi config control treatment = Some report
    /\ forall b, total_annual_benefit report = Num b -> 0 < b ->
         exists months roi,
           payback_months report = Num months /\ roi_year1 report = Num roi
           /\ 0 < months /\ months * b = 600000
           /\ (months <= 12 <-> 0 <= roi) /\ (0 <= roi <-> 50000 <= b).
Proof.
  intros Hrate. rewrite (calculate_roi_unfold _ _ _ _ Hrate).
  eexists. split; [reflexivity|].
  cbn [total_annual_benefit payback_months roi_year1].
  intros b -> Hb. simpl. rewrite Rltb_true by exact Hb.
  rewrite !Reqb_false by lra. simpl.
  assert (Hinv : 0 < / b) by (apply Rinv_0_lt_compat, Hb).
  assert (Hone : b * / b = 1) by (apply Rinv_r; lra).
  assert (Hmonths : 50000 / (b / 12) = 600000 * / b) by (field; lra).
  eexists. eexists. split; [reflexivity|]. split; [reflexivity|].
  rewrite Hmonths.
  split; [nra|]. split; [nra|].
  split; split; intros H; nra.
Qed.

Lemma lean_roi_benefit (config : gmap string (gmap string scalar)) :
  cfg_get config "simulation" "carrying_cost_rate" ≫= scalar_num = Some (Num 0.25) ->
  exists report,
    calculate_roi config lean_control lean_treatment = Some report
    /\ total_annual_benefit report = Num 35150.
Proof.
  intros Hrate. rewrite (calculate_roi_unfold _ _ _ _ Hrate).
  eexists. split; [reflexivity|]. cbn [total_annual_benefit].
  change (col_avg_inventory lean_control) with (Num <$> [10000]).
  change (col_avg_inventory lean_treatment) with (Num <$> [2000]).
  change (col_stockout_count lean_control) with (Num <$> [INR 2]).
  change (col_stockout_count lean_treatment) with (Num <$> [INR 1]).
  rewrite !pd_sum_nums. unfold Rsum. simpl. f_equal. lra.
Qed.

(** The tables with 8000 units less in the treatment arm: a benefit of
    35150 a year. *)
Lemma payback_within_year_iff_roi_witness :
  exists report months roi,
    calculate_roi example_config lean_control lean_treatment = Some report
    /\ total_annual_benefit report = Num 35150
    /\ payback_months report = Num months /\ roi_year1 report = Num roi
    /\ 0 < months /\ months * 35150 = 600000
    /\ (months <= 12 <-> 0 <= roi) /\ (0 <= roi <-> 50000 <= 35150).
Proof.
  destruct (payback_within_year_iff_roi example_config lean_control lean_treatment
              (Num 0.25) eq_refl) as (report & Hreport & Hfigures).
  destruct (lean_roi_benefit example_config eq_refl) as (report' & Hreport' & Hb).
  rewrite Hreport in Hreport'. injection Hreport' as <-.
  destruct (Hfigures 35150 Hb ltac:(lra)) as (months & roi & H).
  exists report, months, roi. split; [exact Hreport|]. split; [exact Hb|]. exact H.
Defined.

(** X18.  When the total annual benefit is a number [b], the 3-year net
    present value is -50000 + b (1/1.1 + 1/1.21 + 1/1.331); it is positive
    exactly when 3.31 b exceeds 66550, that is for a benefit above about
    20106, and whenever the year-1 ROI is not negative. *)
Theorem npv_break_even
    (config : gmap string (gmap string scalar)) (control treatment : list Out.row)
    (carrying_rate : f64) :
  cfg_get config "simulation" "carrying_cost_rate" ≫= scalar_num = Some carrying_rate ->
  exists report,
    calculate_roi config control treatment = Some report
    /\ forall b, total_annual_benefit report = Num b ->
         exists npv roi,
           npv_3year report = Num npv /\ roi_year1 report = Num roi
           /\ npv = - 50000 + b * (1 / 1.1 + 1 / 1.21 + 1 / 1.331)
           /\ (0 < npv <-> 66550 < 3.31 * b)
           /\ (0 <= roi -> 0 < npv).
Proof.
  intros Hrate. rewrite (calculate_roi_unfold _ _ _ _ Hrate).
  eexists. split; [reflexivity|].
  cbn [total_annual_benefit npv_3year roi_year1].
  intros b ->. unfold npv_years. simpl. rewrite !Reqb_false by lra. simpl.
  eexists. eexists. split; [reflexivity|]. split; [reflexivity|].
  assert (Hnpv : - 50000 + b / (1.10 * 1) + b / (1.10 * (1.10 * 1))
                 + b / (1.10 * (1.10 * (1.10 * 1)))
                 = - 50000 + b * (1 / 1.1 + 1 / 1.21 + 1 / 1.331)) by lra.
  rewrite Hnpv.
  split; [reflexivity|]. split; [split; intros H; lra | intros H; lra].
Qed.

(** The example tables, whose benefit is negative. *)
Lemma npv_break_even_witness :
  exists report npv roi,
    calculate_roi example_config example_control example_treatment = Some report
    /\ total_annual_benefit report = Num (-14787.5)
    /\ npv_3year report = Num npv /\ roi_year1 report = Num roi
    /\ npv = - 50000 + -14787.5 * (1 / 1.1 + 1 / 1.21 + 1 / 1.331)
    /\ (0 < npv <-> 66550 < 3.31 * -14787.5)
    /\ (0 <= roi -> 0 < npv).
Proof.
  destruct (npv_break_even example_config example_control example_treatment
              (Num 0.25) eq_refl) as (report & Hreport & Hfigures).
  destruct (example_roi_benefit example_config eq_refl)
    as (report' & Hreport' & _ & Hb).
  rewrite Hreport in Hreport'. injection Hreport' as <-.
  destruct (Hfigures _ Hb) as (npv & roi & H).
  exists report, npv, roi. split; [exact Hreport|]. split; [exact Hb|]. exact H.
Defined.

Lemma stockout_column_sum (t : list Out.row) :
  Pd.sum (col_stockout_count t) = Num (INR (sum_list_with Out.stockout_count t)).
Proof.
  unfold col_stockout_count.
  assert (Hcol : (fun r => Num (INR (Out.stockout_count r))) <$> t
                 = Num <$> ((fun r => INR (Out.stockout_count r)) <$> t)).
  { rewrite <- list_fmap_compose. reflexivity. }
  rewrite Hcol, pd_sum_nums. f_equal. clear Hcol.
  induction t as [|r t IH]; [reflexivity|].
  rewrite fmap_cons. unfold Rsum in *. cbn [foldr sum_list_with].
  rewrite plus_INR, IH. reflexivity.
Qed.

(** X19.  When the treatment arm saves neither inventory nor stockouts (the
    average inventories are numbers whose sum is not below the control
    arm's, the stockouts are not fewer) and the carrying cost rate is not
    negative, the total annual benefit is at most minus the annual
    maintenance of 15000 and the payback period is plus infinity. *)
Theorem no_saving_no_payback
    (config : gmap string (gmap string scalar)) (control treatment : list Out.row)
    (rate : R) (control_inv treatment_inv : list R) :
  cfg_get config "simulation" "carrying_cost_rate" ≫= scalar_num = Some (Num rate) ->
  0 <= rate ->
  col_avg_inventory control = Num <$> control_inv ->
  col_avg_inventory treatment = Num <$> treatment_inv ->
  Rsum control_inv <= Rsum treatment_inv ->
  (sum_list_with Out.stockout_count control
   <= sum_list_with Out.stockout_count treatment)%nat ->
  exists report b,
    calculate_roi config control treatment = Some report
    /\ total_annual_benefit report = Num b /\ b <= - 15000
    /\ payback_months report = PosInf.
Proof.
  intros Hrate Hr Hc Ht Hinv Hstock.
  rewrite (calculate_roi_unfold _ _ _ _ Hrate).
  eexists. eexists. split; [reflexivity|].
  cbn [total_annual_benefit payback_months].
  rewrite Hc, Ht, !pd_sum_nums, !stockout_column_sum. simpl.
  apply le_INR in Hstock.
  set (sc := INR (sum_list_with Out.stockout_count control)) in *.
  set (st := INR (sum_list_with Out.stockout_count treatment)) in *.
  assert (Hb : (Rsum control_inv * 25 - Rsum treatment_inv * 25) * rate
               + (sc - st) * 150 - 15000 <= - 15000) by nra.
  split; [reflexivity|]. split; [exact Hb|].
  rewrite Rltb_false by lra. reflexivity.
Qed.

(** The example tables with the arms exchanged: the treatment arm holds
    more and has one stockout more. *)
Lemma no_saving_no_payback_witness :
  exists report b,
    calculate_roi example_config example_treatment example_control = Some report
    /\ total_annual_benefit report = Num b /\ b <= - 15000
    /\ payback_months report = PosInf.
Proof.
  apply (no_saving_no_payback example_config example_treatment example_control
           0.25 [90] [100]).
  - reflexivity.
  - lra.
  - reflexivity.
  - reflexivity.
  - unfold Rsum. simpl. lra.
  - simpl. lia.
Defined.

(** ** The run of both groups *)

Section RunSimulationProperties.

Variable norm_ppf : f64 -> f64.
Variable np_random_seed : Z -> rng.
Variable np_random_shuffle : rng -> list string -> list string * rng.
Variables (service_level : f64) (test_days : nat).
Hypothesis shuffle_perm : forall g x, fst (np_random_shuffle g x) ≡ₚ x.

Lemma run_simulation_steps
    (config : gmap string (gmap string scalar)) (g : rng) (seed : Z)
    (daily_demand : list DemandRow) (sku_master : list SkuRow)
    (purchase_orders : list PoRow) :
  cfg_get config "ab_test" "random_seed" = Some (SInt seed) ->
  (0 <= seed < 2 ^ 32)%Z ->
  exists control treatment g1,
    control ++ treatment ≡ₚ abc_skus sku_master
    /\ (length control <= length treatment <= length control + 3)%nat
    /\ run_simulation norm_ppf np_random_seed np_random_shuffle service_level test_days
         config g daily_demand sku_master purchase_orders
       = '(control_results, g2) ←
           simulate_group norm_ppf service_level test_days g1 control daily_demand
             (calculate_sku_statistics daily_demand purchase_orders) fixed;
         '(treatment_results, g3) ←
           simulate_group norm_ppf service_level test_days g2 treatment daily_demand
             (calculate_sku_statistics daily_demand purchase_orders) dynamic;
         Some ((control_results, treatment_results), g3).
Proof using shuffle_perm.
  intros Hseed Hrange. unfold run_simulation.
  rewrite (assign_seeded np_random_seed np_random_shuffle config seed g sku_master
             Hseed Hrange).
  destruct (assign_classes_partition np_random_shuffle shuffle_perm
              (np_random_seed seed) sku_master)
    as (control & treatment & g1 & -> & Hperm & Hlen).
  exists control, treatment, g1. split; [exact Hperm|]. split; [exact Hlen|].
  reflexivity.
Qed.

(** X20.  With a seed that the configuration supplies and a shuffle that
    rearranges its argument, the run of both
    groups fails exactly when a SKU of class A, B or C has no demand row.
    Otherwise the two result tables together hold one row for each of these
    SKUs, every control row was simulated with the fixed policy and every
    treatment row with the dynamic one, and the control table has at most
    as many rows as the treatment table and at most three fewer. *)
Theorem run_simulation_tables
    (config : gmap string (gmap string scalar)) (g : rng) (seed : Z)
    (daily_demand : list DemandRow) (sku_master : list SkuRow)
    (purchase_orders : list PoRow) :
  cfg_get config "ab_test" "random_seed" = Some (SInt seed) ->
  (0 <= seed < 2 ^ 32)%Z ->
  match run_simulation norm_ppf np_random_seed np_random_shuffle service_level test_days
          config g daily_demand sku_master purchase_orders with
  | Some ((control_results, treatment_results), _) =>
      Forall (fun sku => sku_quantities daily_demand sku <> []) (abc_skus sku_master)
      /\ (Out.sku_id <$> control_results) ++ (Out.sku_id <$> treatment_results)
         ≡ₚ abc_skus sku_master
      /\ Forall (fun out => Out.method out = fixed) control_results
      /\ Forall (fun out => Out.method out = dynamic) treatment_results
      /\ (length control_results <= length treatment_results
          <= length control_results + 3)%nat
  | None => Exists (fun sku => sku_quantities daily_demand sku = []) (abc_skus sku_master)
  end.
Proof using shuffle_perm.
  intros Hseed Hrange.
  destruct (run_simulation_steps config g seed daily_demand sku_master purchase_orders
              Hseed Hrange) as (control & treatment & g1 & Hperm & Hlen & ->).
  set (sku_stats := calculate_sku_statistics daily_demand purchase_orders).
  pose proof (simulate_group_stats norm_ppf service_level test_days g1 control
                daily_demand sku_stats fixed) as Hc.
  destruct (simulate_group norm_ppf service_level test_days g1 control daily_demand
              sku_stats fixed) as [[control_results g2]|]; cbn [mbind option_bind].
  - destruct Hc as (Hcall & Hcids & Hcm).
    pose proof (simulate_group_stats norm_ppf service_level test_days g2 treatment
                  daily_demand sku_stats dynamic) as Ht.
    destruct (simulate_group norm_ppf service_level test_days g2 treatment daily_demand
                sku_stats dynamic) as [[treatment_results g3]|]; cbn [mbind option_bind].
    + destruct Ht as (Htall & Htids & Htm).
      split; [|split; [|split; [|split]]]; try assumption.
      * rewrite <- Hperm. apply Forall_app. split.
        -- eapply Forall_impl; [exact Hcall|]. intros sku. apply has_statistics.
        -- eapply Forall_impl; [exact Htall|]. intros sku. apply has_statistics.
      * rewrite Hcids, Htids. exact Hperm.
      * rewrite <- (length_fmap Out.sku_id control_results), Hcids.
        rewrite <- (length_fmap Out.sku_id treatment_results), Htids. exact Hlen.
    + rewrite <- Hperm. apply Exists_app. right.
      eapply Exists_impl; [exact Ht|]. intros sku. apply sku_statistics_none.
  - rewrite <- Hperm. apply Exists_app. left.
    eapply Exists_impl; [exact Hc|]. intros sku. apply sku_statistics_none.
Qed.

End RunSimulationProperties.

(** The example master table and demand of SKU1 only: the run stops at
    SKU2, which has no demand row. *)
Lemma run_simulation_tables_witness :
  match run_simulation logistic_ppf lcg_seed tape_shuffle (Num 0.95) 90
          example_config zero_tape example_demand example_sku_master example_orders with
  | Some ((control_results, treatment_results), _) =>
      Forall (fun sku => sku_quantities example_demand sku <> [])
        (abc_skus example_sku_master)
      /\ (Out.sku_id <$> control_results) ++ (Out.sku_id <$> treatment_results)
         ≡ₚ abc_skus example_sku_master
      /\ Forall (fun out => Out.method out = fixed) control_results
      /\ Forall (fun out => Out.method out = dynamic) treatment_results
      /\ (length control_results <= length treatment_results
          <= length control_results + 3)%nat
  | None =>
      Exists (fun sku => sku_quantities example_demand sku = [])
        (abc_skus example_sku_master)
  end.
Proof.
  apply (run_simulation_tables logistic_ppf lcg_seed tape_shuffle (Num 0.95) 90
           tape_shuffle_perm example_config zero_tape 42).
  - reflexivity.
  - lia.
Defined.

(** ** Cleaning the raw table *)

Section FirstOccurrenceProperties.

Context {B : Type} `{EqDecision B}.

Lemma unmarked_elem (seen rows : list B) r :
  r ∈ unmarked seen rows <-> r ∈ rows /\ r ∉ seen.
Proof.
  revert seen. induction rows as [|r0 rest IH]; intros seen; cbn [unmarked].
  - rewrite elem_of_nil. tauto.
  - destruct (decide (r0 ∈ seen)) as [Hin | Hout].
    + rewrite IH, elem_of_cons. split.
      * intros [H1 H2]. auto.
      * intros [[-> | H1] H2]; [contradiction | auto].
    + rewrite !elem_of_cons, IH, elem_of_cons. split.
      * intros [-> | [H1 H2]]; [auto|]. split; [auto|]. intros H3. apply H2. auto.
      * intros [[-> | H1] H2]; [auto|].
        destruct (decide (r = r0)) as [-> | Hne]; [auto|].
        right. split; [exact H1|]. intros [H3 | H3]; contradiction.
Qed.

Lemma unmarked_NoDup (seen rows : list B) : NoDup (unmarked seen rows).
Proof.
  revert seen. induction rows as [|r0 rest IH]; intros seen; cbn [unmarked].
  - constructor.
  - destruct (decide (r0 ∈ seen)); [apply IH|].
    constructor; [|apply IH]. rewrite unmarked_elem, elem_of_cons. tauto.
Qed.

Lemma unmarked_sublist (seen rows : list B) : sublist (unmarked seen rows) rows.
Proof.
  revert seen. induction rows as [|r0 rest IH]; intros seen; cbn [unmarked].
  - constructor.
  - destruct (decide (r0 ∈ seen)).
    + apply sublist_cons, IH.
    + apply sublist_skip, IH.
Qed.

Lemma unmarked_fixed (seen rows : list B) :
  NoDup rows -> (forall r, r ∈ rows -> r ∉ seen) -> unmarked seen rows = rows.
Proof.
  revert seen. induction rows as [|r0 rest IH]; intros seen Hnd Hsep; cbn [unmarked].
  - reflexivity.
  - apply NoDup_cons in Hnd as [Hfresh Hnd].
    destruct (decide (r0 ∈ seen)) as [Hin | Hout].
    + exfalso. apply (Hsep r0); [left | exact Hin].
    + f_equal. apply IH; [exact Hnd|].
      intros r Hr. rewrite elem_of_cons. intros [-> | Hs]; [contradiction|].
      apply (Hsep r); [right; exact Hr | exact Hs].
Qed.

End FirstOccurrenceProperties.

Section CleanDataProperties.

Context {A : Type} `{EqDecision A}.

(** X21.  The cleaned table has no two equal rows and no row with a missing
    value; it keeps the remaining rows in the order of the raw table; a row
    is in it exactly when it is a row of the raw table without a missing
    value; and cleaning a cleaned table changes nothing. *)
Theorem clean_data_rows (df : list (list (option A))) :
  NoDup (clean_data df)
  /\ Forall (fun r => None ∉ r) (clean_data df)
  /\ sublist (clean_data df) df
  /\ (forall r, r ∈ clean_data df <-> r ∈ df /\ None ∉ r)
  /\ clean_data (clean_data df) = clean_data df.
Proof.
  unfold clean_data, dropna_rows, drop_duplicates.
  assert (Hnd : NoDup (filter (fun r : list (option A) => None ∉ r) (unmarked [] df))).
  { apply NoDup_filter, unmarked_NoDup. }
  split; [exact Hnd|]. split; [|split; [|split]].
  - apply Forall_forall. intros r Hr. apply list_elem_of_filter in Hr. tauto.
  - etransitivity; [apply sublist_filter | apply unmarked_sublist].
  - intros r. rewrite list_elem_of_filter, unmarked_elem, elem_of_nil. tauto.
  - rewrite unmarked_fixed; [|exact Hnd|intros r _; apply not_elem_of_nil].
    apply list_filter_filter_l. tauto.
Qed.

End CleanDataProperties.

(** ** The ABC classes *)

Lemma cumsum_nums (acc : R) (xs : list R) :
  cumsum_from (Num acc) (Num <$> xs) = Num <$> Rcumsum acc xs.
Proof.
  revert acc. induction xs as [|x rest IH]; intros acc; [reflexivity|].
  rewrite fmap_cons. cbn [cumsum_from F.is_nan F.add Rcumsum]. rewrite IH. reflexivity.
Qed.

Lemma abc_class_of_share (p T : R) :
  0 < T ->
  abc_class_of (F.div (Num p) (Num T))
  = if Rleb p (0.80 * T) then "A"%string
    else if Rleb p (0.95 * T) then "B"%string else "C"%string.
Proof.
  intros HT. rewrite div_Num by lra. unfold abc_class_of, F.gtb. cbn [F.leb F.ltb].
  assert (Hinv : 0 < / T) by (apply Rinv_0_lt_compat, HT).
  assert (Hshare : p / T * T = p) by (field; lra).
  destruct (Rle_dec p (0.80 * T)) as [Ha | Ha].
  - rewrite (Rleb_true p (0.80 * T)) by exact Ha.
    assert (p / T <= 0.80) by (apply (Rmult_le_reg_r T); lra).
    rewrite (Rleb_true (p / T) 0.80), (Rltb_false 0.80 (p / T)) by lra. reflexivity.
  - rewrite (Rleb_false p (0.80 * T)) by lra.
    assert (0.80 < p / T) by (apply (Rmult_lt_reg_r T); lra).
    rewrite (Rleb_false (p / T) 0.80), (Rltb_true 0.80 (p / T)) by lra.
    destruct (Rle_dec p (0.95 * T)) as [Hb | Hb].
    + rewrite (Rleb_true p (0.95 * T)) by exact Hb.
      assert (p / T <= 0.95) by (apply (Rmult_le_reg_r T); lra).
      rewrite (Rleb_true (p / T) 0.95) by lra. reflexivity.
    + rewrite (Rleb_false p (0.95 * T)) by lra.
      assert (0.95 < p / T) by (apply (Rmult_lt_reg_r T); lra).
      rewrite (Rleb_false (p / T) 0.95) by lra. reflexivity.
Qed.

Lemma ranked_classes (T : R) (xs : list R) (acc : R) :
  0 < T -> Forall (fun x => 0 <= x) xs -> xs <> [] -> acc + Rsum xs = T ->
  exists a b c,
    (fun c => abc_class_of (F.div c (Num T))) <$> (Num <$> Rcumsum acc xs)
    = replicate a "A"%string ++ replicate b "B"%string ++ replicate (S c) "C"%string
    /\ (0.80 * T < acc -> a = 0%nat)
    /\ (0.95 * T < acc -> b = 0%nat).
Proof.
  intros HT Hnn. revert acc. induction Hnn as [|x rest Hx Hrest IH]; intros acc Hne Hsum.
  - contradiction.
  - change (Rsum (x :: rest)) with (x + Rsum rest) in Hsum.
    cbn [Rcumsum]. rewrite !fmap_cons, (abc_class_of_share _ _ HT).
    destruct rest as [|y rest'].
    + change (Rsum []) with 0 in Hsum.
      exists 0%nat, 0%nat, 0%nat. cbn [Rcumsum fmap list_fmap].
      rewrite !(Rleb_false (acc + x)) by lra.
      split; [reflexivity|]. split; reflexivity.
    + destruct (IH (acc + x)) as (a & b & c & Heq & Ha & Hb); [discriminate | lra |].
      rewrite Heq.
      assert (Htail : 0 <= Rsum (y :: rest')).
      { clear -Hrest. induction Hrest as [|z l Hz Hl IHl]; [apply Rle_refl|].
        change (Rsum (z :: l)) with (z + Rsum l). lra. }
      destruct (Rle_dec (acc + x) (0.80 * T)) as [HA | HA].
      * rewrite (Rleb_true (acc + x) (0.80 * T)) by exact HA.
        exists (S a), b, c. split; [reflexivity|]. split; intros; lra.
      * rewrite (Rleb_false (acc + x) (0.80 * T)) by lra.
        rewrite (Ha ltac:(lra)).
        destruct (Rle_dec (acc + x) (0.95 * T)) as [HB | HB].
        -- rewrite (Rleb_true (acc + x) (0.95 * T)) by exact HB.
           exists 0%nat, (S b), c. split; [reflexivity|]. split; [reflexivity|].
           intros; lra.
        -- rewrite (Rleb_false (acc + x) (0.95 * T)) by lra.
           rewrite (Hb ltac:(lra)).
           exists 0%nat, 0%nat, (S c). split; [reflexivity|]. split; reflexivity.
Qed.

Lemma no_revenue_classes (xs : list R) :
  Forall (fun x => 0 <= x) xs -> Rsum xs = 0 ->
  (fun c => abc_class_of (F.div c (Num 0))) <$> (Num <$> Rcumsum 0 xs)
  = replicate (length xs) "C"%string.
Proof.
  intros Hnn. induction Hnn as [|x rest Hx Hrest IH]; intros Hsum; [reflexivity|].
  change (Rsum (x :: rest)) with (x + Rsum rest) in Hsum.
  assert (Htail : 0 <= Rsum rest).
  { clear -Hrest. induction Hrest as [|z l Hz Hl IHl]; [apply Rle_refl|].
    change (Rsum (z :: l)) with (z + Rsum l). lra. }
  assert (Hx0 : x = 0) by lra. subst x.
  cbn [Rcumsum length replicate]. rewrite !fmap_cons.
  replace (0 + 0) with 0 by lra. rewrite IH by lra. f_equal.
  unfold abc_class_of, F.gtb. cbn [F.div]. rewrite Reqb_true by reflexivity.
  unfold F.scaled_inf. rewrite !Rltb_false by lra. reflexivity.
Qed.

(** X22.  For revenues that are non-negative numbers, the classes follow
    the ranking: with a positive total revenue the column [abc_class] is
    a run of A, then a run of B, then a run of C that is never empty, so
    that the SKU ranked last is always class C (also when it is the only
    one); with a total revenue of zero the cumulative share is undefined
    and every SKU is class C. *)
Theorem abc_classes_ranked (revenues : list R) :
  Forall (fun x => 0 <= x) revenues ->
  (0 < Rsum revenues ->
   exists a b c,
     abc_classes (Num <$> revenues)
     = replicate a "A"%string ++ replicate b "B"%string ++ replicate (S c) "C"%string)
  /\ (Rsum revenues = 0 ->
      abc_classes (Num <$> revenues) = replicate (length revenues) "C"%string).
Proof.
  intros Hnn. unfold abc_classes, cumsum. cbv zeta.
  rewrite pd_sum_nums, cumsum_nums. split.
  - intros Hpos.
    assert (Hne : revenues <> []) by (intros ->; unfold Rsum in Hpos; simpl in Hpos; lra).
    destruct (ranked_classes (Rsum revenues) revenues 0 Hpos Hnn Hne)
      as (a & b & c & Heq & _); [lra|].
    exists a, b, c. exact Heq.
  - intros Hzero. rewrite Hzero. apply no_revenue_classes; assumption.
Qed.

(** Revenues 60, 30 and 10. *)
Lemma abc_classes_ranked_witness :
  (0 < Rsum [60; 30; 10] ->
   exists a b c,
     abc_classes (Num <$> [60; 30; 10])
     = replicate a "A"%string ++ replicate b "B"%string ++ replicate (S c) "C"%string)
  /\ (Rsum [60; 30; 10] = 0 ->
      abc_classes (Num <$> [60; 30; 10]) = replicate (length [60; 30; 10]) "C"%string).
Proof.
  apply (abc_classes_ranked [60; 30; 10]).
  repeat constructor; lra.
Defined.

Lemma cumsum_from_length (acc : f64) (col : list f64) :
  length (cumsum_from acc col) = length col.
Proof.
  revert acc. induction col as [|x rest IH]; intros acc; [reflexivity|].
  cbn [cumsum_from]. destruct (F.is_nan x); cbn [length]; rewrite IH; reflexivity.
Qed.

Lemma abc_class_of_cases (cum_pct : f64) :
  abc_class_of cum_pct ∈ ["A"; "B"; "C"]%string.
Proof.
  unfold abc_class_of. apply abc_member.
  destruct (F.gtb cum_pct (Num 0.80) && F.leb cum_pct (Num 0.95)); [tauto|].
  destruct (F.leb cum_pct (Num 0.80)); tauto.
Qed.

Lemma revenue_table_skus (df : list SaleRow) (r : SaleRow) :
  r ∈ df -> sale_sku r ∈ fst <$> revenue_table df.
Proof.
  intros Hr. unfold revenue_table. rewrite <- list_fmap_compose.
  set (rows := (fun r => (sale_sku r, (sale_qty r, sale_cost r))) <$> df).
  assert (Hsome : is_Some (Pd.group_by rows !! sale_sku r)).
  { rewrite group_by_lookup.
    assert (Hin : (sale_qty r, sale_cost r)
                  ∈ snd <$> filter (fun kv => kv.1 = sale_sku r) rows).
    { apply list_elem_of_fmap. exists (sale_sku r, (sale_qty r, sale_cost r)).
      split; [reflexivity|]. apply list_elem_of_filter. split; [reflexivity|].
      unfold rows. apply list_elem_of_fmap. exists r. split; [reflexivity | exact Hr]. }
    destruct (snd <$> filter (fun kv => kv.1 = sale_sku r) rows) as [|v vs].
    - apply elem_of_nil in Hin. contradiction.
    - eexists. reflexivity. }
  destruct Hsome as [vs Hvs].
  apply list_elem_of_fmap. exists (sale_sku r, vs). split; [reflexivity|].
  apply elem_of_map_to_list. exact Hvs.
Qed.

Lemma insert_ranked_perm x t : insert_ranked x t ≡ₚ x :: t.
Proof.
  induction t as [|y rest IH]; [reflexivity|].
  cbn [insert_ranked]. destruct (F.geb x.2 y.2); [reflexivity|].
  rewrite IH. apply Permutation_swap.
Qed.

Lemma rank_by_revenue_perm t : rank_by_revenue t ≡ₚ t.
Proof.
  unfold rank_by_revenue. induction t as [|x rest IH]; [reflexivity|].
  cbn [foldr]. rewrite insert_ranked_perm, IH. reflexivity.
Qed.

Section AbcMerge.

Variable sort_values : list (string * f64) -> list (string * f64).
Hypothesis sort_perm : forall t, sort_values t ≡ₚ t.

(** X23.  With a sort that rearranges the revenue table, the
    classification returns the rows of the sales table in their order, and
    the left merge leaves no row without a class: every row carries the
    class A, B or C of its SKU. *)
Theorem every_sale_classified (df : list SaleRow) :
  fst <$> create_abc_classification sort_values df = df
  /\ Forall (fun rc => exists abc_class,
               rc.2 = Some abc_class /\ abc_class ∈ ["A"; "B"; "C"]%string)
       (create_abc_classification sort_values df).
Proof using sort_perm.
  unfold create_abc_classification. cbv zeta.
  set (revenue := sort_values (revenue_table df)).
  set (classes := abc_classes (snd <$> revenue)).
  assert (Hlen : length classes = length revenue).
  { unfold classes, abc_classes, cumsum. cbv zeta.
    rewrite length_fmap, cumsum_from_length, length_fmap. reflexivity. }
  split.
  - rewrite <- list_fmap_compose. apply list_fmap_id.
  - apply Forall_fmap, Forall_forall. intros r Hr. unfold compose. cbv beta. cbn [snd].
    assert (Hkey : sale_sku r ∈ fst <$> revenue).
    { unfold revenue. rewrite (sort_perm (revenue_table df)).
      apply revenue_table_skus, Hr. }
    destruct (list_to_map (M := gmap string string) (zip (fst <$> revenue) classes)
                !! sale_sku r) as [abc_class|] eqn:Hlook.
    + exists abc_class. split; [reflexivity|].
      apply elem_of_list_to_map_2, elem_of_zip_r in Hlook.
      unfold classes, abc_classes in Hlook. cbv zeta in Hlook.
      apply list_elem_of_fmap in Hlook as (c & -> & _). apply abc_class_of_cases.
    + exfalso. apply not_elem_of_list_to_map_2 in Hlook.
      rewrite fst_zip in Hlook by (rewrite length_fmap, Hlen; lia).
      contradiction.
Qed.

End AbcMerge.

(** Three sales of two products, ranked by insertion. *)
Lemma every_sale_classified_witness :
  fst <$> create_abc_classification rank_by_revenue example_sales = example_sales
  /\ Forall (fun rc => exists abc_class,
               rc.2 = Some abc_class /\ abc_class ∈ ["A"; "B"; "C"]%string)
       (create_abc_classification rank_by_revenue example_sales).
Proof.
  apply (every_sale_classified rank_by_revenue rank_by_revenue_perm example_sales).
Defined.

(** ** The generated purchase orders *)

Section GeneratedOrders.

Variable np_random_seed : Z -> rng.
Variable np_random_normal : R -> R -> rng -> R * rng.
Variable now : nat -> Z.

Lemma generate_order_row (sku : string) (i k : nat) (g : rng) :
  gp_sku_id (fst (generate_order np_random_normal now sku i k g)) = sku
  /\ order_ok (now k) (fst (generate_order np_random_normal now sku i k g)).
Proof.
  unfold generate_order, np_random_randint.
  destruct (np_random_normal 14 3 (rng_advance g)) as [x g'].
  cbn [fst gp_sku_id]. split; [reflexivity|].
  unfold order_ok, timedelta_days.
  cbn [gp_lead_time_days gp_receipt_date gp_order_date gp_quantity].
  pose proof (Nat.mod_upper_bound (as_index (rng_peek g)) 365 ltac:(lia)) as Hday.
  change (365 - 0)%nat with 365%nat. rewrite Nat.add_0_l.
  repeat split; lia.
Qed.

Lemma generate_sku_orders_rows (sku : string) (range : list nat) (k : nat) (g : rng) :
  gp_sku_id <$> fst (generate_sku_orders np_random_normal now sku range k g)
  = replicate (length range) sku
  /\ forall j po,
       fst (generate_sku_orders np_random_normal now sku range k g) !! j = Some po ->
       order_ok (now (k + j)) po.
Proof.
  revert k g. induction range as [|i rest IH]; intros k g.
  - split; [reflexivity|]. intros j po Hj. discriminate.
  - cbn [generate_sku_orders].
    pose proof (generate_order_row sku i k g) as [Hsku Hok].
    destruct (generate_order np_random_normal now sku i k g) as [po0 g1].
    specialize (IH (S k) g1).
    destruct (generate_sku_orders np_random_normal now sku rest (S k) g1) as [pos g2].
    cbn [fst] in *. destruct IH as [Hskus Hrows]. split.
    + rewrite fmap_cons, Hsku, Hskus. reflexivity.
    + intros [|j] po Hj.
      * injection Hj as <-. rewrite Nat.add_0_r. exact Hok.
      * rewrite <- Nat.add_succ_comm. apply Hrows. exact Hj.
Qed.

Lemma generate_orders_rows (skus : list string) (k : nat) (g : rng) :
  gp_sku_id <$> fst (generate_orders np_random_normal now skus k g)
  = skus ≫= replicate 20
  /\ forall j po,
       fst (generate_orders np_random_normal now skus k g) !! j = Some po ->
       order_ok (now (k + j)) po.
Proof.
  revert k g. induction skus as [|sku rest IH]; intros k g.
  - split; [reflexivity|]. intros j po Hj. discriminate.
  - cbn [generate_orders].
    pose proof (generate_sku_orders_rows sku (seq 0 20) k g) as [Hsku Hrows].
    destruct (generate_sku_orders np_random_normal now sku (seq 0 20) k g) as [pos g1].
    specialize (IH (k + 20)%nat g1).
    destruct (generate_orders np_random_normal now rest (k + 20) g1) as [pos' g2].
    cbn [fst] in *. destruct IH as [Hskus Hrows']. split.
    + rewrite fmap_app, Hsku, Hskus, length_seq. reflexivity.
    + intros j po Hj.
      assert (Hlen : length pos = 20%nat).
      { rewrite <- (length_fmap gp_sku_id), Hsku, length_replicate, length_seq.
        reflexivity. }
      apply lookup_app_Some in Hj as [Hj | [Hge Hj]].
      * apply Hrows. exact Hj.
      * rewrite Hlen in Hge, Hj.
        replace (k + j)%nat with (k + 20 + (j - 20))%nat by lia.
        apply Hrows'. exact Hj.
Qed.

(** X24.  Whatever the generator, the variates and the clock, the generated
    table holds 20 purchase orders for each distinct SKU of the column, the
    SKUs in the order of their first occurrence; and every order has a lead
    time of at least 5 days, a receipt date that many days after its order
    date, an order date at most 364 days before the reading of the clock
    and not after it, and the quantity 100. *)
Theorem generated_orders_shape (g : rng) (sku_column : list string) :
  gp_sku_id <$> fst (generate_purchase_orders np_random_seed np_random_normal now
                       g sku_column)
  = unique sku_column ≫= replicate 20
  /\ NoDup (unique sku_column)
  /\ (forall sku, sku ∈ unique sku_column <-> sku ∈ sku_column)
  /\ forall j po,
       fst (generate_purchase_orders np_random_seed np_random_normal now g sku_column)
         !! j = Some po ->
       order_ok (now j) po.
Proof.
  unfold generate_purchase_orders. cbv zeta.
  destruct (generate_orders_rows (unique sku_column) 0 (np_random_seed 42))
    as [Hskus Hrows].
  split; [exact Hskus|]. split; [apply unmarked_NoDup|]. split.
  - intros sku. unfold unique. rewrite unmarked_elem, elem_of_nil. tauto.
  - intros j po Hj. apply (Hrows j po Hj).
Qed.

End GeneratedOrders.

(** ** From the generated orders to the lead time statistics *)

Lemma filter_replicate_eq (n : nat) (s sku : string) :
  filter (fun x => x = sku) (replicate n s) = if decide (s = sku) then replicate n s else [].
Proof.
  induction n as [|n IH]; [destruct (decide (s = sku)); reflexivity|].
  cbn [replicate]. rewrite filter_cons, IH.
  destruct (decide (s = sku)); reflexivity.
Qed.

Lemma orders_absent (skus : list string) (sku : string) :
  sku ∉ skus -> filter (fun x => x = sku) (skus ≫= replicate 20) = [].
Proof.
  induction skus as [|s rest IH]; intros Hout; [reflexivity|].
  rewrite bind_cons, filter_app, filter_replicate_eq.
  apply not_elem_of_cons in Hout as [Hne Hout].
  destruct (decide (s = sku)); [congruence|]. rewrite IH by exact Hout. reflexivity.
Qed.

Lemma orders_per_sku (skus : list string) (sku : string) :
  NoDup skus -> sku ∈ skus ->
  length (filter (fun x => x = sku) (skus ≫= replicate 20)) = 20%nat.
Proof.
  induction 1 as [|s rest Hfresh Hnd IH]; intros Hin.
  - apply elem_of_nil in Hin. contradiction.
  - rewrite bind_cons, filter_app, length_app, filter_replicate_eq.
    destruct (decide (s = sku)) as [-> | Hne].
    + rewrite length_replicate, (orders_absent rest sku Hfresh). reflexivity.
    + apply elem_of_cons in Hin as [-> | Hin]; [contradiction|].
      rewrite IH by exact Hin. reflexivity.
Qed.

Lemma read_lead_times (pos : list GeneratedPo) (sku : string) :
  sku_lead_times (read_purchase_orders pos) sku
  = Num <$> ((fun po => IZR (gp_lead_time_days po))
               <$> filter (fun po => gp_sku_id po = sku) pos).
Proof.
  unfold sku_lead_times, read_purchase_orders.
  induction pos as [|po rest IH]; [reflexivity|].
  rewrite fmap_cons, !filter_cons. cbn [po_sku_id].
  destruct (decide (gp_sku_id po = sku)).
  - rewrite !fmap_cons, IH. reflexivity.
  - exact IH.
Qed.

Lemma filter_sku_length (pos : list GeneratedPo) (sku : string) :
  length (filter (fun po => gp_sku_id po = sku) pos)
  = length (filter (fun x => x = sku) (gp_sku_id <$> pos)).
Proof.
  induction pos as [|po rest IH]; [reflexivity|].
  rewrite fmap_cons, !filter_cons.
  destruct (decide (gp_sku_id po = sku)); cbn [length]; rewrite IH; reflexivity.
Qed.

Lemma Rmean_lower (lo : R) (xs : list R) :
  xs <> [] -> Forall (fun x => lo <= x) xs -> lo <= Rmean xs.
Proof.
  intros Hne Hall. unfold Rmean.
  assert (Hs : INR (length xs) * lo <= Rsum xs).
  { clear Hne. induction Hall as [|x l Hx _ IH].
    - simpl. lra.
    - change (Rsum (x :: l)) with (x + Rsum l).
      change (length (x :: l)) with (S (length l)). rewrite S_INR. lra. }
  pose proof (INR_length_pos xs Hne) as Hn.
  assert (Hinv : 0 < / INR (length xs)) by (apply Rinv_0_lt_compat, Hn).
  unfold Rdiv.
  replace lo with (INR (length xs) * lo * / INR (length xs)) by (field; lra).
  apply Rmult_le_compat_r; lra.
Qed.

Section GeneratedLeadTimes.

Variable np_random_seed : Z -> rng.
Variable np_random_normal : R -> R -> rng -> R * rng.
Variable now : nat -> Z.

(** X25.  For a SKU of the column, the engine reads back 20 lead times of
    at least 5 days from the generated table.  The statistics of such a SKU
    therefore never fall back on the defaults: its average lead time is the
    mean of the 20 lead times, at least 5, and its lead time deviation is
    their sample standard deviation. *)
Theorem generated_lead_times_used (g : rng) (sku_column : list string) (sku : string) :
  sku ∈ sku_column ->
  let purchase_orders :=
    read_purchase_orders
      (fst (generate_purchase_orders np_random_seed np_random_normal now g sku_column)) in
  exists leads : list R,
    length leads = 20%nat
    /\ Forall (fun x => 5 <= x) leads
    /\ sku_lead_times purchase_orders sku = Num <$> leads
    /\ 5 <= Rmean leads
    /\ forall daily_demand sku_data,
         calculate_sku_statistics daily_demand purchase_orders !! sku = Some sku_data ->
         Stats.avg_lead_time sku_data = Num (Rmean leads)
         /\ Stats.lead_time_std sku_data = Num (sqrt (Rsvar leads)).
Proof.
  intros Hin purchase_orders. unfold purchase_orders, generate_purchase_orders. cbv zeta.
  destruct (generate_orders_rows np_random_normal now (unique sku_column) 0
              (np_random_seed 42)) as [Hskus Hrows].
  set (pos := fst (generate_orders np_random_normal now (unique sku_column) 0
                     (np_random_seed 42))) in *.
  set (leads := (fun po => IZR (gp_lead_time_days po))
                  <$> filter (fun po => gp_sku_id po = sku) pos).
  assert (Hlen : length leads = 20%nat).
  { unfold leads. rewrite length_fmap, filter_sku_length, Hskus.
    apply orders_per_sku; [apply unmarked_NoDup|].
    unfold unique. rewrite unmarked_elem, elem_of_nil. tauto. }
  assert (Hall : Forall (fun x => 5 <= x) leads).
  { unfold leads. apply Forall_fmap, Forall_forall. intros po Hpo.
    apply list_elem_of_filter in Hpo as [_ Hpo].
    apply list_elem_of_lookup in Hpo as [j Hj].
    destruct (Hrows j po Hj) as [Hlead _].
    unfold compose. apply (IZR_le 5). exact Hlead. }
  assert (Hne : leads <> []) by (intros E; rewrite E in Hlen; discriminate).
  exists leads. split; [exact Hlen|]. split; [exact Hall|].
  split; [apply read_lead_times|]. split; [apply Rmean_lower; assumption|].
  intros daily_demand sku_data Hrow.
  rewrite sku_statistics_lookup in Hrow.
  destruct (sku_quantities daily_demand sku) as [|q0 quantity]; [discriminate|].
  injection Hrow as <-. cbn [Stats.avg_lead_time Stats.lead_time_std].
  rewrite lead_time_group, read_lead_times. fold leads.
  destruct leads as [|l0 leads'] eqn:E; [contradiction|].
  rewrite fmap_cons. cbn [from_option]. rewrite <- fmap_cons.
  rewrite pd_mean_nums by discriminate.
  rewrite pd_std_nums by (rewrite Hlen; lia).
  split; reflexivity.
Qed.

End GeneratedLeadTimes.

(** A column of three sales, two of them of SKU1. *)
Lemma generated_lead_times_used_witness :
  let purchase_orders :=
    read_purchase_orders
      (fst (generate_purchase_orders lcg_seed tape_normal (fun _ => 0%Z) zero_tape
              ["SKU1"; "SKU2"; "SKU1"]%string)) in
  exists leads : list R,
    length leads = 20%nat
    /\ Forall (fun x => 5 <= x) leads
    /\ sku_lead_times purchase_orders "SKU2" = Num <$> leads
    /\ 5 <= Rmean leads
    /\ forall daily_demand sku_data,
         calculate_sku_statistics daily_demand purchase_orders !! "SKU2"%string
         = Some sku_data ->
         Stats.avg_lead_time sku_data = Num (Rmean leads)
         /\ Stats.lead_time_std sku_data = Num (sqrt (Rsvar leads)).
Proof.
  apply (generated_lead_times_used lcg_seed tape_normal (fun _ => 0%Z) zero_tape
           ["SKU1"; "SKU2"; "SKU1"]%string "SKU2"%string).
  repeat constructor.
Defined.

(** ** From the prepared tables to the simulation *)

Section SortedGroupProperties.

Context {K : Type} `{Countable K} {A : Type}.

Lemma group_by_key_lookup (rows : list (K * A)) (k : K) :
  group_by_key rows !! k =
  match snd <$> filter (fun kv => kv.1 = k) rows with
  | [] => None
  | vs => Some vs
  end.
Proof.
  induction rows as [|[k' v] rows IH].
  - reflexivity.
  - cbn [group_by_key foldr fst snd]. fold (group_by_key rows).
    rewrite filter_cons. cbn [fst].
    destruct (decide (k' = k)) as [-> | Hne].
    + rewrite lookup_partial_alter_eq, IH, fmap_cons. cbn [snd].
      destruct (snd <$> filter (fun kv : K * A => kv.1 = k) rows); reflexivity.
    + rewrite lookup_partial_alter_ne by exact Hne. exact IH.
Qed.

Variable key_leb : K -> K -> bool.

Lemma insert_by_key_perm (x : K * list A) t : insert_by_key key_leb x t ≡ₚ x :: t.
Proof.
  induction t as [|y rest IH]; [reflexivity|].
  cbn [insert_by_key]. destruct (key_leb x.1 y.1); [reflexivity|].
  rewrite IH. apply Permutation_swap.
Qed.

Lemma sorted_groups_perm (rows : list (K * A)) :
  sorted_groups key_leb rows ≡ₚ map_to_list (group_by_key rows).
Proof.
  unfold sorted_groups. induction (map_to_list (group_by_key rows)) as [|x t IH].
  - reflexivity.
  - cbn [foldr]. rewrite insert_by_key_perm, IH. reflexivity.
Qed.

(** The groups are those of the keys that occur, each with its values. *)
Lemma sorted_groups_elem (rows : list (K * A)) (k : K) (vs : list A) :
  (k, vs) ∈ sorted_groups key_leb rows
  <-> vs <> [] /\ vs = snd <$> filter (fun kv => kv.1 = k) rows.
Proof.
  rewrite sorted_groups_perm, elem_of_map_to_list, group_by_key_lookup.
  destruct (snd <$> filter (fun kv : K * A => kv.1 = k) rows) as [|v l].
  - split; [discriminate|]. intros [Hne ->]. contradiction.
  - split.
    + intros [= <-]. split; [discriminate | reflexivity].
    + intros [_ ->]. reflexivity.
Qed.

End SortedGroupProperties.

Lemma elem_filter_nonempty {A} (P : A -> Prop) `{forall x, Decision (P x)}
    (l : list A) (x : A) :
  x ∈ l -> P x -> filter P l <> [].
Proof.
  intros Hin HP E.
  assert (Hx : x ∈ filter P l) by (apply list_elem_of_filter; split; assumption).
  rewrite E in Hx. apply elem_of_nil in Hx. exact Hx.
Qed.

Lemma fmap_nonempty {A B} (f : A -> B) (l : list A) : l <> [] -> f <$> l <> [].
Proof. destruct l; [contradiction | discriminate]. Qed.

Lemma abc_skus_master (sku_master : list SkuRow) (sku : string) :
  sku ∈ abc_skus sku_master -> sku ∈ sm_sku_id <$> sku_master.
Proof.
  unfold abc_skus. rewrite !list_elem_of_fmap. intros (r & -> & Hr).
  apply list_elem_of_filter in Hr as [_ Hr]. exists r. split; [reflexivity | exact Hr].
Qed.

Section PreparedTables.

Variable norm_ppf : f64 -> f64.
Variable np_random_seed : Z -> rng.
Variable np_random_shuffle : rng -> list string -> list string * rng.
Variable np_random_normal : R -> R -> rng -> R * rng.
Variable now : nat -> Z.
Variables (service_level : f64) (test_days : nat).
Hypothesis shuffle_perm : forall g x, fst (np_random_shuffle g x) ≡ₚ x.

Lemma master_skus (df : list ClassifiedRow) (sku : string) :
  sku ∈ fst <$> sorted_groups String.leb ((fun r => (cr_sku r, cr_abc_class r)) <$> df)
  <-> sku ∈ cr_sku <$> df.
Proof.
  rewrite !list_elem_of_fmap. split.
  - intros ([k vs] & -> & Hkv). apply sorted_groups_elem in Hkv as [Hne ->].
    cbn [fst].
    destruct (filter (fun kv : string * string => kv.1 = k)
                ((fun r => (cr_sku r, cr_abc_class r)) <$> df)) as [|kv l] eqn:E;
      [contradiction|].
    assert (Hkv : kv ∈ filter (fun kv : string * string => kv.1 = k)
                         ((fun r => (cr_sku r, cr_abc_class r)) <$> df))
      by (rewrite E; left).
    apply list_elem_of_filter in Hkv as [Hk Hkv].
    apply list_elem_of_fmap in Hkv as (r & -> & Hr).
    exists r. split; [symmetry; exact Hk | exact Hr].
  - intros (r & -> & Hr).
    exists (cr_sku r, snd <$> filter (fun kv : string * string => kv.1 = cr_sku r)
                        ((fun r => (cr_sku r, cr_abc_class r)) <$> df)).
    split; [reflexivity|]. apply sorted_groups_elem. split; [|reflexivity].
    apply fmap_nonempty.
    apply (elem_filter_nonempty _ _ (cr_sku r, cr_abc_class r)); [|reflexivity].
    apply list_elem_of_fmap. exists r. split; [reflexivity | exact Hr].
Qed.

Lemma demand_of_sale (df : list ClassifiedRow) (r : ClassifiedRow) :
  r ∈ df ->
  sku_quantities
    ((fun kv => mkDemandRow kv.1.1 kv.1.2 (Pd.sum kv.2))
       <$> sorted_groups date_sku_leb
             ((fun r => ((cr_date r, cr_sku r), cr_qty r)) <$> df)) (cr_sku r)
  <> [].
Proof.
  intros Hr. unfold sku_quantities. apply fmap_nonempty.
  set (rows := (fun r => ((cr_date r, cr_sku r), cr_qty r)) <$> df).
  set (vs := snd <$> filter (fun kv : nat * string * f64 => kv.1 = (cr_date r, cr_sku r))
                       rows).
  apply (elem_filter_nonempty _ _ (mkDemandRow (cr_date r) (cr_sku r) (Pd.sum vs)));
    [|reflexivity].
  apply list_elem_of_fmap. exists ((cr_date r, cr_sku r), vs). split; [reflexivity|].
  apply sorted_groups_elem. split; [|reflexivity].
  apply fmap_nonempty.
  apply (elem_filter_nonempty _ _ ((cr_date r, cr_sku r), cr_qty r)); [|reflexivity].
  apply list_elem_of_fmap. exists r. split; [reflexivity | exact Hr].
Qed.

(** X26.  The tables that [create_output_tables] writes fit the engine:
    the SKU master has one row for each distinct SKU of the sales table,
    every SKU of the master has a demand row, and with a seed that the
    configuration supplies and a shuffle that rearranges its argument the
    run of both groups on these tables does not fail. *)
Theorem prepared_tables_run
    (config : gmap string (gmap string scalar)) (g g' : rng) (seed : Z)
    (df : list ClassifiedRow) :
  cfg_get config "ab_test" "random_seed" = Some (SInt seed) ->
  (0 <= seed < 2 ^ 32)%Z ->
  let tables := fst (create_output_tables np_random_seed np_random_normal now g' df) in
  let daily_demand := tables.1.1 in
  let sku_master := tables.1.2 in
  let purchase_orders := read_purchase_orders tables.2 in
  sm_sku_id <$> sku_master ≡ₚ unique (cr_sku <$> df)
  /\ Forall (fun sku => sku_quantities daily_demand sku <> []) (sm_sku_id <$> sku_master)
  /\ is_Some (run_simulation norm_ppf np_random_seed np_random_shuffle service_level
                test_days config g daily_demand sku_master purchase_orders).
Proof using shuffle_perm.
  intros Hseed Hrange. unfold create_output_tables.
  destruct (generate_purchase_orders np_random_seed np_random_normal now g'
              (cr_sku <$> df)) as [po g''].
  cbv zeta. cbn [fst snd].
  set (daily_demand := (fun kv : nat * string * list f64 =>
                          mkDemandRow kv.1.1 kv.1.2 (Pd.sum kv.2)) <$> _).
  set (groups := sorted_groups String.leb ((fun r => (cr_sku r, cr_abc_class r)) <$> df)).
  assert (Hids : sm_sku_id <$> ((fun kv : string * list string =>
                                   mkSkuRow kv.1 (first_value kv.2)) <$> groups)
                 = fst <$> groups).
  { rewrite <- list_fmap_compose. reflexivity. }
  set (sku_master := (fun kv : string * list string =>
                        mkSkuRow kv.1 (first_value kv.2)) <$> groups) in *.
  assert (Hdemand : Forall (fun sku => sku_quantities daily_demand sku <> [])
                      (sm_sku_id <$> sku_master)).
  { rewrite Hids. apply Forall_forall. intros sku Hsku.
    apply master_skus, list_elem_of_fmap in Hsku as (r & -> & Hr).
    apply demand_of_sale, Hr. }
  split; [|split; [exact Hdemand|]].
  - rewrite Hids. apply NoDup_Permutation.
    + unfold groups. rewrite sorted_groups_perm. apply NoDup_fst_map_to_list.
    + apply unmarked_NoDup.
    + intros sku. unfold groups, unique.
      rewrite master_skus, unmarked_elem, elem_of_nil. tauto.
  - destruct (run_simulation_steps norm_ppf np_random_seed np_random_shuffle
                service_level test_days shuffle_perm config g seed daily_demand
                sku_master (read_purchase_orders po) Hseed Hrange)
      as (control & treatment & g1 & Hperm & _ & ->).
    set (sku_stats := calculate_sku_statistics daily_demand (read_purchase_orders po)).
    assert (Hstats : forall sku, sku ∈ control ++ treatment -> sku_stats !! sku <> None).
    { intros sku Hsku Hnone. rewrite Hperm in Hsku.
      apply abc_skus_master in Hsku.
      rewrite Forall_forall in Hdemand. apply (Hdemand sku Hsku).
      apply (sku_statistics_none daily_demand (read_purchase_orders po)), Hnone. }
    pose proof (simulate_group_stats norm_ppf service_level test_days g1 control
                  daily_demand sku_stats fixed) as Hc.
    destruct (simulate_group norm_ppf service_level test_days g1 control daily_demand
                sku_stats fixed) as [[control_results g2]|]; cbn [mbind option_bind].
    + pose proof (simulate_group_stats norm_ppf service_level test_days g2 treatment
                    daily_demand sku_stats dynamic) as Ht.
      destruct (simulate_group norm_ppf service_level test_days g2 treatment daily_demand
                  sku_stats dynamic) as [[treatment_results g3]|];
        cbn [mbind option_bind].
      * eexists. reflexivity.
      * exfalso. apply Exists_exists in Ht as (sku & Hsku & Hnone).
        apply (Hstats sku); [|exact Hnone]. apply elem_of_app. right. exact Hsku.
    + exfalso. apply Exists_exists in Hc as (sku & Hsku & Hnone).
      apply (Hstats sku); [|exact Hnone]. apply elem_of_app. left. exact Hsku.
Qed.

End PreparedTables.

(** Three classified sales of two products, with seed 42. *)
Lemma prepared_tables_run_witness :
  let tables :=
    fst (create_output_tables lcg_seed tape_normal (fun _ => 0%Z) zero_tape
           example_classified) in
  let daily_demand := tables.1.1 in
  let sku_master := tables.1.2 in
  let purchase_orders := read_purchase_orders tables.2 in
  sm_sku_id <$> sku_master ≡ₚ unique (cr_sku <$> example_classified)
  /\ Forall (fun sku => sku_quantities daily_demand sku <> []) (sm_sku_id <$> sku_master)
  /\ is_Some (run_simulation logistic_ppf lcg_seed tape_shuffle (Num 0.95) 90
                example_config zero_tape daily_demand sku_master purchase_orders).
Proof.
  apply (prepared_tables_run logistic_ppf lcg_seed tape_shuffle tape_normal
           (fun _ => 0%Z) (Num 0.95) 90 tape_shuffle_perm example_config zero_tape
           zero_tape 42 example_classified).
  - reflexivity.
  - lia.
Defined.

(** ** The two detections of the columns *)

Section ColumnDetectionProperties.

Variable lower : string -> string.

Lemma columns_with_more (keys : list string) (key : string) (columns : list string) :
  Forall (fun c => contains key (lower c) = false) columns ->
  columns_with lower (keys ++ [key]) columns = columns_with lower keys columns.
Proof.
  intros Hnone. unfold columns_with.
  induction Hnone as [|c rest Hc _ IH]; [reflexivity|].
  rewrite !filter_cons, IH, existsb_app. cbn [existsb]. rewrite Hc, !orb_false_r.
  destruct (existsb (fun x => contains x (lower c)) keys); reflexivity.
Qed.

Lemma head_columns_app (keys : list string) (columns added : list string) (c : string) :
  head (columns_with lower keys columns) = Some c ->
  head (columns_with lower keys (columns ++ added)) = Some c.
Proof.
  unfold columns_with. rewrite filter_app.
  destruct (filter _ columns); [discriminate|]. intros H. exact H.
Qed.

(** X27.  When [main] finds its three columns and no column name contains
    'item' or 'demand', [create_output_tables] finds the same SKU, quantity
    and cost columns again, whatever columns the steps in between have
    appended to the table. *)
Theorem detected_columns_agree
    (columns added : list string) (sku_col qty_col cost_col : string) :
  main_columns lower columns = Some (sku_col, qty_col, cost_col) ->
  Forall (fun c => contains "item" (lower c) = false) (columns ++ added) ->
  Forall (fun c => contains "demand" (lower c) = false) (columns ++ added) ->
  exists date_col,
    detect_columns lower (columns ++ added) = Some (date_col, sku_col, qty_col, cost_col).
Proof.
  intros Hmain Hitem Hdemand. unfold main_columns in Hmain.
  destruct (head (columns_with lower ["product"; "sku"]%string columns))
    as [sku|] eqn:Hsku; [|discriminate].
  destruct (head (columns_with lower ["quantity"; "sales"]%string columns))
    as [qty|] eqn:Hqty; [|discriminate].
  destruct (head (columns_with lower ["price"; "cost"]%string columns))
    as [cost|] eqn:Hcost; [|discriminate].
  cbn [mbind option_bind] in Hmain. injection Hmain as -> -> ->.
  unfold detect_columns. cbv zeta.
  change ["product"; "sku"; "item"]%string
    with (app ["product"; "sku"]%string ["item"]%string).
  change ["quantity"; "sales"; "demand"]%string
    with (app ["quantity"; "sales"]%string ["demand"]%string).
  rewrite (columns_with_more _ _ _ Hitem), (columns_with_more _ _ _ Hdemand).
  rewrite (head_columns_app _ _ added _ Hsku), (head_columns_app _ _ added _ Hqty),
    (head_columns_app _ _ added _ Hcost).
  destruct columns as [|c0 columns]; [discriminate|].
  destruct (head (columns_with lower ["date"]%string ((c0 :: columns) ++ added)))
    as [date|]; eexists; reflexivity.
Qed.

End ColumnDetectionProperties.

(** The columns of a sales file, and the columns that the features and the
    classification append. *)
Lemma detected_columns_agree_witness :
  exists date_col,
    detect_columns ascii_lower
      (app ["Date"; "Product_ID"; "Quantity"; "Price"]%string
           ["fulfillment_center"; "prime_eligible"; "storage_type"; "abc_class"]%string)
    = Some (date_col, "Product_ID", "Quantity", "Price")%string.
Proof.
  apply (detected_columns_agree ascii_lower
           ["Date"; "Product_ID"; "Quantity"; "Price"]%string
           ["fulfillment_center"; "prime_eligible"; "storage_type"; "abc_class"]%string).
  - vm_compute. reflexivity.
  - repeat constructor.
  - repeat constructor.
Defined.
